(** * Audiobook-Manager: the authentication gateway

    A shallow embedding of [library/backend/api_modular/auth.py] (the Flask
    blueprint mounted under [/auth]) and of the repository operations it
    calls, followed by the properties of the design document that concern
    it.

    Conventions.
    - Python [str] values are [string]s; only the ASCII range of
      [str.strip], [str.lower] and [str.upper] is modelled.
    - Wall-clock instants are seconds in [Z].
    - Handlers are programs of the monad [M]: they read and write a [World]
      and either return a value or raise an exception, as Python does. *)

From Stdlib Require Import ZArith List String Ascii Bool Lia.
Import ListNotations.

Local Open Scope string_scope.
Local Open Scope Z_scope.

Set Warnings "-register-all".

(* ===================================================================== *)
(** * Python strings *)
(* ===================================================================== *)

(** [str.isspace] on the ASCII range: TAB, LF, VT, FF, CR, FS, GS, RS, US
    and the blank. *)
Definition is_space (c : ascii) : bool :=
  let n := nat_of_ascii c in
  ((9 <=? n) && (n <=? 13) || (28 <=? n) && (n <=? 32))%nat.

Fixpoint lstrip (s : string) : string :=
  match s with
  | EmptyString => EmptyString
  | String c s' => if is_space c then lstrip s' else s
  end.

Fixpoint rstrip (s : string) : string :=
  match s with
  | EmptyString => EmptyString
  | String c s' =>
      match rstrip s' with
      | EmptyString => if is_space c then EmptyString else String c EmptyString
      | r => String c r
      end
  end.

(** [s.strip()] *)
Definition strip (s : string) : string := rstrip (lstrip s).

(** [s.split(sep)[0]]: the text before the first separator. *)
Fixpoint split_head (sep : ascii) (s : string) : string :=
  match s with
  | EmptyString => EmptyString
  | String c s' => if Ascii.eqb c sep then EmptyString else String c (split_head sep s')
  end.

Definition lower_ascii (c : ascii) : ascii :=
  let n := nat_of_ascii c in
  if ((65 <=? n) && (n <=? 90))%nat then ascii_of_nat (n + 32) else c.

Definition upper_ascii (c : ascii) : ascii :=
  let n := nat_of_ascii c in
  if ((97 <=? n) && (n <=? 122))%nat then ascii_of_nat (n - 32) else c.

Fixpoint map_string (f : ascii -> ascii) (s : string) : string :=
  match s with
  | EmptyString => EmptyString
  | String c s' => String (f c) (map_string f s')
  end.

(** [s.lower()] and [s.upper()] *)
Definition lower (s : string) : string := map_string lower_ascii s.
Definition upper (s : string) : string := map_string upper_ascii s.

Fixpoint filter_string (keep : ascii -> bool) (s : string) : string :=
  match s with
  | EmptyString => EmptyString
  | String c s' => if keep c then String c (filter_string keep s') else filter_string keep s'
  end.

(** Python truthiness of a [str]: [not s] holds for the empty string only. *)
Definition str_truthy (s : string) : bool :=
  match s with EmptyString => false | _ => true end.

(** [x in (a, b, ...)] on strings. *)
Definition str_in (x : string) (l : list string) : bool :=
  existsb (String.eqb x) l.

(* ===================================================================== *)
(** * JSON values and HTTP messages *)
(* ===================================================================== *)

Inductive json : Type :=
| JNull
| JBool (b : bool)
| JInt (z : Z)
| JStr (s : string)
| JArr (l : list json)
| JObj (l : list (string * json)).

(** Python truthiness of a decoded JSON value ([if not data]). *)
Definition truthy (j : json) : bool :=
  match j with
  | JNull => false
  | JBool b => b
  | JInt z => negb (z =? 0)
  | JStr s => str_truthy s
  | JArr l => match l with [] => false | _ => true end
  | JObj l => match l with [] => false | _ => true end
  end.

Fixpoint assoc {A} (k : string) (l : list (string * A)) : option A :=
  match l with
  | [] => None
  | (k', v) :: l' => if String.eqb k k' then Some v else assoc k l'
  end.

(** What a handler sends back: status, JSON body, and what it does to the
    session cookie ([response.set_cookie] / [response.delete_cookie]). *)
Inductive CookieAction : Type :=
| KeepCookie
| SetCookie (token : string) (max_age : option Z)
| DeleteCookie.

Record Response : Type := mkResponse {
  status : Z;
  body : json;
  cookie_action : CookieAction
}.

(** [jsonify(obj), code] and plain [jsonify(obj)] (status 200). *)
Definition jsonify_status (obj : json) (code : Z) : Response :=
  mkResponse code obj KeepCookie.
Definition jsonify (obj : json) : Response := jsonify_status obj 200.

Definition error_body (msg : string) : json := JObj [("error", JStr msg)].

(** The part of a Flask [request] the blueprint reads. *)
Record Request : Type := mkRequest {
  remote_addr : option string;
  headers : list (string * string);
  cookies : list (string * string);
  get_json : json
}.

(* ===================================================================== *)
(** * Data model *)
(* ===================================================================== *)

(** Modelled from the spec: the enumerations and row types of
    [auth/models.py] and [auth/backup_codes.py], which the blueprint imports
    (section 3 of the design document lists their fields). *)
Inductive AuthType : Type := TOTP | WEBAUTHN.

Inductive InboxStatus : Type := UNREAD | READ | REPLIED | ARCHIVED.

Inductive ReplyMethod : Type := IN_APP | EMAIL.

(** A row id is a positive integer once the row is stored; an object that
    was never saved (Python [id is None]) carries [0], which the store never
    assigns. *)
Definition UNSAVED : Z := 0.

Record User : Type := mkUser {
  user_id : Z;
  username : string;
  auth_type : AuthType;
  auth_credential : string;
  can_download : bool;
  is_admin : bool;
  recovery_email : option string;
  recovery_phone : option string;
  recovery_enabled : bool;
  last_login : option Z
}.

Record Session : Type := mkSession {
  session_id : Z;
  session_user_id : Z;
  session_token_hash : string;
  session_user_agent : option string;
  session_ip_address : option string;
  session_created_at : Z;
  session_last_seen : Z
}.

Record PendingRegistration : Type := mkPendingRegistration {
  reg_id : Z;
  reg_username : string;
  reg_token_hash : string;
  reg_created_at : Z;
  reg_expires_at : Z
}.

Record PendingRecovery : Type := mkPendingRecovery {
  rec_id : Z;
  rec_user_id : Z;
  rec_token_hash : string;
  rec_expires_at : Z;
  rec_used_at : option Z
}.

Record BackupCode : Type := mkBackupCode {
  code_id : Z;
  code_user_id : Z;
  code_hash : string;
  code_used_at : option Z
}.

Record InboxMessage : Type := mkInboxMessage {
  msg_id : Z;
  msg_from_user_id : Z;
  msg_message : string;
  msg_reply_via : ReplyMethod;
  msg_reply_email : option string;
  msg_status : InboxStatus;
  msg_created_at : option Z;
  msg_read_at : option Z;
  msg_replied_at : option Z
}.

(** The encrypted database: one list of rows per table, in insertion order,
    and the next row id to hand out. *)
Record Store : Type := mkStore {
  users : list User;
  sessions : list Session;
  pending_registrations : list PendingRegistration;
  pending_recoveries : list PendingRecovery;
  backup_codes : list BackupCode;
  inbox : list InboxMessage;
  contact_log : list (Z * Z);
  next_id : Z
}.

Definition empty_store : Store := mkStore [] [] [] [] [] [] [] 1.

Definition set_users (v : list User) (d : Store) : Store :=
  mkStore v (sessions d) (pending_registrations d) (pending_recoveries d)
          (backup_codes d) (inbox d) (contact_log d) (next_id d).
Definition set_sessions (v : list Session) (d : Store) : Store :=
  mkStore (users d) v (pending_registrations d) (pending_recoveries d)
          (backup_codes d) (inbox d) (contact_log d) (next_id d).
Definition set_pending_registrations (v : list PendingRegistration) (d : Store) : Store :=
  mkStore (users d) (sessions d) v (pending_recoveries d)
          (backup_codes d) (inbox d) (contact_log d) (next_id d).
Definition set_pending_recoveries (v : list PendingRecovery) (d : Store) : Store :=
  mkStore (users d) (sessions d) (pending_registrations d) v
          (backup_codes d) (inbox d) (contact_log d) (next_id d).
Definition set_backup_codes (v : list BackupCode) (d : Store) : Store :=
  mkStore (users d) (sessions d) (pending_registrations d) (pending_recoveries d)
          v (inbox d) (contact_log d) (next_id d).
Definition set_inbox (v : list InboxMessage) (d : Store) : Store :=
  mkStore (users d) (sessions d) (pending_registrations d) (pending_recoveries d)
          (backup_codes d) v (contact_log d) (next_id d).
Definition set_contact_log (v : list (Z * Z)) (d : Store) : Store :=
  mkStore (users d) (sessions d) (pending_registrations d) (pending_recoveries d)
          (backup_codes d) (inbox d) v (next_id d).
Definition bump_id (n : Z) (d : Store) : Store :=
  mkStore (users d) (sessions d) (pending_registrations d) (pending_recoveries d)
          (backup_codes d) (inbox d) (contact_log d) (next_id d + n).

(* ===================================================================== *)
(** * The world a handler runs in, and the handler monad *)
(* ===================================================================== *)

(** Exceptions that escape a handler (Flask answers 500 for them). *)
Inductive Exn : Type :=
| StoreError        (* a repository call failed *)
| AttributeError.   (* [.get] on a non-object, [.strip] on a non-string *)

Inductive Outcome (A : Type) : Type :=
| Ret (a : A)
| Raise (e : Exn).
Arguments Ret {A} a.
Arguments Raise {A} e.

(** Flask's request-scoped [g]: an attribute is absent ([None]) until
    [get_current_user] sets it. *)
Record G : Type := mkG {
  g_current_user : option (option User);
  g_current_session : option (option Session)
}.

Definition fresh_g : G := mkG None None.

(** Entries of the application log ([current_app.logger.error]):
    - [SmtpFailed to]: "Failed to send magic link email: <exception>",
      written by [_send_magic_link_email] for the recipient [to];
    - [MagicLinkNotSent uid]: "Failed to send magic link email to user
      <uid>", written by the [/magic-link] handler. *)
Inductive LogEntry : Type :=
| SmtpFailed (to : string)
| MagicLinkNotSent (uid : Z).

(** Everything a handler can observe or change.
    - [db]: the store. Every repository call commits on its own; the
      blueprint never opens a transaction around several of them.
    - [faults]: the fate of the coming repository calls, one bit per call
      ([true]: the call raises [StoreError] and changes nothing); when the
      list is exhausted the calls succeed.
    - [rng]: how many random values were drawn so far.
    - [clock]: the current instant.
    - [smtp_up]: whether sending a mail succeeds.
    - [dev_mode]: [current_app.config["AUTH_DEV_MODE"]].
    - [log]: the application log, latest entry first. *)
Record World : Type := mkWorld {
  db : Store;
  g : G;
  faults : list bool;
  rng : nat;
  clock : Z;
  smtp_up : bool;
  dev_mode : bool;
  log : list LogEntry
}.

Definition set_db (d : Store) (w : World) : World :=
  mkWorld d (g w) (faults w) (rng w) (clock w) (smtp_up w) (dev_mode w) (log w).
Definition set_g (x : G) (w : World) : World :=
  mkWorld (db w) x (faults w) (rng w) (clock w) (smtp_up w) (dev_mode w) (log w).
Definition set_faults (fs : list bool) (w : World) : World :=
  mkWorld (db w) (g w) fs (rng w) (clock w) (smtp_up w) (dev_mode w) (log w).
Definition set_rng (n : nat) (w : World) : World :=
  mkWorld (db w) (g w) (faults w) n (clock w) (smtp_up w) (dev_mode w) (log w).
Definition add_log (entry : LogEntry) (w : World) : World :=
  mkWorld (db w) (g w) (faults w) (rng w) (clock w) (smtp_up w) (dev_mode w)
          (entry :: log w).

(** A world in which no repository call fails. *)
Definition healthy (d : Store) (n : nat) (t : Z) (smtp dev : bool) : World :=
  mkWorld d fresh_g [] n t smtp dev [].

Definition M (A : Type) : Type := World -> Outcome A * World.

Definition ret {A} (a : A) : M A := fun w => (Ret a, w).

Definition raise {A} (e : Exn) : M A := fun w => (Raise e, w).

Definition bind {A B} (m : M A) (k : A -> M B) : M B :=
  fun w =>
    match m w with
    | (Ret a, w') => k a w'
    | (Raise e, w') => (Raise e, w')
    end.

Declare Scope m_scope.
Delimit Scope m_scope with M.
Notation "x <- m ;; k" := (bind m (fun x => k))
  (at level 61, m at next level, right associativity) : m_scope.
Notation "' pat <- m ;; k" := (bind m (fun x => match x with pat => k end))
  (at level 61, pat pattern, m at next level, right associativity) : m_scope.
Notation "m ;;; k" := (bind m (fun _ => k))
  (at level 61, right associativity) : m_scope.
Local Open Scope m_scope.

(** A repository call: a function of the store, unless the call fails. *)
Definition repo {A} (f : Store -> A * Store) : M A :=
  fun w =>
    match faults w with
    | true :: fs => (Raise StoreError, set_faults fs w)
    | false :: fs => let (a, d) := f (db w) in (Ret a, set_db d (set_faults fs w))
    | [] => let (a, d) := f (db w) in (Ret a, set_db d w)
    end.

(** A repository call that only reads. *)
Definition query {A} (f : Store -> A) : M A := repo (fun d => (f d, d)).

(** A repository call that only writes. *)
Definition update (f : Store -> Store) : M unit := repo (fun d => (tt, f d)).

(** [datetime.now()] *)
Definition now : M Z := fun w => (Ret (clock w), w).

(** One draw from the random source [gen]. *)
Definition draw {A} (gen : nat -> A) : M A :=
  fun w => (Ret (gen (rng w)), set_rng (S (rng w)) w).

(** [current_app.logger.error(entry)] *)
Definition logger_error (entry : LogEntry) : M unit :=
  fun w => (Ret tt, add_log entry w).

Definition get_g : M G := fun w => (Ret (g w), w).
Definition put_g (x : G) : M unit := fun w => (Ret tt, set_g x w).

(** [data.get(key, default)] on a decoded body. *)
Definition dict_get (data : json) (key : string) (default : json) : M json :=
  match data with
  | JObj l => ret (match assoc key l with Some v => v | None => default end)
  | _ => raise AttributeError
  end.

(** [key in data] *)
Definition dict_has (data : json) (key : string) : bool :=
  match data with
  | JObj l => match assoc key l with Some _ => true | None => false end
  | _ => false
  end.

(** [v.strip()] *)
Definition py_strip (v : json) : M string :=
  match v with
  | JStr s => ret (strip s)
  | _ => raise AttributeError
  end.

(** [data.get(key, default).strip()] *)
Definition get_stripped (data : json) (key default : string) : M string :=
  v <- dict_get data key (JStr default) ;; py_strip v.

(** [s or None] *)
Definition or_none (s : string) : option string :=
  if str_truthy s then Some s else None.

(** Truthiness of an optional string ([None] and the empty string are
    false). *)
Definition opt_truthy (o : option string) : bool :=
  match o with Some s => str_truthy s | None => false end.

Definition json_opt_str (o : option string) : json :=
  match o with Some s => JStr s | None => JNull end.

(* ===================================================================== *)
(** * Primitives of the platform *)
(* ===================================================================== *)

(** The cryptographic and random primitives, which live in [auth/database.py],
    [auth/totp.py], [auth/backup_codes.py] and Python's [secrets]. The
    development is parametric in them.
    - [hash_token raw]: the stored form of a session or verification token;
    - [hash_backup_code c]: the stored form of a normalised backup code;
    - [verify_totp secret code t]: [verify_code(secret, code)] called at
      instant [t];
    - [random_secret n], [random_code n], [random_token n]: the value of
      the [n]-th draw when it is a TOTP secret, a backup code in display
      form, or a URL-safe token. *)
Record Platform : Type := mkPlatform {
  hash_token : string -> string;
  hash_backup_code : string -> string;
  verify_totp : string -> string -> Z -> bool;
  secret_to_base32 : string -> string;
  get_provisioning_uri : string -> string -> string;
  generate_qr_code : string -> string -> string;
  random_secret : nat -> string;
  random_code : nat -> string;
  random_token : nat -> string
}.

Definition is_none {A} (o : option A) : bool :=
  match o with None => true | Some _ => false end.

Section Gateway.

Variable P : Platform.

(* --------------------------------------------------------------------- *)
(** ** TOTP *)

(** Modelled from the spec: [auth.totp.setup_totp(username)], which draws a
    fresh secret and returns it with its base32 form and provisioning URI. *)
Definition setup_totp (name : string) : M (string * string * string) :=
  secret <- draw (random_secret P) ;;
  ret (secret, secret_to_base32 P secret, get_provisioning_uri P secret name).

(* --------------------------------------------------------------------- *)
(** ** UserRepository *)

Definition with_id (i : Z) (u : User) : User :=
  mkUser i (username u) (auth_type u) (auth_credential u) (can_download u)
         (is_admin u) (recovery_email u) (recovery_phone u)
         (recovery_enabled u) (last_login u).

Definition with_credential (ty : AuthType) (secret : string) (u : User) : User :=
  mkUser (user_id u) (username u) ty secret (can_download u)
         (is_admin u) (recovery_email u) (recovery_phone u)
         (recovery_enabled u) (last_login u).

Definition with_recovery (email phone : option string) (enabled : bool) (u : User) : User :=
  mkUser (user_id u) (username u) (auth_type u) (auth_credential u)
         (can_download u) (is_admin u) email phone enabled (last_login u).

Definition with_last_login (t : Z) (u : User) : User :=
  mkUser (user_id u) (username u) (auth_type u) (auth_credential u)
         (can_download u) (is_admin u) (recovery_email u) (recovery_phone u)
         (recovery_enabled u) (Some t).

(** Modelled from the spec: [UserRepository.get_by_username],
    [get_by_id] and [username_exists] of [auth/models.py]. Usernames
    compare case-sensitively. *)
Definition get_by_username (name : string) : M (option User) :=
  query (fun d => find (fun u => String.eqb (username u) name) (users d)).

Definition get_by_id (uid : Z) : M (option User) :=
  query (fun d => find (fun u => user_id u =? uid) (users d)).

Definition username_exists (name : string) : M bool :=
  query (fun d => existsb (fun u => String.eqb (username u) name) (users d)).

(** Modelled from the spec: [User.save(db)], an upsert that recomputes
    [recovery_enabled]; a new row receives the next id. The saved object is
    returned (Python updates it in place). *)
Definition recomputed (u : User) : User :=
  with_recovery (recovery_email u) (recovery_phone u)
    (opt_truthy (recovery_email u) || opt_truthy (recovery_phone u)) u.

Definition replace_user (u : User) (l : list User) : list User :=
  map (fun r => if user_id r =? user_id u then u else r) l.

Definition save_user (u : User) (d : Store) : User * Store :=
  if user_id u =? UNSAVED then
    let u' := with_id (next_id d) (recomputed u) in
    (u', bump_id 1 (set_users (users d ++ [u']) d))
  else
    let u' := recomputed u in
    (u', set_users (replace_user u' (users d)) d).

Definition User_save (u : User) : M User := repo (save_user u).

(** Modelled from the spec: [User.update_last_login(db)] sets
    [last_login = now] on the object and on its row. *)
Definition User_update_last_login (u : User) : M User :=
  t <- now ;;
  repo (fun d =>
    (with_last_login t u,
     set_users
       (map (fun r => if user_id r =? user_id u then with_last_login t r else r)
            (users d)) d)).

(* --------------------------------------------------------------------- *)
(** ** SessionRepository *)

(** Modelled from the spec: [SessionRepository.get_by_token] hashes the raw
    token and looks the hash up. *)
Definition SessionRepository_get_by_token (raw : string) : M (option Session) :=
  query (fun d =>
    find (fun s => String.eqb (session_token_hash s) (hash_token P raw)) (sessions d)).

(** Modelled from the spec: [Session.is_stale(grace_minutes)] holds when
    [last_seen] is older than the grace. *)
Definition is_stale (s : Session) (grace_minutes : Z) (t : Z) : bool :=
  grace_minutes * 60 <? t - session_last_seen s.

Definition delete_session (sid : Z) (l : list Session) : list Session :=
  filter (fun s => negb (session_id s =? sid)) l.

Definition delete_user_sessions (uid : Z) (l : list Session) : list Session :=
  filter (fun s => negb (session_user_id s =? uid)) l.

(** Modelled from the spec: [Session.invalidate(db)] and
    [SessionRepository.invalidate_user_sessions(user_id)] delete. *)
Definition Session_invalidate (s : Session) : M unit :=
  update (fun d => set_sessions (delete_session (session_id s) (sessions d)) d).

Definition invalidate_user_sessions (uid : Z) : M unit :=
  update (fun d => set_sessions (delete_user_sessions uid (sessions d)) d).

Definition with_last_seen (t : Z) (s : Session) : Session :=
  mkSession (session_id s) (session_user_id s) (session_token_hash s)
            (session_user_agent s) (session_ip_address s)
            (session_created_at s) t.

(** Modelled from the spec: [Session.touch(db)] sets [last_seen = now] on
    the object and on its row, at most once per 60 seconds per session. *)
Definition TOUCH_INTERVAL : Z := 60.

Definition touch_row (sid t : Z) (r : Session) : Session :=
  if session_id r =? sid then with_last_seen t r else r.

Definition Session_touch (s : Session) : M Session :=
  t <- now ;;
  if TOUCH_INTERVAL <=? t - session_last_seen s then
    update (fun d =>
      set_sessions (map (touch_row (session_id s) t) (sessions d)) d) ;;;
    ret (with_last_seen t s)
  else ret s.

(** Modelled from the spec: [Session.create_for_user(db, user_id,
    user_agent, ip_address)] draws a token, stores its hash and, in the
    same transaction, deletes every other session of the user. *)
Definition create_session (uid : Z) (ua ip : option string) (raw : string)
  (t : Z) (d : Store) : (Session * string) * Store :=
  let s := mkSession (next_id d) uid (hash_token P raw) ua ip t t in
  ((s, raw),
   bump_id 1 (set_sessions (delete_user_sessions uid (sessions d) ++ [s]) d)).

Definition Session_create_for_user (uid : Z) (ua ip : option string)
  : M (Session * string) :=
  raw <- draw (random_token P) ;;
  t <- now ;;
  repo (create_session uid ua ip raw t).

(* --------------------------------------------------------------------- *)
(** ** PendingRegistration *)

(** Modelled from the spec: [PendingRegistrationRepository.get_by_token],
    [delete_for_username], [PendingRegistration.create], [is_expired] and
    [consume] of [auth/models.py]. A registration is looked up by the hash
    of its token, expires once the clock has passed [expires_at], and is
    deleted by id when consumed. *)
Definition PendingRegistrationRepository_get_by_token (raw : string)
  : M (option PendingRegistration) :=
  query (fun d =>
    find (fun r => String.eqb (reg_token_hash r) (hash_token P raw))
         (pending_registrations d)).

Definition delete_for_username (name : string) : M unit :=
  update (fun d =>
    set_pending_registrations
      (filter (fun r => negb (String.eqb (reg_username r) name))
              (pending_registrations d)) d).

Definition PendingRegistration_create (name : string) (expiry_minutes : Z)
  : M (PendingRegistration * string) :=
  raw <- draw (random_token P) ;;
  t <- now ;;
  repo (fun d =>
    let r := mkPendingRegistration (next_id d) name (hash_token P raw) t
                                   (t + expiry_minutes * 60) in
    ((r, raw),
     bump_id 1 (set_pending_registrations (pending_registrations d ++ [r]) d))).

Definition reg_is_expired (r : PendingRegistration) : M bool :=
  t <- now ;; ret (reg_expires_at r <? t).

Definition delete_registration (rid : Z) (l : list PendingRegistration)
  : list PendingRegistration :=
  filter (fun r => negb (reg_id r =? rid)) l.

Definition reg_consume (r : PendingRegistration) : M unit :=
  update (fun d =>
    set_pending_registrations
      (delete_registration (reg_id r) (pending_registrations d)) d).

(* --------------------------------------------------------------------- *)
(** ** PendingRecovery *)

(** Modelled from the spec: [PendingRecoveryRepository.delete_for_user] and
    [get_by_token], [PendingRecovery.create], [is_expired], [is_used] and
    [mark_used] of [auth/models.py]. *)
Definition delete_for_user (uid : Z) : M unit :=
  update (fun d =>
    set_pending_recoveries
      (filter (fun r => negb (rec_user_id r =? uid)) (pending_recoveries d)) d).

Definition new_recovery (uid : Z) (expiry_minutes : Z) (raw : string) (t : Z)
  (d : Store) : PendingRecovery :=
  mkPendingRecovery (next_id d) uid (hash_token P raw)
                    (t + expiry_minutes * 60) None.

Definition create_recovery (uid : Z) (expiry_minutes : Z) (raw : string)
  (t : Z) (d : Store) : (PendingRecovery * string) * Store :=
  let r := new_recovery uid expiry_minutes raw t d in
  ((r, raw), bump_id 1 (set_pending_recoveries (pending_recoveries d ++ [r]) d)).

Definition PendingRecovery_create (uid : Z) (expiry_minutes : Z)
  : M (PendingRecovery * string) :=
  raw <- draw (random_token P) ;;
  t <- now ;;
  repo (create_recovery uid expiry_minutes raw t).

Definition PendingRecoveryRepository_get_by_token (raw : string)
  : M (option PendingRecovery) :=
  query (fun d =>
    find (fun r => String.eqb (rec_token_hash r) (hash_token P raw))
         (pending_recoveries d)).

Definition rec_is_expired (r : PendingRecovery) : M bool :=
  t <- now ;; ret (rec_expires_at r <? t).

Definition rec_is_used (r : PendingRecovery) : bool :=
  negb (is_none (rec_used_at r)).

Definition rec_mark_used (r : PendingRecovery) : M unit :=
  t <- now ;;
  update (fun d =>
    set_pending_recoveries
      (map (fun x =>
              if rec_id x =? rec_id r
              then mkPendingRecovery (rec_id x) (rec_user_id x)
                                     (rec_token_hash x) (rec_expires_at x) (Some t)
              else x)
           (pending_recoveries d)) d).

(* --------------------------------------------------------------------- *)
(** ** BackupCodeRepository *)

Definition NUM_BACKUP_CODES : nat := 8.

(** Modelled from the spec: [normalize_code] strips whitespace and hyphens
    and uppercases. *)
Definition normalize_code (code : string) : string :=
  upper (filter_string (fun c => negb (is_space c || Ascii.eqb c "-")) code).

Definition stored_hash (code : string) : string :=
  hash_backup_code P (normalize_code code).

(** An unused code of user [uid] whose stored hash is [h]. *)
Definition code_matches (uid : Z) (h : string) (c : BackupCode) : bool :=
  (code_user_id c =? uid) && String.eqb (code_hash c) h
  && is_none (code_used_at c).

Definition mark_used (t : Z) (c : BackupCode) : BackupCode :=
  mkBackupCode (code_id c) (code_user_id c) (code_hash c) (Some t).

(** The check and the marking, on the rows of the table: the first unused
    matching row is marked used. *)
Fixpoint consume_first (uid : Z) (h : string) (t : Z) (l : list BackupCode)
  : bool * list BackupCode :=
  match l with
  | [] => (false, [])
  | c :: l' =>
      if code_matches uid h c then (true, mark_used t c :: l')
      else let (ok, r) := consume_first uid h t l' in (ok, c :: r)
  end.

(** Modelled from the spec: [BackupCodeRepository.verify_and_consume(user_id,
    code)] normalises the input, hashes it against the user's unused codes,
    and checks and marks used in a single transaction. *)
Definition verify_and_consume_in (uid : Z) (code : string) (t : Z) (d : Store)
  : bool * Store :=
  let (ok, l) := consume_first uid (stored_hash code) t (backup_codes d) in
  (ok, set_backup_codes l d).

Definition verify_and_consume (uid : Z) (code : string) : M bool :=
  t <- now ;;
  repo (verify_and_consume_in uid code t).

Definition is_unused_of (uid : Z) (c : BackupCode) : bool :=
  (code_user_id c =? uid) && is_none (code_used_at c).

Definition is_used_of (uid : Z) (c : BackupCode) : bool :=
  (code_user_id c =? uid) && negb (is_none (code_used_at c)).

Definition remaining_count (uid : Z) (d : Store) : Z :=
  Z.of_nat (List.length (filter (is_unused_of uid) (backup_codes d))).

Definition used_count (uid : Z) (d : Store) : Z :=
  Z.of_nat (List.length (filter (is_used_of uid) (backup_codes d))).

(** Modelled from the spec: [get_remaining_count(user_id)] counts the
    unused codes of the user. *)
Definition get_remaining_count (uid : Z) : M Z := query (remaining_count uid).

Fixpoint code_rows (uid : Z) (i : Z) (codes : list string) : list BackupCode :=
  match codes with
  | [] => []
  | c :: cs => mkBackupCode i uid (stored_hash c) None :: code_rows uid (i + 1) cs
  end.

(** Modelled from the spec: [generate_backup_codes()] draws
    [NUM_BACKUP_CODES] codes. *)
Definition generate_backup_codes : M (list string) :=
  fun w =>
    (Ret (map (random_code P) (seq (rng w) NUM_BACKUP_CODES)),
     set_rng (rng w + NUM_BACKUP_CODES)%nat w).

(** Modelled from the spec: [create_codes_for_user(user_id)] deletes all
    unused codes of the user and inserts a new set of eight, returning the
    plaintext codes. *)
Definition replace_codes (uid : Z) (codes : list string) (d : Store)
  : list string * Store :=
  (codes,
   bump_id (Z.of_nat (List.length codes))
     (set_backup_codes
        (filter (fun c => negb (is_unused_of uid c)) (backup_codes d)
         ++ code_rows uid (next_id d) codes) d)).

Definition create_codes_for_user (uid : Z) : M (list string) :=
  codes <- generate_backup_codes ;;
  repo (replace_codes uid codes).

(* --------------------------------------------------------------------- *)
(** ** Inbox *)

(** Modelled from the spec: [InboxRepository.get_by_id],
    [InboxMessage.save] and [InboxMessage.mark_replied] of
    [auth/models.py]. Saving a new message stores it as [UNREAD] with the
    next id and appends to the contact log; [mark_replied] sets the status
    to [REPLIED], stamps [replied_at] and clears [reply_email], on the
    object and on its row, in one transaction. *)
Definition InboxRepository_get_by_id (mid : Z) : M (option InboxMessage) :=
  query (fun d => find (fun m => msg_id m =? mid) (inbox d)).

Definition replace_message (m : InboxMessage) (l : list InboxMessage)
  : list InboxMessage :=
  map (fun r => if msg_id r =? msg_id m then m else r) l.

Definition InboxMessage_save (m : InboxMessage) : M InboxMessage :=
  t <- now ;;
  repo (fun d =>
    if msg_id m =? UNSAVED then
      let m' := mkInboxMessage (next_id d) (msg_from_user_id m) (msg_message m)
                  (msg_reply_via m) (msg_reply_email m) (msg_status m)
                  (Some t) (msg_read_at m) (msg_replied_at m) in
      (m', bump_id 1
             (set_contact_log (contact_log d ++ [(msg_from_user_id m, t)])
                (set_inbox (inbox d ++ [m']) d)))
    else (m, set_inbox (replace_message m (inbox d)) d)).

Definition replied (t : Z) (m : InboxMessage) : InboxMessage :=
  mkInboxMessage (msg_id m) (msg_from_user_id m) (msg_message m)
                 (msg_reply_via m) None REPLIED
                 (msg_created_at m) (msg_read_at m) (Some t).

Definition mark_replied (m : InboxMessage) : M InboxMessage :=
  t <- now ;;
  repo (fun d =>
    let m' := replied t m in
    (m', set_inbox (replace_message m' (inbox d)) d)).

(* ===================================================================== *)
(** * Session middleware *)
(* ===================================================================== *)

Definition _session_cookie_name : string := "audiobooks_session".

Definition get_current_user (request : Request) : M (option User) :=
  gv <- get_g ;;
  match g_current_user gv with
  | Some cached => ret cached
  | None =>
      put_g (mkG (Some None) (Some None)) ;;;
      match assoc _session_cookie_name (cookies request) with
      | None => ret None
      | Some token =>
          if negb (str_truthy token) then ret None else
          session <- SessionRepository_get_by_token token ;;
          match session with
          | None => ret None
          | Some session =>
              t <- now ;;
              if is_stale session 30 t then
                Session_invalidate session ;;; ret None
              else
                user <- get_by_id (session_user_id session) ;;
                match user with
                | None => Session_invalidate session ;;; ret None
                | Some user =>
                    session <- Session_touch session ;;
                    put_g (mkG (Some (Some user)) (Some (Some session))) ;;;
                    ret (Some user)
                end
          end
      end
  end.

Definition get_current_session (request : Request) : M (option Session) :=
  gv <- get_g ;;
  match g_current_session gv with
  | Some s => ret s
  | None =>
      get_current_user request ;;;
      gv <- get_g ;;
      ret (match g_current_session gv with Some s => s | None => None end)
  end.

Definition authentication_required : Response :=
  jsonify_status (error_body "Authentication required") 401.

Definition login_required (f : Request -> M Response) (request : Request)
  : M Response :=
  user <- get_current_user request ;;
  match user with
  | None => ret authentication_required
  | Some _ => f request
  end.

Definition admin_required (f : Request -> M Response) (request : Request)
  : M Response :=
  user <- get_current_user request ;;
  match user with
  | None => ret authentication_required
  | Some user =>
      if negb (is_admin user)
      then ret (jsonify_status (error_body "Admin privileges required") 403)
      else f request
  end.

Definition LOCAL_ADDRS : list string := ["127.0.0.1"; "::1"; "localhost"].

(** [remote_addr not in ('127.0.0.1', '::1', 'localhost')]; the address of
    a request may be [None], which is in no tuple of strings. *)
Definition not_local (addr : option string) : bool :=
  match addr with
  | None => true
  | Some a => negb (str_in a LOCAL_ADDRS)
  end.

Definition access_denied : Response :=
  jsonify_status (error_body "Access denied") 404.

(** [request.headers.get('X-Forwarded-For', '')] *)
Definition forwarded_for (request : Request) : string :=
  match assoc "X-Forwarded-For" (headers request) with
  | Some v => v
  | None => ""
  end.

Definition localhost_only (f : Request -> M Response) (request : Request)
  : M Response :=
  let remote := remote_addr request in
  if not_local remote then
    let forwarded := forwarded_for request in
    let remote :=
      if str_truthy forwarded
      then Some (strip (split_head "," forwarded))
      else remote in
    if not_local remote then ret access_denied else f request
  else f request.

Definition set_session_cookie (response : Response) (token : string) : Response :=
  mkResponse (status response) (body response) (SetCookie token None).

Definition clear_session_cookie (response : Response) : Response :=
  mkResponse (status response) (body response) DeleteCookie.

(* ===================================================================== *)
(** * Auth endpoints *)
(* ===================================================================== *)

Definition bad_request (msg : string) : Response :=
  jsonify_status (error_body msg) 400.

Definition invalid_credentials : Response :=
  jsonify_status (error_body "Invalid credentials") 401.

Definition user_header (request : Request) : option string :=
  assoc "User-Agent" (headers request).

(** [POST /login] *)
Definition login (request : Request) : M Response :=
  let data := get_json request in
  if negb (truthy data) then ret (bad_request "Request body required") else
  name <- get_stripped data "username" "" ;;
  code <- get_stripped data "code" "" ;;
  if negb (str_truthy name) || negb (str_truthy code) then
    ret (bad_request "Username and code are required")
  else
  user <- get_by_username name ;;
  match user with
  | None => ret invalid_credentials
  | Some user =>
      t <- now ;;
      match auth_type user with
      | TOTP =>
          if negb (verify_totp P (auth_credential user) code t) then
            ret invalid_credentials
          else
            '(session, token) <-
               Session_create_for_user (user_id user) (user_header request)
                                       (remote_addr request) ;;
            user <- User_update_last_login user ;;
            let response := jsonify (JObj [
              ("success", JBool true);
              ("user", JObj [
                 ("id", JInt (user_id user));
                 ("username", JStr (username user));
                 ("can_download", JBool (can_download user));
                 ("is_admin", JBool (is_admin user))])]) in
            ret (set_session_cookie response token)
      | _ => ret (bad_request "Authentication method not supported")
      end
  end.

(** [POST /logout] *)
Definition logout (request : Request) : M Response :=
  session <- get_current_session request ;;
  match session with
  | Some session => Session_invalidate session
  | None => ret tt
  end ;;;
  ret (clear_session_cookie (jsonify (JObj [("success", JBool true)]))).

(** [GET /check] *)
Definition check_auth (request : Request) : M Response :=
  user <- get_current_user request ;;
  match user with
  | Some user =>
      ret (jsonify (JObj [
        ("authenticated", JBool true);
        ("username", JStr (username user));
        ("is_admin", JBool (is_admin user))]))
  | None => ret (jsonify (JObj [("authenticated", JBool false)]))
  end.

(* --------------------------------------------------------------------- *)
(** ** Registration *)

Fixpoint all_chars (p : ascii -> bool) (s : string) : bool :=
  match s with
  | EmptyString => true
  | String c s' => p c && all_chars p s'
  end.

Definition printable (c : ascii) : bool :=
  let n := nat_of_ascii c in ((32 <=? n) && (n <=? 126))%nat.

(** [POST /register/start] *)
Definition start_registration (request : Request) : M Response :=
  let data := get_json request in
  if negb (truthy data) then ret (bad_request "Request body required") else
  name <- get_stripped data "username" "" ;;
  if (String.length name <? 5)%nat then
    ret (bad_request "Username must be at least 5 characters")
  else if (16 <? String.length name)%nat then
    ret (bad_request "Username must be at most 16 characters")
  else if negb (all_chars printable name) then
    ret (bad_request "Username must contain only printable ASCII characters")
  else
  taken <- username_exists name ;;
  if taken then ret (bad_request "Username already taken") else
  delete_for_username name ;;;
  '(reg, token) <- PendingRegistration_create name 15 ;;
  is_dev <- (fun w => (Ret (dev_mode w), w)) ;;
  let response_data := [
    ("success", JBool true);
    ("message", JStr "Registration started. Please check your email/SMS for verification.");
    ("expires_in_minutes", JInt 15)] in
  let response_data :=
    if is_dev then
      (response_data ++ [
        ("verify_token", JStr token);
        ("_dev_note", JStr "Token returned directly in dev mode. In production, it would be sent via email/SMS.")])%list
    else response_data in
  ret (jsonify (JObj response_data)).

(** The [User(...)] built by [verify_registration]. *)
Definition new_user (name secret : string) (email phone : option string)
  (enabled : bool) : User :=
  mkUser UNSAVED name TOTP secret
         true   (* can_download: allow downloads for offline listening *)
         false  (* is_admin *)
         email phone enabled None.

(** [POST /register/verify] *)
Definition verify_registration (request : Request) : M Response :=
  let data := get_json request in
  if negb (truthy data) then ret (bad_request "Request body required") else
  token <- get_stripped data "token" "" ;;
  auth_type <- get_stripped data "auth_type" "totp" ;;
  let auth_type := lower auth_type in
  include_qr <- dict_get data "include_qr" (JBool false) ;;
  recovery_email <- get_stripped data "recovery_email" "" ;;
  let recovery_email := or_none recovery_email in
  recovery_phone <- get_stripped data "recovery_phone" "" ;;
  let recovery_phone := or_none recovery_phone in
  let recovery_enabled := opt_truthy recovery_email || opt_truthy recovery_phone in
  if negb (str_truthy token) then ret (bad_request "Verification token required") else
  if negb (str_in auth_type ["totp"]) then
    ret (bad_request "Unsupported auth type. Use 'totp'.")
  else
  reg <- PendingRegistrationRepository_get_by_token token ;;
  match reg with
  | None => ret (bad_request "Invalid or expired verification token")
  | Some reg =>
      expired <- reg_is_expired reg ;;
      if expired then
        reg_consume reg ;;;
        ret (bad_request "Verification token has expired")
      else
      '(secret, base32_secret, uri) <- setup_totp (reg_username reg) ;;
      user <- User_save (new_user (reg_username reg) secret recovery_email
                                  recovery_phone recovery_enabled) ;;
      backup_codes <- create_codes_for_user (user_id user) ;;
      reg_consume reg ;;;
      let response_data := [
        ("success", JBool true);
        ("username", JStr (username user));
        ("user_id", JInt (user_id user));
        ("totp_secret", JStr base32_secret);
        ("totp_uri", JStr uri);
        ("backup_codes", JArr (map JStr backup_codes));
        ("recovery_enabled", JBool recovery_enabled);
        ("message", JStr "Account created. Scan the QR code or enter the secret in your authenticator app.")] in
      let response_data :=
        (response_data ++ [
          ("warning", JStr (
             if recovery_enabled then
               "Save your backup codes in a safe place. You can also recover your account using your registered email/phone if you lose access to your authenticator."
             else
               "IMPORTANT: Save these backup codes in a safe place! Without stored contact information, these codes are your ONLY way to recover your account if you lose your authenticator. Each code can only be used once."))])%list in
      let response_data :=
        if truthy include_qr then
          (response_data ++ [("totp_qr", JStr (generate_qr_code P secret (username user)))])%list
        else response_data in
      ret (jsonify (JObj response_data))
  end.

(* --------------------------------------------------------------------- *)
(** ** Recovery *)

Definition invalid_backup_code : Response :=
  jsonify_status (error_body "Invalid username or backup code") 401.

(** [POST /recover/backup-code] *)
Definition recover_with_backup_code (request : Request) : M Response :=
  let data := get_json request in
  if negb (truthy data) then ret (bad_request "Request body required") else
  name <- get_stripped data "username" "" ;;
  backup_code <- get_stripped data "backup_code" "" ;;
  if negb (str_truthy name) || negb (str_truthy backup_code) then
    ret (bad_request "Username and backup_code are required")
  else
  user <- get_by_username name ;;
  match user with
  | None => ret invalid_backup_code
  | Some user =>
      ok <- verify_and_consume (user_id user) backup_code ;;
      if negb ok then ret invalid_backup_code else
      remaining <- get_remaining_count (user_id user) ;;
      '(secret, base32_secret, uri) <- setup_totp (username user) ;;
      user <- User_save (with_credential TOTP secret user) ;;
      new_backup_codes <- create_codes_for_user (user_id user) ;;
      invalidate_user_sessions (user_id user) ;;;
      ret (jsonify (JObj [
        ("success", JBool true);
        ("username", JStr (username user));
        ("totp_secret", JStr base32_secret);
        ("totp_uri", JStr uri);
        ("backup_codes", JArr (map JStr new_backup_codes));
        ("remaining_old_codes", JInt remaining);
        ("message", JStr "Account recovered. Set up your new authenticator and save your new backup codes.");
        ("warning", JStr (
           if negb (recovery_enabled user) then
             "Your old backup codes have been invalidated. Save these new codes in a safe place - they are your only recovery option if you lose your authenticator again."
           else
             "Your old backup codes have been invalidated. You can also recover using your registered email/phone if needed."))]))
  end.

(** The current user inside a handler that [login_required] let through;
    reading an attribute of [None] raises. *)
Definition current_user_or_raise (request : Request) : M User :=
  user <- get_current_user request ;;
  match user with
  | Some user => ret user
  | None => raise AttributeError
  end.

(** [POST /recover/remaining-codes] *)
Definition get_remaining_backup_codes : Request -> M Response :=
  login_required (fun request =>
    user <- current_user_or_raise request ;;
    remaining <- get_remaining_count (user_id user) ;;
    ret (jsonify (JObj [("remaining", JInt remaining)]))).

(** [POST /recover/regenerate-codes] *)
Definition regenerate_backup_codes : Request -> M Response :=
  login_required (fun request =>
    user <- current_user_or_raise request ;;
    new_codes <- create_codes_for_user (user_id user) ;;
    ret (jsonify (JObj [
      ("success", JBool true);
      ("backup_codes", JArr (map JStr new_codes));
      ("message", JStr "New backup codes generated. Your old codes are no longer valid.");
      ("warning", JStr "Save these codes in a safe place! They are your recovery option if you lose your authenticator.")]))).

(* --------------------------------------------------------------------- *)
(** ** Magic link *)

(** [_send_magic_link_email]: [True] when the mail went out; an SMTP
    failure is caught, logged, and reported as [False]. *)
Definition _send_magic_link_email (to_email name magic_link : string)
  (expires_minutes : Z) : M bool :=
  fun w =>
    if smtp_up w then (Ret true, w)
    else (Ret false, add_log (SmtpFailed to_email) w).

Definition generic_message : string :=
  "If an account exists with that username and has a registered email, a login link has been sent. Please check your email.".

Definition generic_success : Response :=
  jsonify (JObj [("success", JBool true); ("message", JStr generic_message)]).

Definition email_of (u : User) : string :=
  match recovery_email u with Some e => e | None => "" end.

(** [POST /magic-link] *)
Definition request_magic_link (request : Request) : M Response :=
  let data := get_json request in
  if negb (truthy data) then ret (bad_request "Request body required") else
  name <- get_stripped data "username" "" ;;
  if negb (str_truthy name) then ret (bad_request "Username is required") else
  user <- get_by_username name ;;
  match user with
  | None => ret generic_success
  | Some user =>
      if negb (recovery_enabled user) || negb (opt_truthy (recovery_email user)) then
        ret generic_success
      else
      delete_for_user (user_id user) ;;;
      '(recovery, raw_token) <- PendingRecovery_create (user_id user) 15 ;;
      let magic_link_url := "/verify.html?token=" ++ raw_token in
      email_sent <- _send_magic_link_email (email_of user) (username user)
                                           magic_link_url 15 ;;
      if email_sent then ret generic_success
      else
        logger_error (MagicLinkNotSent (user_id user)) ;;;
        ret generic_success
  end.

(** [POST /magic-link/verify] *)
Definition verify_magic_link (request : Request) : M Response :=
  let data := get_json request in
  if negb (truthy data) then ret (bad_request "Request body required") else
  token <- get_stripped data "token" "" ;;
  if negb (str_truthy token) then ret (bad_request "Token is required") else
  recovery <- PendingRecoveryRepository_get_by_token token ;;
  match recovery with
  | None => ret (bad_request "Invalid or expired token")
  | Some recovery =>
      expired <- rec_is_expired recovery ;;
      if expired then
        ret (bad_request "Token has expired. Please request a new link.")
      else if rec_is_used recovery then
        ret (bad_request "This link has already been used")
      else
      user <- get_by_id (rec_user_id recovery) ;;
      match user with
      | None => ret (bad_request "User not found")
      | Some user =>
          rec_mark_used recovery ;;;
          invalidate_user_sessions (user_id user) ;;;
          let user_agent :=
            match user_header request with Some a => a | None => "" end in
          let ip_address :=
            match remote_addr request with Some a => a | None => "" end in
          '(session, raw_token) <-
             Session_create_for_user (user_id user) (Some user_agent)
                                     (Some ip_address) ;;
          t <- now ;;
          user <- User_save (with_last_login t user) ;;
          let response := jsonify (JObj [
            ("success", JBool true);
            ("message", JStr "Login successful");
            ("username", JStr (username user))]) in
          ret (mkResponse (status response) (body response)
                          (SetCookie raw_token (Some (60 * 60 * 24 * 365))))
      end
  end.

(* ===================================================================== *)
(** * The gateway as a transition system *)
(* ===================================================================== *)

(** The routes of the blueprint that are modelled. *)
Inductive Route : Type :=
| POST_login
| POST_logout
| GET_check
| POST_register_start
| POST_register_verify
| POST_recover_backup_code
| POST_recover_remaining_codes
| POST_recover_regenerate_codes
| POST_magic_link
| POST_magic_link_verify.

Definition handler (r : Route) : Request -> M Response :=
  match r with
  | POST_login => login
  | POST_logout => logout
  | GET_check => check_auth
  | POST_register_start => start_registration
  | POST_register_verify => verify_registration
  | POST_recover_backup_code => recover_with_backup_code
  | POST_recover_remaining_codes => get_remaining_backup_codes
  | POST_recover_regenerate_codes => regenerate_backup_codes
  | POST_magic_link => request_magic_link
  | POST_magic_link_verify => verify_magic_link
  end.

(** Serving one request: [g] is fresh for every request. *)
Definition serve (r : Route) (request : Request) (w : World)
  : Outcome Response * World :=
  handler r request (set_g fresh_g w).

End Gateway.

(* ===================================================================== *)
(** * Vocabulary of the properties *)
(* ===================================================================== *)

(** The string a request body carries under [key], stripped: what
    [data.get(key, "").strip()] evaluates to when the body is an object
    holding a string there. *)
Definition field (request : Request) (key : string) : option string :=
  match get_json request with
  | JObj l =>
      match assoc key l with
      | Some (JStr raw) => Some (strip raw)
      | _ => None
      end
  | _ => None
  end.

(** The same world at another instant. *)
Definition at_time (t : Z) (w : World) : World :=
  mkWorld (db w) (g w) (faults w) (rng w) t (smtp_up w) (dev_mode w) (log w).

(** The same request served again at each of the instants [ts]. *)
Fixpoint replay (P : Platform) (r : Route) (request : Request) (ts : list Z)
  (w : World) : list (Outcome Response) :=
  match ts with
  | [] => []
  | t :: ts' =>
      let (o, w') := serve P r request (at_time t w) in
      o :: replay P r request ts' w'
  end.

(** The sessions of user [uid] in a store. *)
Definition sessions_of (uid : Z) (d : Store) : list Session :=
  filter (fun s => session_user_id s =? uid) (sessions d).

(** Invariant S1. *)
Definition single_session (d : Store) : Prop :=
  forall uid, (List.length (sessions_of uid d) <= 1)%nat.

(** The stores the gateway can reach: it starts from any store without
    sessions (users may have been provisioned) and serves requests, each in
    an arbitrary environment: clock, random source, mail server, and
    repository calls failing at arbitrary points. *)
Inductive reachable (P : Platform) : Store -> Prop :=
| reach_start : forall d, sessions d = [] -> reachable P d
| reach_serve : forall r request w o w',
    reachable P (db w) ->
    serve P r request w = (o, w') ->
    reachable P (db w').

(** No unused code of user [uid] verifies [code]. *)
Definition spent (P : Platform) (uid : Z) (code : string) (d : Store) : Prop :=
  forall c, In c (backup_codes d) ->
            code_matches uid (stored_hash P code) c = false.

(** A world whose first [k] repository calls succeed and whose next one
    fails. *)
Definition failing_at (k : nat) (d : Store) (n : nat) (t : Z) : World :=
  mkWorld d fresh_g (repeat false k ++ [true]) n t true false [].

(** A [PendingRecovery] was created between [d] and [d']: the table ends
    with a new row that carries the id just handed out and expires [ttl]
    seconds after [t]. *)
Definition recovery_created (t ttl : Z) (d d' : Store) : Prop :=
  exists r rest,
    pending_recoveries d' = (rest ++ [r])%list /\
    rec_id r = next_id d /\ next_id d' = next_id d + 1 /\
    rec_expires_at r = t + ttl /\ rec_used_at r = None.

(** The session cookie of a request. *)
Definition session_cookie (request : Request) : option string :=
  assoc _session_cookie_name (cookies request).

(** The session a raw token resolves to. *)
Definition session_of_token (P : Platform) (raw : string) (d : Store)
  : option Session :=
  find (fun s => String.eqb (session_token_hash s) (hash_token P raw)) (sessions d).

(** One session-resolution read at instant [t], and a series of them. *)
Definition visit (P : Platform) (request : Request) (t : Z) (d : Store) : Store :=
  db (snd (get_current_user P request (healthy d 0 t true false))).

Fixpoint visits (P : Platform) (request : Request) (ts : list Z) (d : Store)
  : Store :=
  match ts with
  | [] => d
  | t :: ts' => visits P request ts' (visit P request t d)
  end.

(** Each instant of [ts] comes at most [gap] seconds after the one before
    it, the first at most [gap] seconds after [t0]. *)
Fixpoint paced (gap t0 : Z) (ts : list Z) : Prop :=
  match ts with
  | [] => True
  | t :: ts' => t - t0 <= gap /\ paced gap t ts'
  end.

(** The user a session belongs to ([get_by_id]). *)
Definition user_of (s : Session) (d : Store) : option User :=
  find (fun u => user_id u =? session_user_id s) (users d).

(** The address [localhost_only] judges a non-local request by: the first
    entry of X-Forwarded-For when the header is non-empty, the remote
    address otherwise. *)
Definition client_addr (request : Request) : option string :=
  if str_truthy (forwarded_for request)
  then Some (strip (split_head "," (forwarded_for request)))
  else remote_addr request.

Definition is_local (a : option string) : Prop :=
  exists s, a = Some s /\ In s ["127.0.0.1"; "::1"; "localhost"].

(** The rejection rule of the design document for [localhost_only]: the
    client address is [X-Forwarded-For[0]] when the header is present and
    the remote address otherwise, and the request is rejected when that
    address is not in {127.0.0.1, ::1}. *)
Definition documented_client (request : Request) : option string :=
  match assoc "X-Forwarded-For" (headers request) with
  | Some v => Some (strip (split_head "," v))
  | None => remote_addr request
  end.

Definition documented_rejects (request : Request) : bool :=
  match documented_client request with
  | Some a => negb (str_in a ["127.0.0.1"; "::1"])
  | None => true
  end.

(** What [mark_replied] guarantees on a world: the call is one
    transaction, so either it fails and the store is unchanged, or the
    object returned and the row read back by id both are [REPLIED] with no
    reply email. *)
Definition replied_and_cleared (m : InboxMessage) : Prop :=
  msg_status m = REPLIED /\ msg_reply_email m = None.

Definition mark_replied_outcome (m : InboxMessage) (w : World) : Prop :=
  (fst (mark_replied m w) = Raise StoreError /\ db (snd (mark_replied m w)) = db w)
  \/ (exists m',
        fst (mark_replied m w) = Ret m' /\
        replied_and_cleared m' /\
        msg_reply_via m' = msg_reply_via m /\
        fst (InboxRepository_get_by_id (msg_id m)
               (set_faults [] (snd (mark_replied m w)))) = Ret (Some m')).

(** A platform for running the gateway on concrete inputs: hashes are the
    identity, a TOTP code verifies when it equals the secret, and the
    [n]-th random value spells [n] in unary after a prefix. *)
Fixpoint unary (n : nat) : string :=
  match n with
  | O => ""
  | S n' => String "I" (unary n')
  end.

Definition demo_platform : Platform :=
  mkPlatform
    (fun raw => raw)
    (fun code => code)
    (fun secret code _ => String.eqb secret code)
    (fun secret => secret)
    (fun secret name => "otpauth://totp/" ++ name ++ "?secret=" ++ secret)
    (fun secret name => "qr:" ++ secret)
    (fun n => "SECRET" ++ unary n)
    (fun n => "CODE-" ++ unary n)
    (fun n => "TOKEN" ++ unary n).

(** A stored message that asks for a reply by mail. *)
Definition demo_message : InboxMessage :=
  mkInboxMessage 7 2 "Please email me" EMAIL (Some "sensitive@example.com")
                 UNREAD (Some 1000) None None.

Definition demo_inbox_world : World :=
  healthy (set_inbox [demo_message] empty_store) 0 2000 true false.

(** Every user of [d'] is a user of [d] or holds the flags of a fresh
    registration: download permission, no administrator rights. *)
Definition flagged (u : User) : Prop :=
  can_download u = true /\ is_admin u = false.

Definition only_adds_flagged (d d' : Store) : Prop :=
  forall u, In u (users d') -> In u (users d) \/ flagged u.

(** A world in which [alice1] has started a registration (the token is
    [TOKEN], valid until 1900), and a verification request that tries to
    set both flags. *)
Definition demo_registration_world : World :=
  healthy
    (mkStore [] [] [mkPendingRegistration 1 "alice1" "TOKEN" 1000 1900]
             [] [] [] [] 2)
    1 1200 true true.

Definition demo_verify_request : Request :=
  mkRequest (Some "10.0.0.1") [] []
    (JObj [("token", JStr "TOKEN"); ("is_admin", JBool true);
           ("can_download", JBool false)]).

Definition demo_alice : User :=
  mkUser 2 "alice1" TOTP "SECRETI" true false None None false None.

(** The string [data.get(key, default).strip()] evaluates to: the stripped
    field when it is a string, the stripped default when the key is absent;
    nothing when the body is no object or holds another kind of value
    there (the handler raises). *)
Definition field_or (request : Request) (key default : string) : option string :=
  match get_json request with
  | JObj l =>
      match assoc key l with
      | Some (JStr raw) => Some (strip raw)
      | Some _ => None
      | None => Some (strip default)
      end
  | _ => None
  end.

(** A body [POST /register/verify] reads without raising, that carries the
    token [token] and asks for TOTP (or leaves the method out). *)
Definition verify_body (request : Request) (token : string) : Prop :=
  field request "token" = Some token /\ str_truthy token = true /\
  (exists a, field_or request "auth_type" "totp" = Some a /\ lower a = "totp") /\
  (exists e, field_or request "recovery_email" "" = Some e) /\
  (exists p, field_or request "recovery_phone" "" = Some p).

(** The pending registration a raw token resolves to. *)
Definition registration_of_token (P : Platform) (raw : string) (d : Store)
  : option PendingRegistration :=
  find (fun r => String.eqb (reg_token_hash r) (hash_token P raw))
       (pending_registrations d).

(** The token column is unique for the row [reg]. *)
Definition token_unique (reg : PendingRegistration) (d : Store) : Prop :=
  forall r, In r (pending_registrations d) ->
            reg_token_hash r = reg_token_hash reg -> reg_id r = reg_id reg.

Definition token_expired : Response :=
  jsonify_status (error_body "Verification token has expired") 400.

Definition token_invalid : Response :=
  jsonify_status (error_body "Invalid or expired verification token") 400.

(** The user a name resolves to ([get_by_username]). *)
Definition user_named (name : string) (d : Store) : option User :=
  find (fun u => String.eqb (username u) name) (users d).

(** The named user exists, has recovery enabled and a non-empty recovery
    email. *)
Definition link_eligible (name : string) (d : Store) : Prop :=
  exists u e, user_named name d = Some u /\ recovery_enabled u = true /\
              recovery_email u = Some e /\ e <> "".

(** A store in which [alice1] is registered with a recovery email and
    holds two unused backup codes; and requests that name her. *)
Definition demo_alice_mail : User :=
  mkUser 2 "alice1" TOTP "SECRETI" true false (Some "a@b.c") None true None.

Definition demo_store : Store :=
  mkStore [demo_alice_mail] [] [] []
          [mkBackupCode 3 2 "CODEII" None; mkBackupCode 4 2 "CODEIII" None]
          [] [] 20.

Definition demo_body (l : list (string * json)) : Request :=
  mkRequest (Some "10.0.0.1") [] [] (JObj l).

Definition demo_magic_request : Request :=
  demo_body [("username", JStr "alice1")].

(** Requests with which [alice1] logs in, and recovers with her first
    backup code. *)
Definition demo_login_request : Request :=
  demo_body [("username", JStr "alice1"); ("code", JStr "SECRETI")].

Definition demo_recover_request : Request :=
  demo_body [("username", JStr "alice1"); ("backup_code", JStr "code-ii")].

(** The outcome of [data.get(key, default).strip()]: it depends on the body
    alone. *)
Definition stripped_value (data : json) (key default : string) : Outcome string :=
  match data with
  | JObj l =>
      match assoc key l with
      | Some (JStr raw) => Ret (strip raw)
      | Some _ => Raise AttributeError
      | None => Ret (strip default)
      end
  | _ => Raise AttributeError
  end.

(** The store after [s.touch(db)] at instant [t]. *)
Definition touch_store (s : Session) (t : Z) (d : Store) : Store :=
  if TOUCH_INTERVAL <=? t - session_last_seen s
  then set_sessions (map (touch_row (session_id s) t) (sessions d)) d
  else d.

(** [alice1] logged in at instant 1000; a request that presents her
    session cookie. *)
Definition demo_session : Session :=
  mkSession 11 2 "TOKENX" None (Some "10.0.0.1") 1000 1000.

Definition demo_session_store : Store :=
  set_sessions [demo_session] demo_store.

Definition demo_cookie_request : Request :=
  mkRequest (Some "10.0.0.1") [] [("audiobooks_session", "TOKENX")] JNull.

(** The store a successful [POST /recover/backup-code] leaves: the code is
    consumed, the credential replaced, the codes regenerated and the
    sessions of the user deleted, in this order. [n] is the state of the
    random source and [t] the instant of the request. *)
Definition recovered_store (P : Platform) (u : User) (code : string)
  (n : nat) (t : Z) (d : Store) : Store :=
  let d1 := snd (verify_and_consume_in P (user_id u) code t d) in
  let (u', d2) := save_user (with_credential TOTP (random_secret P n) u) d1 in
  let d3 := snd (replace_codes P (user_id u')
                   (map (random_code P) (seq (S n) NUM_BACKUP_CODES)) d2) in
  set_sessions (delete_user_sessions (user_id u') (sessions d3)) d3.

(** The backup codes drawn when the random source is in state [n]. *)
Definition fresh_codes (P : Platform) (n : nat) : list string :=
  map (random_code P) (seq n NUM_BACKUP_CODES).

(** [code] is accepted for user [uid] in store [d] at instant [t]. *)
Definition code_accepted (P : Platform) (uid : Z) (code : string) (t : Z)
  (d : Store) : Prop :=
  fst (verify_and_consume_in P uid code t d) = true.

(** A program keeps invariant S1. *)
Definition keeps_single_session (d d' : Store) : Prop :=
  single_session d -> single_session d'.

(** [alice1] logs in from one client, then from another. *)
Definition demo_first_login : World :=
  snd (serve demo_platform POST_login demo_login_request
         (healthy demo_store 0 1000 true false)).

Definition demo_second_login : World :=
  snd (serve demo_platform POST_login demo_login_request
         (at_time 1500 demo_first_login)).

(** [respects R m]: whatever the world, and whether [m] returns or raises,
    the store [m] leaves is related by [R] to the store it found. With [R]
    a preorder this composes along [bind]; an invariant [I] is the case
    [R d d' := I d -> I d']. *)
Definition respects {A} (R : Store -> Store -> Prop) (m : M A) : Prop :=
  forall w, R (db w) (db (snd (m w))).

(* ===================================================================== *)
(** * Guards that depend on the configuration *)
(* ===================================================================== *)

(** The three guards below read [current_app.config.get("AUTH_ENABLED",
    False)]; the value is passed as [auth_enabled]. *)

Definition download_required : Response :=
  jsonify_status (error_body "Download permission required") 403.

Definition admin_privileges_required : Response :=
  jsonify_status (error_body "Admin privileges required") 403.

Definition auth_if_enabled (P : Platform) (auth_enabled : bool)
  (f : Request -> M Response) (request : Request) : M Response :=
  if negb auth_enabled then f request else
  user <- get_current_user P request ;;
  match user with
  | None => ret authentication_required
  | Some _ => f request
  end.

Definition download_permission_required (P : Platform) (auth_enabled : bool)
  (f : Request -> M Response) (request : Request) : M Response :=
  if negb auth_enabled then f request else
  user <- get_current_user P request ;;
  match user with
  | None => ret authentication_required
  | Some user =>
      if negb (can_download user) then ret download_required else f request
  end.

Definition admin_if_enabled (P : Platform) (auth_enabled : bool)
  (f : Request -> M Response) (request : Request) : M Response :=
  if negb auth_enabled then f request else
  user <- get_current_user P request ;;
  match user with
  | None => ret authentication_required
  | Some user =>
      if negb (is_admin user) then ret admin_privileges_required else f request
  end.

(* ===================================================================== *)
(** * Vocabulary of the further properties *)
(* ===================================================================== *)

(** [g] once [get_current_user] has found nobody. *)
Definition anonymous_g : G := mkG (Some None) (Some None).

(** [g] once [get_current_user] has found [u] through session [s]. *)
Definition authenticated_g (u : User) (s : Session) : G :=
  mkG (Some (Some u)) (Some (Some s)).

(** The request carries no usable session cookie: none, or an empty one. *)
Definition no_cookie (request : Request) : Prop :=
  session_cookie request = None \/ session_cookie request = Some "".

(** The session object after [touch] at instant [t]. *)
Definition touched (t : Z) (s : Session) : Session :=
  if TOUCH_INTERVAL <=? t - session_last_seen s then with_last_seen t s else s.

(** A username [start_registration] accepts: 5 to 16 printable ASCII
    characters. *)
Definition valid_username (name : string) : Prop :=
  (5 <= String.length name <= 16)%nat /\ all_chars printable name = true.

(** Every pending registration of [d'] is one of [d] or is for a valid
    username. *)
Definition registers_valid_names (d d' : Store) : Prop :=
  forall r, In r (pending_registrations d') ->
            In r (pending_registrations d) \/ valid_username (reg_username r).

(** The accounts are the same in [d] and [d']: users, sessions and backup
    codes. *)
Definition same_accounts (d d' : Store) : Prop :=
  users d' = users d /\ sessions d' = sessions d /\
  backup_codes d' = backup_codes d.

(** The key [key] of the JSON object a response carries. *)
Definition body_field (resp : Response) (key : string) : option json :=
  match body resp with
  | JObj l => assoc key l
  | _ => None
  end.

(** A world without pending failures, whatever its [g]. *)
Definition sound (w : World) : Prop := faults w = [] /\ log w = [].

(** The world after [get_current_user] resolved the cookie to session [s]
    of user [u]: the session is stamped and [g] remembers both. *)
Definition after_lookup (u : User) (s : Session) (w : World) : World :=
  set_g (authenticated_g u (touched (clock w) s))
    (set_db (touch_store s (clock w) (db w)) w).

(** A handler that answers 200 with an empty object and does nothing
    else. *)
Definition demo_handler (request : Request) : M Response :=
  ret (jsonify (JObj [])).

(** Users and backup codes are the same in [d] and [d']. *)
Definition same_credentials (d d' : Store) : Prop :=
  users d' = users d /\ backup_codes d' = backup_codes d.

(** The pending registrations for a username. *)
Definition registrations_for (name : string) (d : Store)
  : list PendingRegistration :=
  filter (fun r => String.eqb (reg_username r) name) (pending_registrations d).

Definition username_taken : Response :=
  jsonify_status (error_body "Username already taken") 400.

(** The user [POST /register/verify] stores for the pending registration
    [reg], with the secret drawn in state [n] of the random source and the
    recovery contacts [e] and [p] of the body (empty when not given). *)
Definition registered_user (P : Platform) (reg : PendingRegistration)
  (e p : string) (n : nat) (d : Store) : User :=
  mkUser (next_id d) (reg_username reg) TOTP (random_secret P n) true false
         (or_none e) (or_none p) (str_truthy e || str_truthy p) None.

(** The store a successful [POST /register/verify] leaves. *)
Definition registered_store (P : Platform) (reg : PendingRegistration)
  (e p : string) (n : nat) (d : Store) : Store :=
  let d1 := bump_id 1 (set_users (users d ++ [registered_user P reg e p n d]) d) in
  let d2 := snd (replace_codes P (next_id d) (fresh_codes P (S n)) d1) in
  set_pending_registrations
    (delete_registration (reg_id reg) (pending_registrations d2)) d2.

Definition token_required : Response :=
  jsonify_status (error_body "Verification token required") 400.

Definition unsupported_auth_type : Response :=
  jsonify_status (error_body "Unsupported auth type. Use 'totp'.") 400.

(** The session [POST /login] creates for user [uid] in store [d], from
    the token drawn in state [n] of the random source. *)
Definition login_session (P : Platform) (uid : Z) (ua ip : option string)
  (n : nat) (t : Z) (d : Store) : Session :=
  mkSession (next_id d) uid (hash_token P (random_token P n)) ua ip t t.

(** [last_login] stamped on the rows of user [uid]. *)
Definition stamp_login (uid t : Z) (r : User) : User :=
  if user_id r =? uid then with_last_login t r else r.

(** The store a successful [POST /login] of user [uid] leaves. *)
Definition logged_in_store (P : Platform) (uid : Z) (ua ip : option string)
  (n : nat) (t : Z) (d : Store) : Store :=
  set_users (map (stamp_login uid t) (users d))
    (bump_id 1
       (set_sessions
          (delete_user_sessions uid (sessions d)
           ++ [login_session P uid ua ip n t d]) d)).

(** The body of a successful login. *)
Definition login_body (u : User) : json :=
  JObj [("success", JBool true);
        ("user", JObj [("id", JInt (user_id u));
                       ("username", JStr (username u));
                       ("can_download", JBool (can_download u));
                       ("is_admin", JBool (is_admin u))])].

(** The answers of [GET /check]. *)
Definition authenticated_as (u : User) : Response :=
  jsonify (JObj [("authenticated", JBool true);
                 ("username", JStr (username u));
                 ("is_admin", JBool (is_admin u))]).

Definition not_authenticated : Response :=
  jsonify (JObj [("authenticated", JBool false)]).

(** The answer of [POST /logout]. *)
Definition logged_out : Response :=
  clear_session_cookie (jsonify (JObj [("success", JBool true)])).

(** No session of the store carries the hash of [raw]. *)
Definition unused_token (P : Platform) (raw : string) (d : Store) : Prop :=
  forall s, In s (sessions d) -> session_token_hash s <> hash_token P raw.

(** The id of [u] resolves to [u] ([get_by_id]). *)
Definition resolves (u : User) (d : Store) : Prop :=
  find (fun v => user_id v =? user_id u) (users d) = Some u.

(** A request that presents [token] as session cookie. *)
Definition demo_probe (token : string) : Request :=
  mkRequest (Some "10.0.0.2") [] [("audiobooks_session", token)] JNull.

(** The hash of session [s] belongs to no session with another id. *)
Definition own_token (s : Session) (d : Store) : Prop :=
  forall s', In s' (sessions d) ->
             session_token_hash s' = session_token_hash s ->
             session_id s' = session_id s.

(** The store after [POST /logout] of session [s] at instant [t]. *)
Definition logged_out_store (s : Session) (t : Z) (d : Store) : Store :=
  set_sessions
    (delete_session (session_id s) (sessions (touch_store s t d)))
    (touch_store s t d).

(** The pending recovery a raw token resolves to. *)
Definition recovery_of_token (P : Platform) (raw : string) (d : Store)
  : option PendingRecovery :=
  find (fun r => String.eqb (rec_token_hash r) (hash_token P raw))
       (pending_recoveries d).

(** The pending recoveries of a user. *)
Definition recoveries_for (uid : Z) (d : Store) : list PendingRecovery :=
  filter (fun r => rec_user_id r =? uid) (pending_recoveries d).

(** [used_at] stamped on the rows of id [rid]. *)
Definition stamp_used (rid t : Z) (x : PendingRecovery) : PendingRecovery :=
  if rec_id x =? rid
  then mkPendingRecovery (rec_id x) (rec_user_id x) (rec_token_hash x)
                         (rec_expires_at x) (Some t)
  else x.

(** One year, the max-age of the cookie a magic link sets. *)
Definition ONE_YEAR : Z := 60 * 60 * 24 * 365.

(** The store a successful [POST /magic-link/verify] leaves: the recovery
    [r] is marked used, the sessions of its user [u] are replaced by a new
    one, and [last_login] is stamped. *)
Definition redeemed_store (P : Platform) (r : PendingRecovery) (u : User)
  (ua ip : string) (n : nat) (t : Z) (d : Store) : Store :=
  let d1 := set_pending_recoveries
              (map (stamp_used (rec_id r) t) (pending_recoveries d)) d in
  let d2 := set_sessions (delete_user_sessions (user_id u) (sessions d1)) d1 in
  let d3 := snd (create_session P (user_id u) (Some ua) (Some ip)
                   (random_token P n) t d2) in
  snd (save_user (with_last_login t u) d3).

(** The answers of [POST /magic-link/verify]. *)
Definition link_redeemed (u : User) (raw : string) : Response :=
  mkResponse 200
    (JObj [("success", JBool true); ("message", JStr "Login successful");
           ("username", JStr (username u))])
    (SetCookie raw (Some ONE_YEAR)).

Definition link_invalid : Response :=
  jsonify_status (error_body "Invalid or expired token") 400.

Definition link_expired : Response :=
  jsonify_status (error_body "Token has expired. Please request a new link.") 400.

Definition link_used : Response :=
  jsonify_status (error_body "This link has already been used") 400.

(** The [User-Agent] and the address a magic-link session records. *)
Definition agent_of (request : Request) : string :=
  match user_header request with Some a => a | None => "" end.

Definition address_of (request : Request) : string :=
  match remote_addr request with Some a => a | None => "" end.

(** The world after the same request was served at each of the instants
    [ts]. *)
Fixpoint replay_end (P : Platform) (r : Route) (request : Request)
  (ts : list Z) (w : World) : World :=
  match ts with
  | [] => w
  | t :: ts' => replay_end P r request ts' (snd (serve P r request (at_time t w)))
  end.

(** The store an eligible [POST /magic-link] for user [uid] leaves: the
    older links of the user are deleted and a new one is created. *)
Definition requested_store (P : Platform) (uid : Z) (n : nat) (t : Z)
  (d : Store) : Store :=
  let d1 := set_pending_recoveries
              (filter (fun r => negb (rec_user_id r =? uid))
                      (pending_recoveries d)) d in
  snd (create_recovery P uid 15 (random_token P n) t d1).

(** No pending recovery of another user carries the hash of [raw]. *)
Definition link_token_free (P : Platform) (raw : string) (uid : Z)
  (d : Store) : Prop :=
  forall r, In r (pending_recoveries d) -> rec_user_id r <> uid ->
            rec_token_hash r <> hash_token P raw.

(** An outcome that is no success: the handler raised or answered 400. *)
Definition refused (o : Outcome Response) : Prop :=
  forall resp, o = Ret resp -> status resp = 400.

(** [alice1] holds a magic link [LINK], valid until 1900; a request that
    redeems it. *)
Definition demo_link : PendingRecovery :=
  mkPendingRecovery 5 2 "LINK" 1900 None.

Definition demo_link_store : Store :=
  set_pending_recoveries [demo_link] demo_store.

Definition demo_link_request : Request :=
  demo_body [("token", JStr " LINK ")].

(** The answers of [POST /recover/remaining-codes] and of
    [POST /recover/regenerate-codes]. *)
Definition remaining_answer (n : Z) : Response :=
  jsonify (JObj [("remaining", JInt n)]).

Definition regenerated_answer (codes : list string) : Response :=
  jsonify (JObj [
    ("success", JBool true);
    ("backup_codes", JArr (map JStr codes));
    ("message", JStr "New backup codes generated. Your old codes are no longer valid.");
    ("warning", JStr "Save these codes in a safe place! They are your recovery option if you lose your authenticator.")]).

(** The store [POST /recover/regenerate-codes] leaves for the user of
    session [s]: the session is stamped and the codes are replaced. *)
Definition regenerated_store (P : Platform) (uid : Z) (s : Session)
  (n : nat) (t : Z) (d : Store) : Store :=
  snd (replace_codes P uid (fresh_codes P n) (touch_store s t d)).

(** The backup codes of the other users. *)
Definition codes_of_others (uid : Z) (d : Store) : list BackupCode :=
  filter (fun c => negb (code_user_id c =? uid)) (backup_codes d).

(** The answer of a successful [POST /recover/backup-code] for user [u]:
    [secret] is the new TOTP secret, [codes] the new backup codes and
    [remaining] the count of old codes left after the consumption. The
    warning depends on whether the user has a recovery contact. *)
Definition recovery_answer (P : Platform) (u : User) (secret : string)
  (codes : list string) (remaining : Z) : Response :=
  jsonify (JObj [
    ("success", JBool true);
    ("username", JStr (username u));
    ("totp_secret", JStr (secret_to_base32 P secret));
    ("totp_uri", JStr (get_provisioning_uri P secret (username u)));
    ("backup_codes", JArr (map JStr codes));
    ("remaining_old_codes", JInt remaining);
    ("message", JStr "Account recovered. Set up your new authenticator and save your new backup codes.");
    ("warning", JStr (
       if negb (opt_truthy (recovery_email u) || opt_truthy (recovery_phone u)) then
         "Your old backup codes have been invalidated. Save these new codes in a safe place - they are your only recovery option if you lose your authenticator again."
       else
         "Your old backup codes have been invalidated. You can also recover using your registered email/phone if needed."))]).

(** The store [POST /recover/backup-code] leaves when, of its six
    repository calls, the first [k] succeed and the next one fails. The
    calls are, in order: [get_by_username], [verify_and_consume],
    [get_remaining_count], [user.save], [create_codes_for_user] and
    [invalidate_user_sessions]; each one that succeeded stays written. *)
Definition interrupted_store (P : Platform) (u : User) (code : string)
  (n : nat) (t : Z) (d : Store) (k : nat) : Store :=
  let d1 := snd (verify_and_consume_in P (user_id u) code t d) in
  let d2 := snd (save_user (with_credential TOTP (random_secret P n) u) d1) in
  let d3 := snd (replace_codes P (user_id u) (fresh_codes P (S n)) d2) in
  match k with
  | 0%nat | 1%nat => d
  | 2%nat | 3%nat => d1
  | 4%nat => d2
  | _ => d3
  end.

(** The number of unused codes of user [uid] that [code] verifies
    against: the rows [verify_and_consume] may still consume for it. *)
Definition matching_unused (P : Platform) (uid : Z) (code : string)
  (d : Store) : nat :=
  List.length (filter (code_matches uid (stored_hash P code)) (backup_codes d)).

(* ===================================================================== *)
(** * Running the monad *)
(* ===================================================================== *)

Local Open Scope m_scope.

Lemma bind_ret A B (m : M A) (k : A -> M B) w a w' :
  m w = (Ret a, w') -> bind m k w = k a w'.
Proof. intros H. unfold bind. now rewrite H. Qed.

Lemma bind_raise A B (m : M A) (k : A -> M B) w e w' :
  m w = (Raise e, w') -> bind m k w = (Raise e, w').
Proof. intros H. unfold bind. now rewrite H. Qed.

Lemma repo_ok A (f : Store -> A * Store) w :
  faults w = [] -> repo f w = (Ret (fst (f (db w))), set_db (snd (f (db w))) w).
Proof. intros H. unfold repo. rewrite H. now destruct (f (db w)). Qed.

Lemma query_ok A (f : Store -> A) w :
  faults w = [] -> query f w = (Ret (f (db w)), w).
Proof.
  intros H. unfold query. rewrite repo_ok by assumption. simpl.
  now destruct w.
Qed.

Lemma update_ok (f : Store -> Store) w :
  faults w = [] -> update f w = (Ret tt, set_db (f (db w)) w).
Proof. intros H. unfold update. now rewrite repo_ok by assumption. Qed.

(** A request that carries a string under [key] has a truthy body, and
    [get_stripped] returns the field. *)
Lemma field_truthy request key v :
  field request key = Some v -> truthy (get_json request) = true.
Proof.
  unfold field. destruct (get_json request) as [| | | | |l]; try discriminate.
  destruct l; [discriminate | reflexivity].
Qed.

Lemma get_stripped_field request key v dflt w :
  field request key = Some v ->
  get_stripped (get_json request) key dflt w = (Ret v, w).
Proof.
  unfold field, get_stripped, dict_get.
  destruct (get_json request) as [| | | | |l]; try discriminate.
  destruct (assoc key l) as [[| | |raw| |]|]; try discriminate.
  intros [= <-]. reflexivity.
Qed.

(* ===================================================================== *)
(** * The [localhost_only] guard *)
(* ===================================================================== *)

Lemma str_in_In x l : str_in x l = true <-> In x l.
Proof.
  unfold str_in. rewrite existsb_exists. split.
  - intros (y & Hy & E). apply String.eqb_eq in E. now subst.
  - intros H. exists x. split; [assumption | apply String.eqb_refl].
Qed.

Lemma not_local_spec a : not_local a = true <-> ~ is_local a.
Proof.
  unfold not_local, is_local, LOCAL_ADDRS. destruct a as [s|].
  - rewrite negb_true_iff. split.
    + intros H (s' & [= <-] & Hin). apply str_in_In in Hin. congruence.
    + intros H. destruct (str_in s _) eqn:E; [|reflexivity].
      exfalso. apply H. exists s. split; [reflexivity | now apply str_in_In].
  - split; [|reflexivity]. intros _ (s & [=] & _).
Qed.

(** C7, as the code decides it. [localhost_only] answers 404 when neither
    the remote address nor the client address is one of 127.0.0.1, ::1 and
    localhost, where the client address is the first entry of
    X-Forwarded-For (stripped) when that header is non-empty and the remote
    address otherwise; in every other case the wrapped handler runs. In
    particular a local remote address lets the request through whatever
    X-Forwarded-For says. *)
Theorem localhost_only_decision (f : Request -> M Response)
  (request : Request) (w : World) :
  (~ is_local (remote_addr request) /\ ~ is_local (client_addr request) ->
   localhost_only f request w = (Ret access_denied, w))
  /\ (is_local (remote_addr request) \/ is_local (client_addr request) ->
      localhost_only f request w = f request w)
  /\ ((is_local (remote_addr request) \/ is_local (client_addr request))
      \/ (~ is_local (remote_addr request) /\ ~ is_local (client_addr request)))
  /\ status access_denied = 404.
Proof.
  unfold localhost_only. fold (forwarded_for request).
  fold (client_addr request).
  destruct (not_local (remote_addr request)) eqn:Hr;
    [destruct (not_local (client_addr request)) eqn:Hc|].
  - apply not_local_spec in Hr, Hc. repeat split; tauto.
  - assert (Hl : is_local (client_addr request)).
    { destruct (client_addr request) as [a|]; [|discriminate].
      cbv [not_local] in Hc. apply negb_false_iff, str_in_In in Hc.
      exists a. split; [reflexivity | exact Hc]. }
    repeat split; tauto.
  - assert (Hl : is_local (remote_addr request)).
    { destruct (remote_addr request) as [a|]; [|discriminate].
      cbv [not_local] in Hr. apply negb_false_iff, str_in_In in Hr.
      exists a. split; [reflexivity | exact Hr]. }
    repeat split; tauto.
Qed.

(** C7 as the design document states it fails: a request from a remote
    host that names localhost in X-Forwarded-For is let through, although
    localhost is not in {127.0.0.1, ::1}; so is a request whose remote
    address is 127.0.0.1 and whose X-Forwarded-For names a remote client. *)
Lemma localhost_only_not_as_documented :
  documented_rejects
    (mkRequest (Some "203.0.113.9") [("X-Forwarded-For", "localhost")] [] JNull)
  = true
  /\ localhost_only (fun _ => ret (jsonify (JObj [])))
       (mkRequest (Some "203.0.113.9") [("X-Forwarded-For", "localhost")] [] JNull)
       (healthy empty_store 0 0 true false)
     = (Ret (jsonify (JObj [])), healthy empty_store 0 0 true false)
  /\ documented_rejects
       (mkRequest (Some "127.0.0.1") [("X-Forwarded-For", "203.0.113.9")] [] JNull)
     = true
  /\ localhost_only (fun _ => ret (jsonify (JObj [])))
       (mkRequest (Some "127.0.0.1") [("X-Forwarded-For", "203.0.113.9")] [] JNull)
       (healthy empty_store 0 0 true false)
     = (Ret (jsonify (JObj [])), healthy empty_store 0 0 true false).
Proof. repeat split; reflexivity. Qed.

(* ===================================================================== *)
(** * Inbox: replying clears the reply address *)
(* ===================================================================== *)

Lemma find_replace_message m l :
  (exists row, In row l /\ msg_id row = msg_id m) ->
  find (fun r => msg_id r =? msg_id m) (replace_message m l) = Some m.
Proof.
  induction l as [|r l IH]; intros (row & Hin & Hid).
  - destruct Hin.
  - simpl. destruct (msg_id r =? msg_id m) eqn:E.
    + now rewrite Z.eqb_refl.
    + rewrite E. apply IH. destruct Hin as [->|Hin].
      * rewrite Hid, Z.eqb_refl in E. discriminate.
      * now exists row.
Qed.

(** C8. For every stored inbox message [m], whatever its [reply_via] and
    prior [reply_email], [mark_replied m] either fails as a whole and leaves
    the store as it was, or returns the message with status REPLIED and
    reply_email NULL and the row read back by id afterwards shows the same
    two values: status and address change in one transaction. *)
Theorem mark_replied_clears_email (m : InboxMessage) (w : World) :
  (exists row, In row (inbox (db w)) /\ msg_id row = msg_id m) ->
  mark_replied_outcome m w.
Proof.
  intros Hrow. unfold mark_replied_outcome, mark_replied, bind, now, repo.
  destruct (faults w) as [|[|] fs]; simpl.
  - right. eexists. repeat split.
    unfold InboxRepository_get_by_id, query, repo. simpl.
    f_equal. f_equal.
    apply (find_replace_message (replied (clock w) m)). exact Hrow.
  - left. split; reflexivity.
  - right. eexists. repeat split.
    unfold InboxRepository_get_by_id, query, repo. simpl.
    f_equal. f_equal.
    apply (find_replace_message (replied (clock w) m)). exact Hrow.
Qed.

Lemma mark_replied_clears_email_witness :
  (exists row, In row (inbox (db demo_inbox_world)) /\
               msg_id row = msg_id demo_message)
  /\ mark_replied_outcome demo_message demo_inbox_world.
Proof.
  assert (H : exists row, In row (inbox (db demo_inbox_world)) /\
                          msg_id row = msg_id demo_message).
  { exists demo_message. split; [left; reflexivity | reflexivity]. }
  split; [exact H | apply (mark_replied_clears_email demo_message demo_inbox_world H)].
Defined.

(* ===================================================================== *)
(** * Store relations respected by a program *)
(* ===================================================================== *)

Section Respects.

Variable R : Store -> Store -> Prop.
Hypothesis R_refl : forall d, R d d.
Hypothesis R_trans : forall d1 d2 d3, R d1 d2 -> R d2 d3 -> R d1 d3.

Lemma respects_pure A (m : M A) :
  (forall w, db (snd (m w)) = db w) -> respects R m.
Proof. intros H w. rewrite H. apply R_refl. Qed.

Lemma respects_ret A (a : A) : respects R (ret a).
Proof. now apply respects_pure. Qed.

Lemma respects_raise A e : respects R (@raise A e).
Proof. now apply respects_pure. Qed.

Lemma respects_bind A B (m : M A) (k : A -> M B) :
  respects R m -> (forall a, respects R (k a)) -> respects R (bind m k).
Proof.
  intros Hm Hk w. unfold bind. specialize (Hm w).
  destruct (m w) as [[a|e] w1]; simpl in *.
  - eapply R_trans; [exact Hm | apply Hk].
  - exact Hm.
Qed.

Lemma respects_repo A (f : Store -> A * Store) :
  (forall d, R d (snd (f d))) -> respects R (repo f).
Proof.
  intros Hf w. unfold repo. specialize (Hf (db w)).
  destruct (faults w) as [|[|] fs]; destruct (f (db w)); simpl in *;
    auto.
Qed.

Lemma respects_query A (f : Store -> A) : respects R (query f).
Proof. apply respects_repo. intros d. apply R_refl. Qed.

Lemma respects_update (f : Store -> Store) :
  (forall d, R d (f d)) -> respects R (update f).
Proof. intros H. apply respects_repo. exact H. Qed.

Lemma respects_now : respects R now.
Proof. now apply respects_pure. Qed.

Lemma respects_draw A (gen : nat -> A) : respects R (draw gen).
Proof. now apply respects_pure. Qed.

Lemma respects_logger e : respects R (logger_error e).
Proof. now apply respects_pure. Qed.

Lemma respects_get_g : respects R get_g.
Proof. now apply respects_pure. Qed.

Lemma respects_put_g x : respects R (put_g x).
Proof. now apply respects_pure. Qed.

Lemma respects_dict_get data key dflt : respects R (dict_get data key dflt).
Proof. destruct data; apply respects_pure; reflexivity. Qed.

Lemma respects_py_strip v : respects R (py_strip v).
Proof. destruct v; apply respects_pure; reflexivity. Qed.

Lemma respects_get_stripped data key dflt :
  respects R (get_stripped data key dflt).
Proof.
  apply respects_bind; [apply respects_dict_get | intros; apply respects_py_strip].
Qed.

Lemma respects_generate_backup_codes P : respects R (generate_backup_codes P).
Proof. now apply respects_pure. Qed.

Lemma respects_setup_totp P name : respects R (setup_totp P name).
Proof.
  apply respects_bind; [apply respects_draw | intros; apply respects_ret].
Qed.

Lemma respects_send_mail a b c n : respects R (_send_magic_link_email a b c n).
Proof.
  apply respects_pure. intros w. unfold _send_magic_link_email.
  now destruct (smtp_up w).
Qed.

Lemma respects_dev_mode : respects R (fun w => (Ret (dev_mode w), w)).
Proof. now apply respects_pure. Qed.

End Respects.

(** Reduces [respects R m] to one obligation per repository write of [m]:
    walks the binds and the case analyses of the program. *)
Ltac respects_step Rr Rt :=
  match goal with
  | |- respects _ (bind _ _) => apply (respects_bind _ Rt); [|intros]
  | |- respects _ (ret _) => apply (respects_ret _ Rr)
  | |- respects _ (raise _) => apply (respects_raise _ Rr)
  | |- respects _ now => apply (respects_now _ Rr)
  | |- respects _ (draw _) => apply (respects_draw _ Rr)
  | |- respects _ (logger_error _) => apply (respects_logger _ Rr)
  | |- respects _ get_g => apply (respects_get_g _ Rr)
  | |- respects _ (put_g _) => apply (respects_put_g _ Rr)
  | |- respects _ (get_stripped _ _ _) => apply (respects_get_stripped _ Rr Rt)
  | |- respects _ (dict_get _ _ _) => apply (respects_dict_get _ Rr)
  | |- respects _ (py_strip _) => apply (respects_py_strip _ Rr)
  | |- respects _ (generate_backup_codes _) =>
      apply (respects_generate_backup_codes _ Rr)
  | |- respects _ (setup_totp _ _) => apply (respects_setup_totp _ Rr Rt)
  | |- respects _ (_send_magic_link_email _ _ _ _) =>
      apply (respects_send_mail _ Rr)
  | |- respects _ (fun w => (Ret (dev_mode w), w)) =>
      apply (respects_dev_mode _ Rr)
  | |- respects _ (query _) => apply (respects_query _ Rr)
  | |- respects _ (update _) => apply (respects_update _ Rr)
  | |- respects _ (repo _) => apply (respects_repo _ Rr)
  | |- respects _ (match ?x with _ => _ end) => destruct x
  | |- respects _ (if ?b then _ else _) => destruct b
  end.

(* ===================================================================== *)
(** * Registration *)
(* ===================================================================== *)

Lemma only_adds_flagged_refl d : only_adds_flagged d d.
Proof. intros u Hu. now left. Qed.

Lemma only_adds_flagged_trans d1 d2 d3 :
  only_adds_flagged d1 d2 -> only_adds_flagged d2 d3 -> only_adds_flagged d1 d3.
Proof.
  intros H12 H23 u Hu. destruct (H23 u Hu) as [H|H]; [now apply H12 | now right].
Qed.

Lemma verify_registration_only_adds_flagged P request :
  respects only_adds_flagged (verify_registration P request).
Proof.
  unfold verify_registration, PendingRegistrationRepository_get_by_token,
    reg_is_expired, reg_consume, User_save, create_codes_for_user.
  cbv zeta.
  repeat respects_step only_adds_flagged_refl only_adds_flagged_trans;
    intros d u Hu; simpl in *; try (now left).
  all: apply in_app_or in Hu; destruct Hu as [Hu|[<-|[]]];
    [now left | right; split; reflexivity].
Qed.

(** C10. Whatever the request body and whatever happens to the repository
    calls, every user found in the store after [POST /register/verify] that
    was not there before has [can_download = true] and [is_admin = false]. *)
Theorem registered_user_flags (P : Platform) (request : Request) (w : World)
  (u : User) :
  In u (users (db (snd (verify_registration P request w)))) ->
  ~ In u (users (db w)) ->
  can_download u = true /\ is_admin u = false.
Proof.
  intros Hin Hnew.
  destruct (verify_registration_only_adds_flagged P request w u Hin) as [H|H].
  - contradiction.
  - exact H.
Qed.

Lemma registered_user_flags_witness :
  In demo_alice
     (users (db (snd (verify_registration demo_platform demo_verify_request
                                          demo_registration_world))))
  /\ ~ In demo_alice (users (db demo_registration_world))
  /\ can_download demo_alice = true /\ is_admin demo_alice = false.
Proof.
  assert (H1 : In demo_alice
     (users (db (snd (verify_registration demo_platform demo_verify_request
                                          demo_registration_world))))).
  { vm_compute. left. reflexivity. }
  assert (H2 : ~ In demo_alice (users (db demo_registration_world))).
  { intros []. }
  split; [exact H1 | split; [exact H2 |]].
  exact (registered_user_flags demo_platform demo_verify_request
                               demo_registration_world demo_alice H1 H2).
Defined.

Lemma get_stripped_field_or request key dflt v w :
  field_or request key dflt = Some v ->
  get_stripped (get_json request) key dflt w = (Ret v, w).
Proof.
  unfold field_or, get_stripped, dict_get.
  destruct (get_json request) as [| | | | |l]; try discriminate.
  destruct (assoc key l) as [[| | |raw| |]|]; try discriminate;
    intros [= <-]; reflexivity.
Qed.

(** An object body answers every [data.get]. *)
Lemma dict_get_field request key0 v key dflt w :
  field request key0 = Some v ->
  exists j, dict_get (get_json request) key dflt w = (Ret j, w).
Proof.
  unfold field, dict_get.
  destruct (get_json request) as [| | | | |l]; try discriminate.
  intros _. eexists. reflexivity.
Qed.

Lemma find_all_false A (f : A -> bool) l :
  (forall x, In x l -> f x = false) -> find f l = None.
Proof.
  induction l as [|x l IH]; intros H; [reflexivity|].
  simpl. rewrite (H x (or_introl eq_refl)). apply IH.
  intros y Hy. apply H. now right.
Qed.

(** Evaluates the next [bind] of the goal with the equation [H] of its
    first computation. *)
Ltac mstep H := rewrite (bind_ret _ _ _ _ _ _ _ H).

Lemma verify_registration_expired P request token reg w :
  faults w = [] ->
  verify_body request token ->
  registration_of_token P token (db w) = Some reg ->
  reg_expires_at reg < clock w ->
  verify_registration P request w =
  (Ret token_expired,
   set_db (set_pending_registrations
             (delete_registration (reg_id reg) (pending_registrations (db w)))
             (db w)) w).
Proof.
  intros Hf (Htok & Htruthy & (a & Ha & Hlow) & (e & He) & (p & Hp)) Hreg Hexp.
  unfold verify_registration. cbv zeta.
  rewrite (field_truthy _ _ _ Htok). cbn [negb].
  mstep (get_stripped_field _ _ _ "" w Htok).
  mstep (get_stripped_field_or _ _ _ _ w Ha).
  destruct (dict_get_field request "token" token "include_qr" (JBool false) w Htok)
    as [qr Hqr].
  mstep Hqr.
  mstep (get_stripped_field_or _ _ _ _ w He).
  mstep (get_stripped_field_or _ _ _ _ w Hp).
  rewrite Htruthy, Hlow. cbn [negb].
  change (str_in "totp" ["totp"]) with true. cbn [negb].
  unfold PendingRegistrationRepository_get_by_token.
  mstep (query_ok _
           (fun d => find (fun r => String.eqb (reg_token_hash r) (hash_token P token))
                          (pending_registrations d)) w Hf).
  fold (registration_of_token P token (db w)). rewrite Hreg.
  assert (He' : reg_is_expired reg w = (Ret true, w)).
  { unfold reg_is_expired, bind, now, ret.
    now rewrite (proj2 (Z.ltb_lt _ _) Hexp). }
  mstep He'.
  unfold reg_consume.
  mstep (update_ok
           (fun d => set_pending_registrations
                       (delete_registration (reg_id reg) (pending_registrations d)) d)
           w Hf).
  reflexivity.
Qed.

Lemma verify_registration_unknown P request token w :
  faults w = [] ->
  verify_body request token ->
  registration_of_token P token (db w) = None ->
  verify_registration P request w = (Ret token_invalid, w).
Proof.
  intros Hf (Htok & Htruthy & (a & Ha & Hlow) & (e & He) & (p & Hp)) Hreg.
  unfold verify_registration. cbv zeta.
  rewrite (field_truthy _ _ _ Htok). cbn [negb].
  mstep (get_stripped_field _ _ _ "" w Htok).
  mstep (get_stripped_field_or _ _ _ _ w Ha).
  destruct (dict_get_field request "token" token "include_qr" (JBool false) w Htok)
    as [qr Hqr].
  mstep Hqr.
  mstep (get_stripped_field_or _ _ _ _ w He).
  mstep (get_stripped_field_or _ _ _ _ w Hp).
  rewrite Htruthy, Hlow. cbn [negb].
  change (str_in "totp" ["totp"]) with true. cbn [negb].
  unfold PendingRegistrationRepository_get_by_token.
  mstep (query_ok _
           (fun d => find (fun r => String.eqb (reg_token_hash r) (hash_token P token))
                          (pending_registrations d)) w Hf).
  fold (registration_of_token P token (db w)). rewrite Hreg.
  reflexivity.
Qed.

Lemma consumed_registration_unreachable P token reg d :
  registration_of_token P token d = Some reg ->
  token_unique reg d ->
  find (fun r => String.eqb (reg_token_hash r) (hash_token P token))
       (delete_registration (reg_id reg) (pending_registrations d)) = None.
Proof.
  intros Hreg Huniq. apply find_some in Hreg. destruct Hreg as [Hin Hhash].
  apply String.eqb_eq in Hhash.
  apply find_all_false. intros r Hr.
  unfold delete_registration in Hr. apply filter_In in Hr.
  destruct Hr as [Hr Hid]. apply negb_true_iff, Z.eqb_neq in Hid.
  apply String.eqb_neq. intros E. apply Hid, Huniq; congruence.
Qed.

(** C9. When [POST /register/verify] is called with a token that resolves
    to an expired pending registration, the handler answers 400 with the
    message that the token has expired and has deleted the registration;
    the same request served again, at any later instant, answers 400 with
    the message for an unknown token. *)
Theorem expired_registration_is_consumed (P : Platform) (request : Request)
  (token : string) (reg : PendingRegistration) (d : Store) (n : nat)
  (t t' : Z) (smtp dev : bool) :
  verify_body request token ->
  registration_of_token P token d = Some reg ->
  reg_expires_at reg < t ->
  token_unique reg d ->
  fst (serve P POST_register_verify request (healthy d n t smtp dev))
  = Ret token_expired
  /\ pending_registrations
       (db (snd (serve P POST_register_verify request (healthy d n t smtp dev))))
     = delete_registration (reg_id reg) (pending_registrations d)
  /\ ~ In reg (pending_registrations
       (db (snd (serve P POST_register_verify request (healthy d n t smtp dev)))))
  /\ registration_of_token P token
       (db (snd (serve P POST_register_verify request (healthy d n t smtp dev))))
     = None
  /\ fst (serve P POST_register_verify request
            (at_time t'
               (snd (serve P POST_register_verify request
                       (healthy d n t smtp dev)))))
     = Ret token_invalid.
Proof.
  intros Hbody Hreg Hexp Huniq.
  unfold serve, handler.
  change (set_g fresh_g (healthy d n t smtp dev)) with (healthy d n t smtp dev).
  rewrite (verify_registration_expired P request token reg
             (healthy d n t smtp dev) eq_refl Hbody Hreg Hexp).
  cbn [fst snd].
  pose proof (consumed_registration_unreachable P token reg d Hreg Huniq) as Hgone.
  repeat split.
  - intros Hin. unfold delete_registration in Hin. apply filter_In in Hin.
    destruct Hin as [_ Hid]. rewrite Z.eqb_refl in Hid. discriminate.
  - exact Hgone.
  - rewrite (verify_registration_unknown P request token); try reflexivity;
      assumption.
Qed.

Lemma expired_registration_is_consumed_witness :
  verify_body demo_verify_request "TOKEN"
  /\ reg_expires_at (mkPendingRegistration 1 "alice1" "TOKEN" 1000 1900) < 2000
  /\ fst (serve demo_platform POST_register_verify demo_verify_request
            (healthy (db demo_registration_world) 1 2000 true true))
     = Ret token_expired
  /\ fst (serve demo_platform POST_register_verify demo_verify_request
            (at_time 3000
               (snd (serve demo_platform POST_register_verify demo_verify_request
                       (healthy (db demo_registration_world) 1 2000 true true)))))
     = Ret token_invalid.
Proof.
  assert (Hbody : verify_body demo_verify_request "TOKEN").
  { repeat split; try reflexivity.
    - exists "totp". split; reflexivity.
    - exists "". reflexivity.
    - exists "". reflexivity. }
  assert (Hexp : reg_expires_at (mkPendingRegistration 1 "alice1" "TOKEN" 1000 1900)
                 < 2000) by (simpl; lia).
  assert (Huniq : token_unique (mkPendingRegistration 1 "alice1" "TOKEN" 1000 1900)
                               (db demo_registration_world)).
  { intros r [<-|[]] _. reflexivity. }
  pose proof (expired_registration_is_consumed demo_platform demo_verify_request
                "TOKEN" (mkPendingRegistration 1 "alice1" "TOKEN" 1000 1900)
                (db demo_registration_world) 1 2000 3000 true true
                Hbody eq_refl Hexp Huniq) as H.
  split; [exact Hbody | split; [exact Hexp |]].
  split; [exact (proj1 H) | exact (proj2 (proj2 (proj2 (proj2 H))))].
Defined.

(* ===================================================================== *)
(** * Magic link *)
(* ===================================================================== *)

Lemma opt_truthy_spec o :
  opt_truthy o = true <-> exists e, o = Some e /\ e <> "".
Proof.
  destruct o as [[|c s]|]; simpl; split; try discriminate.
  - intros (e & [= <-] & H). congruence.
  - intros _. eexists. split; [reflexivity | discriminate].
  - intros _. reflexivity.
  - intros (e & [=] & _).
Qed.

Lemma not_eligible_without_user name d :
  user_named name d = None -> ~ link_eligible name d.
Proof. intros H (u & e & Hu & _). congruence. Qed.

Lemma not_eligible_disabled name d u :
  user_named name d = Some u ->
  recovery_enabled u = false \/ opt_truthy (recovery_email u) = false ->
  ~ link_eligible name d.
Proof.
  intros Hu Hno (u' & e & Hu' & Hen & He & Hne).
  rewrite Hu in Hu'. injection Hu' as <-.
  destruct Hno as [H|H]; [congruence|].
  assert (Ht : opt_truthy (recovery_email u) = true).
  { apply opt_truthy_spec. now exists e. }
  congruence.
Qed.

Lemma not_created_in_place t ttl d : ~ recovery_created t ttl d d.
Proof. intros (r & rest & _ & _ & H & _). lia. Qed.

(** C5. For a request that names a user, [POST /magic-link] always answers
    with the generic success response, also when the mail cannot be sent.
    It creates a PendingRecovery expiring 15 minutes later exactly when the
    named user exists with recovery enabled and a non-empty recovery email;
    otherwise it changes nothing. A failed send leaves its only trace in
    the application log. *)
Theorem magic_link_creates_recovery (P : Platform) (request : Request)
  (name : string) (d : Store) (n : nat) (t : Z) (smtp dev : bool) :
  field request "username" = Some name ->
  str_truthy name = true ->
  fst (serve P POST_magic_link request (healthy d n t smtp dev))
  = Ret generic_success
  /\ (recovery_created t (15 * 60) d
        (db (snd (serve P POST_magic_link request (healthy d n t smtp dev))))
      <-> link_eligible name d)
  /\ (~ link_eligible name d ->
      snd (serve P POST_magic_link request (healthy d n t smtp dev))
      = healthy d n t smtp dev)
  /\ (smtp = true ->
      log (snd (serve P POST_magic_link request (healthy d n t smtp dev))) = [])
  /\ (smtp = false -> link_eligible name d ->
      exists u e,
        user_named name d = Some u /\ recovery_email u = Some e /\
        log (snd (serve P POST_magic_link request (healthy d n t smtp dev)))
        = [MagicLinkNotSent (user_id u); SmtpFailed e]).
Proof.
  intros Hname Htruthy.
  unfold serve, handler, request_magic_link. cbv zeta.
  change (set_g fresh_g (healthy d n t smtp dev)) with (healthy d n t smtp dev).
  rewrite (field_truthy _ _ _ Hname). cbn [negb].
  mstep (get_stripped_field _ _ _ "" (healthy d n t smtp dev) Hname).
  rewrite Htruthy. cbn [negb].
  unfold get_by_username.
  mstep (query_ok _ (fun d => find (fun u => String.eqb (username u) name) (users d))
                  (healthy d n t smtp dev) eq_refl).
  change (db (healthy d n t smtp dev)) with d.
  fold (user_named name d).
  destruct (user_named name d) as [u|] eqn:Hu.
  - destruct (recovery_enabled u) eqn:Hen; cbn [negb orb].
    + destruct (opt_truthy (recovery_email u)) eqn:Hem; cbn [negb].
      * assert (Hel : link_eligible name d).
        { apply opt_truthy_spec in Hem. destruct Hem as (e & He & Hne).
          now exists u, e. }
        apply opt_truthy_spec in Hem. destruct Hem as (e & He & Hne).
        unfold delete_for_user, PendingRecovery_create, _send_magic_link_email,
          logger_error, bind, update, repo, draw, now, ret, email_of.
        rewrite He. simpl.
        assert (Hcr : forall raw,
          recovery_created t 900 d
            (bump_id 1
               (set_pending_recoveries
                  (filter (fun r => negb (rec_user_id r =? user_id u))
                          (pending_recoveries d) ++
                   [new_recovery P (user_id u) 15 raw t
                      (set_pending_recoveries
                         (filter (fun r => negb (rec_user_id r =? user_id u))
                                 (pending_recoveries d)) d)])
                  (set_pending_recoveries
                     (filter (fun r => negb (rec_user_id r =? user_id u))
                             (pending_recoveries d)) d)))).
        { intros raw. eexists. eexists. simpl.
          split; [reflexivity|]. repeat split; simpl; lia. }
        destruct smtp; simpl.
        -- repeat split; auto; try tauto; try discriminate.
        -- repeat split; auto; try tauto; try discriminate.
           intros _ _. exists u, e. repeat split; assumption.
      * pose proof (not_eligible_disabled name d u Hu (or_intror Hem)) as Hno.
        pose proof (not_created_in_place t 900 d) as Hnc.
        simpl. repeat split; auto; try tauto.
    + pose proof (not_eligible_disabled name d u Hu (or_introl Hen)) as Hno.
      pose proof (not_created_in_place t 900 d) as Hnc.
      simpl. repeat split; auto; try tauto.
  - pose proof (not_eligible_without_user name d Hu) as Hno.
    pose proof (not_created_in_place t 900 d) as Hnc.
    simpl. repeat split; auto; try tauto.
Qed.

Lemma magic_link_creates_recovery_witness :
  field demo_magic_request "username" = Some "alice1"
  /\ str_truthy "alice1" = true
  /\ fst (serve demo_platform POST_magic_link demo_magic_request
            (healthy demo_store 0 1000 false false))
     = Ret generic_success
  /\ (recovery_created 1000 (15 * 60) demo_store
        (db (snd (serve demo_platform POST_magic_link demo_magic_request
                    (healthy demo_store 0 1000 false false))))
      <-> link_eligible "alice1" demo_store).
Proof.
  pose proof (magic_link_creates_recovery demo_platform demo_magic_request
                "alice1" demo_store 0 1000 false false eq_refl eq_refl) as H.
  split; [reflexivity | split; [reflexivity |]].
  split; [exact (proj1 H) | exact (proj1 (proj2 H))].
Defined.

(* ===================================================================== *)
(** * What a failed attempt reveals about the user *)
(* ===================================================================== *)

Lemma get_stripped_run request key0 v0 key dflt w :
  field request key0 = Some v0 ->
  get_stripped (get_json request) key dflt w =
  (match field_or request key dflt with
   | Some v => Ret v
   | None => Raise AttributeError
   end, w).
Proof.
  unfold field, field_or, get_stripped, dict_get.
  destruct (get_json request) as [| | | | |l]; try discriminate.
  intros _. destruct (assoc key l) as [[| | |raw| |]|]; reflexivity.
Qed.

Lemma field_or_present request key v :
  field_or request key "" = Some v -> str_truthy v = true ->
  field request key = Some v.
Proof.
  unfold field, field_or.
  destruct (get_json request) as [| | | | |l]; try discriminate.
  destruct (assoc key l) as [[| | |raw| |]|]; try discriminate; try tauto.
  intros [= <-]. discriminate.
Qed.

(** Once the body is read, [POST /magic-link] answers the same whoever
    the user is and whether the mail goes out. *)
Lemma magic_link_after_lookup P (user : option User) w :
  faults w = [] ->
  fst (match user with
       | None => ret generic_success
       | Some user =>
           if negb (recovery_enabled user) || negb (opt_truthy (recovery_email user))
           then ret generic_success
           else
             delete_for_user (user_id user) ;;;
             ' (_, raw_token) <- PendingRecovery_create P (user_id user) 15 ;;
             email_sent <- _send_magic_link_email (email_of user) (username user)
                             ("/verify.html?token=" ++ raw_token) 15 ;;
             if email_sent then ret generic_success
             else logger_error (MagicLinkNotSent (user_id user)) ;;;
                  ret generic_success
       end w) = Ret generic_success.
Proof.
  intros Hf. destruct user as [u|]; [|reflexivity].
  destruct (negb (recovery_enabled u) || negb (opt_truthy (recovery_email u)));
    [reflexivity|].
  unfold delete_for_user, PendingRecovery_create, _send_magic_link_email,
    logger_error, bind, update, repo, draw, now, ret.
  rewrite Hf. simpl. rewrite Hf. simpl.
  destruct (smtp_up w); reflexivity.
Qed.

Lemma bind_unfold A B (m : M A) (k : A -> M B) w :
  bind m k w =
  match m w with
  | (Ret a, w') => k a w'
  | (Raise e, w') => (Raise e, w')
  end.
Proof. reflexivity. Qed.

Lemma get_stripped_pure data key dflt w :
  get_stripped data key dflt w = (stripped_value data key dflt, w).
Proof.
  unfold get_stripped, stripped_value, dict_get.
  destruct data as [| | | | |l]; try reflexivity.
  destruct (assoc key l) as [[| | |raw| |]|]; reflexivity.
Qed.

(** The magic-link answer does not depend on the store at all. *)
Lemma request_magic_link_blind P request w1 w2 :
  faults w1 = [] -> faults w2 = [] ->
  fst (request_magic_link P request w1) = fst (request_magic_link P request w2).
Proof.
  intros H1 H2. unfold request_magic_link. cbv zeta.
  destruct (truthy (get_json request)) eqn:Ht; cbn [negb]; [|reflexivity].
  rewrite !bind_unfold, !get_stripped_pure.
  destruct (stripped_value (get_json request) "username" "") as [name|e];
    [|reflexivity].
  destruct (str_truthy name); cbn [negb]; [|reflexivity].
  rewrite !bind_unfold. unfold get_by_username.
  rewrite !query_ok by assumption.
  now rewrite !magic_link_after_lookup.
Qed.

Lemma stripped_value_field request key v dflt :
  field request key = Some v ->
  stripped_value (get_json request) key dflt = Ret v.
Proof.
  unfold field, stripped_value.
  destruct (get_json request) as [| | | | |l]; try discriminate.
  destruct (assoc key l) as [[| | |raw| |]|]; try discriminate.
  now intros [= <-].
Qed.

Lemma stripped_value_present request key v :
  stripped_value (get_json request) key "" = Ret v ->
  str_truthy v = true ->
  field request key = Some v.
Proof.
  unfold field, stripped_value.
  destruct (get_json request) as [| | | | |l]; try discriminate.
  destruct (assoc key l) as [[| | |raw| |]|]; try discriminate.
  - now intros [= <-].
  - intros [= <-]. discriminate.
Qed.

Lemma consume_first_spent uid h t l :
  (forall c, In c l -> code_matches uid h c = false) ->
  consume_first uid h t l = (false, l).
Proof.
  induction l as [|c l IH]; intros H; [reflexivity|].
  simpl. rewrite (H c (or_introl eq_refl)).
  rewrite IH; [reflexivity|]. intros c' Hc'. apply H. now right.
Qed.

Lemma login_failure_blind P request name u w1 w2 :
  faults w1 = [] -> faults w2 = [] ->
  field request "username" = Some name ->
  user_named name (db w1) = Some u ->
  user_named name (db w2) = None ->
  auth_type u = TOTP ->
  (forall code, field request "code" = Some code ->
                verify_totp P (auth_credential u) code (clock w1) = false) ->
  fst (login P request w1) = fst (login P request w2).
Proof.
  intros H1 H2 Hname Hu1 Hu2 Hty Hbad. unfold login. cbv zeta.
  rewrite (field_truthy _ _ _ Hname). cbn [negb].
  rewrite !bind_unfold, !get_stripped_pure.
  rewrite (stripped_value_field _ _ _ "" Hname).
  rewrite !bind_unfold, !get_stripped_pure.
  destruct (stripped_value (get_json request) "code" "") as [code|e] eqn:Hc;
    [|reflexivity].
  destruct (negb (str_truthy name) || negb (str_truthy code)) eqn:Hreq;
    [reflexivity|].
  apply orb_false_elim in Hreq. destruct Hreq as [_ Hcode].
  apply negb_false_iff in Hcode.
  rewrite !bind_unfold. unfold get_by_username.
  rewrite !query_ok by assumption.
  fold (user_named name (db w1)). fold (user_named name (db w2)).
  rewrite Hu1, Hu2.
  rewrite bind_unfold. unfold now at 1. rewrite Hty.
  rewrite (Hbad code (stripped_value_present _ _ _ Hc Hcode)).
  reflexivity.
Qed.

Lemma recover_failure_blind P request name u w1 w2 :
  faults w1 = [] -> faults w2 = [] ->
  field request "username" = Some name ->
  user_named name (db w1) = Some u ->
  user_named name (db w2) = None ->
  (forall code, field request "backup_code" = Some code ->
                spent P (user_id u) code (db w1)) ->
  fst (recover_with_backup_code P request w1)
  = fst (recover_with_backup_code P request w2).
Proof.
  intros H1 H2 Hname Hu1 Hu2 Hbad. unfold recover_with_backup_code. cbv zeta.
  rewrite (field_truthy _ _ _ Hname). cbn [negb].
  rewrite !bind_unfold, !get_stripped_pure.
  rewrite (stripped_value_field _ _ _ "" Hname).
  rewrite !bind_unfold, !get_stripped_pure.
  destruct (stripped_value (get_json request) "backup_code" "") as [code|e] eqn:Hc;
    [|reflexivity].
  destruct (negb (str_truthy name) || negb (str_truthy code)) eqn:Hreq;
    [reflexivity|].
  apply orb_false_elim in Hreq. destruct Hreq as [_ Hcode].
  apply negb_false_iff in Hcode.
  rewrite !bind_unfold. unfold get_by_username.
  rewrite !query_ok by assumption.
  fold (user_named name (db w1)). fold (user_named name (db w2)).
  rewrite Hu1, Hu2.
  rewrite bind_unfold. unfold verify_and_consume.
  rewrite bind_unfold. unfold now at 1.
  rewrite repo_ok by assumption.
  unfold verify_and_consume_in.
  rewrite (consume_first_spent _ _ _ _
             (Hbad code (stripped_value_present _ _ _ Hc Hcode))).
  reflexivity.
Qed.

(** C4, as far as it holds. Take a request that names a user, a store in
    which that user exists and one in which it does not. [POST /magic-link]
    answers the two runs identically, always. [POST /login] answers them
    identically when the user authenticates by TOTP and the submitted code
    does not verify; [POST /recover/backup-code] when the submitted code is
    not an unused backup code of the user. Status, body and cookie all
    agree, and an exception raised while reading the body is the same in
    both runs. *)
Theorem failed_attempt_hides_user (P : Platform) (request : Request)
  (name : string) (u : User) (d_present d_absent : Store) (n : nat) (t : Z)
  (smtp dev : bool) :
  field request "username" = Some name ->
  user_named name d_present = Some u ->
  user_named name d_absent = None ->
  fst (serve P POST_magic_link request (healthy d_present n t smtp dev))
  = fst (serve P POST_magic_link request (healthy d_absent n t smtp dev))
  /\ (auth_type u = TOTP ->
      (forall code, field request "code" = Some code ->
                    verify_totp P (auth_credential u) code t = false) ->
      fst (serve P POST_login request (healthy d_present n t smtp dev))
      = fst (serve P POST_login request (healthy d_absent n t smtp dev)))
  /\ ((forall code, field request "backup_code" = Some code ->
                    spent P (user_id u) code d_present) ->
      fst (serve P POST_recover_backup_code request (healthy d_present n t smtp dev))
      = fst (serve P POST_recover_backup_code request (healthy d_absent n t smtp dev))).
Proof.
  intros Hname Hu1 Hu2. unfold serve, handler.
  change (set_g fresh_g (healthy d_present n t smtp dev))
    with (healthy d_present n t smtp dev).
  change (set_g fresh_g (healthy d_absent n t smtp dev))
    with (healthy d_absent n t smtp dev).
  split; [|split].
  - apply request_magic_link_blind; reflexivity.
  - intros Hty Hbad.
    apply (login_failure_blind P request name u); auto.
  - intros Hbad.
    apply (recover_failure_blind P request name u); auto.
Qed.

Lemma failed_attempt_hides_user_witness :
  field demo_magic_request "username" = Some "alice1"
  /\ user_named "alice1" demo_store = Some demo_alice_mail
  /\ user_named "alice1" empty_store = None
  /\ fst (serve demo_platform POST_magic_link demo_magic_request
            (healthy demo_store 0 1000 true false))
     = fst (serve demo_platform POST_magic_link demo_magic_request
              (healthy empty_store 0 1000 true false)).
Proof.
  pose proof (failed_attempt_hides_user demo_platform demo_magic_request
                "alice1" demo_alice_mail demo_store empty_store 0 1000 true false
                eq_refl eq_refl eq_refl) as H.
  split; [reflexivity | split; [reflexivity | split; [reflexivity |]]].
  exact (proj1 H).
Defined.

(** C4 as the design document states it fails: with a fixed body that
    carries valid credentials, [POST /login] and [POST /recover/backup-code]
    answer 200 with the account's data when the user exists and 401 when
    it does not. *)
Lemma success_reveals_user :
  user_named "alice1" demo_store = Some demo_alice_mail
  /\ user_named "alice1" empty_store = None
  /\ (exists r1 r2,
        fst (serve demo_platform POST_login demo_login_request
               (healthy demo_store 0 1000 true false)) = Ret r1 /\
        fst (serve demo_platform POST_login demo_login_request
               (healthy empty_store 0 1000 true false)) = Ret r2 /\
        status r1 = 200 /\ status r2 = 401 /\ body r1 <> body r2)
  /\ (exists r1 r2,
        fst (serve demo_platform POST_recover_backup_code demo_recover_request
               (healthy demo_store 0 1000 true false)) = Ret r1 /\
        fst (serve demo_platform POST_recover_backup_code demo_recover_request
               (healthy empty_store 0 1000 true false)) = Ret r2 /\
        status r1 = 200 /\ status r2 = 401 /\ body r1 <> body r2).
Proof.
  split; [reflexivity | split; [reflexivity | split]].
  - eexists. eexists. split; [vm_compute; reflexivity|].
    split; [vm_compute; reflexivity|].
    split; [reflexivity | split; [reflexivity | discriminate]].
  - eexists. eexists. split; [vm_compute; reflexivity|].
    split; [vm_compute; reflexivity|].
    split; [reflexivity | split; [reflexivity | discriminate]].
Qed.

(* ===================================================================== *)
(** * Session resolution *)
(* ===================================================================== *)

Lemma get_current_user_stale P request token s d n t smtp dev :
  session_cookie request = Some token ->
  str_truthy token = true ->
  session_of_token P token d = Some s ->
  30 * 60 < t - session_last_seen s ->
  get_current_user P request (healthy d n t smtp dev) =
  (Ret None,
   set_db (set_sessions (delete_session (session_id s) (sessions d)) d)
     (set_g (mkG (Some None) (Some None)) (healthy d n t smtp dev))).
Proof.
  intros Hcookie Htruthy Hs Hstale.
  unfold get_current_user. rewrite bind_unfold. unfold get_g at 1.
  cbn [g healthy g_current_user fresh_g fst snd].
  rewrite bind_unfold. unfold put_g at 1.
  fold (session_cookie request). rewrite Hcookie, Htruthy. cbn [negb].
  rewrite bind_unfold. unfold SessionRepository_get_by_token.
  rewrite query_ok by reflexivity.
  cbn [db set_g healthy]. fold (session_of_token P token d). rewrite Hs.
  rewrite bind_unfold. unfold now at 1. cbn [clock set_g healthy].
  unfold is_stale. rewrite (proj2 (Z.ltb_lt _ _) Hstale).
  rewrite bind_unfold. unfold Session_invalidate.
  rewrite update_ok by reflexivity. reflexivity.
Qed.

Lemma get_current_user_fresh P request token s u d n t smtp dev :
  session_cookie request = Some token ->
  str_truthy token = true ->
  session_of_token P token d = Some s ->
  t - session_last_seen s <= 30 * 60 ->
  user_of s d = Some u ->
  exists w',
    get_current_user P request (healthy d n t smtp dev) = (Ret (Some u), w')
    /\ db w' = touch_store s t d.
Proof.
  intros Hcookie Htruthy Hs Hfresh Hu.
  unfold get_current_user. rewrite bind_unfold. unfold get_g at 1.
  cbn [g healthy g_current_user fresh_g fst snd].
  rewrite bind_unfold. unfold put_g at 1.
  fold (session_cookie request). rewrite Hcookie, Htruthy. cbn [negb].
  rewrite bind_unfold. unfold SessionRepository_get_by_token.
  rewrite query_ok by reflexivity.
  cbn [db set_g healthy]. fold (session_of_token P token d). rewrite Hs.
  rewrite bind_unfold. unfold now at 1. cbn [clock set_g healthy].
  unfold is_stale. rewrite (proj2 (Z.ltb_ge _ _) Hfresh).
  rewrite bind_unfold. unfold get_by_id.
  rewrite query_ok by reflexivity.
  cbn [db set_g healthy]. fold (user_of s d). rewrite Hu.
  rewrite bind_unfold. unfold Session_touch, touch_store.
  rewrite bind_unfold. unfold now at 1. cbn [clock set_g healthy].
  destruct (TOUCH_INTERVAL <=? t - session_last_seen s).
  - rewrite bind_unfold, update_ok by reflexivity.
    eexists. split; reflexivity.
  - eexists. split; reflexivity.
Qed.

Lemma session_of_token_touched P token sid t d :
  find (fun s => String.eqb (session_token_hash s) (hash_token P token))
       (map (touch_row sid t) (sessions d))
  = option_map (touch_row sid t) (session_of_token P token d).
Proof.
  unfold session_of_token. induction (sessions d) as [|r l IH]; [reflexivity|].
  simpl. replace (session_token_hash (touch_row sid t r)) with (session_token_hash r)
    by (unfold touch_row; destruct (session_id r =? sid); reflexivity).
  destruct (String.eqb _ _); [reflexivity | exact IH].
Qed.

(** After a read that found the session fresh, the token resolves to the
    same session, seen less than a minute before the read. *)
Lemma session_after_fresh_read P token s t d :
  session_of_token P token d = Some s ->
  exists s',
    session_of_token P token (touch_store s t d) = Some s' /\
    session_id s' = session_id s /\
    session_user_id s' = session_user_id s /\
    t - session_last_seen s' < TOUCH_INTERVAL /\
    (session_last_seen s' = session_last_seen s \/ session_last_seen s' = t).
Proof.
  intros Hs. unfold touch_store.
  destruct (TOUCH_INTERVAL <=? t - session_last_seen s) eqn:E.
  - exists (with_last_seen t s). unfold session_of_token at 1.
    cbn [sessions set_sessions]. rewrite session_of_token_touched, Hs.
    cbn [option_map]. unfold touch_row. rewrite Z.eqb_refl.
    unfold TOUCH_INTERVAL. cbn [with_last_seen session_id session_user_id
                                 session_last_seen].
    split; [reflexivity|]. split; [reflexivity|]. split; [reflexivity|].
    split; [lia | now right].
  - apply Z.leb_gt in E. exists s. repeat split; try assumption. now left.
Qed.

Lemma users_after_touch s t d : users (touch_store s t d) = users d.
Proof. unfold touch_store. now destruct (_ <=? _). Qed.

Lemma sessions_length_after_touch s t d :
  List.length (sessions (touch_store s t d)) = List.length (sessions d).
Proof.
  unfold touch_store. destruct (_ <=? _); [|reflexivity].
  cbn [sessions set_sessions]. apply length_map.
Qed.

(** A session read at a pace of at most 29 minutes is never reaped. *)
Lemma session_persists P request token u :
  session_cookie request = Some token ->
  str_truthy token = true ->
  forall ts d s t0,
    session_of_token P token d = Some s ->
    user_of s d = Some u ->
    t0 - session_last_seen s < TOUCH_INTERVAL ->
    paced (29 * 60) t0 ts ->
    exists s',
      session_of_token P token (visits P request ts d) = Some s' /\
      session_id s' = session_id s.
Proof.
  intros Hcookie Htruthy. induction ts as [|t ts IH]; intros d s t0 Hs Hu Hseen Hpace.
  - exists s. split; [exact Hs | reflexivity].
  - destruct Hpace as [Hgap Hpace]. cbn [visits]. unfold visit.
    assert (Hfresh : t - session_last_seen s <= 30 * 60)
      by (unfold TOUCH_INTERVAL in Hseen; lia).
    destruct (get_current_user_fresh P request token s u d 0 t true false
                Hcookie Htruthy Hs Hfresh Hu) as (w' & -> & Hdb).
    cbn [snd]. rewrite Hdb.
    destruct (session_after_fresh_read P token s t d Hs)
      as (s1 & Hs1 & Hid & Huid & Hseen1 & _).
    destruct (IH (touch_store s t d) s1 t Hs1) as (s' & Hs' & Hid'); auto.
    + unfold user_of. rewrite users_after_touch, Huid. exact Hu.
    + exists s'. split; [exact Hs' | congruence].
Qed.

(** C6. Take a request whose session cookie resolves to a session [s], read
    at instant [t] by [get_current_user].
    - If [s] was last seen more than 30 minutes before [t], the read
      returns no user and deletes the session.
    - If [s] was last seen at most 30 minutes before [t] and its user
      exists, the read returns the user and keeps the session, stamping it
      at most once a minute.
    - Hence a session read at least every 29 minutes is never reaped,
      however long the series of reads. *)
Theorem stale_session_reaped_on_read (P : Platform) (request : Request)
  (token : string) (s : Session) (d : Store) (n : nat) (t : Z)
  (smtp dev : bool) :
  session_cookie request = Some token ->
  str_truthy token = true ->
  session_of_token P token d = Some s ->
  (30 * 60 < t - session_last_seen s ->
   fst (get_current_user P request (healthy d n t smtp dev)) = Ret None
   /\ sessions (db (snd (get_current_user P request (healthy d n t smtp dev))))
      = delete_session (session_id s) (sessions d)
   /\ (forall s', In s' (sessions (db (snd (get_current_user P request
                                              (healthy d n t smtp dev)))))
                  -> session_id s' <> session_id s))
  /\ (t - session_last_seen s <= 30 * 60 ->
      forall u, user_of s d = Some u ->
      fst (get_current_user P request (healthy d n t smtp dev)) = Ret (Some u)
      /\ List.length (sessions (db (snd (get_current_user P request
                                           (healthy d n t smtp dev)))))
         = List.length (sessions d)
      /\ exists s',
           session_of_token P token
             (db (snd (get_current_user P request (healthy d n t smtp dev))))
           = Some s'
           /\ session_id s' = session_id s
           /\ (session_last_seen s' = session_last_seen s
               \/ session_last_seen s' = t))
  /\ (forall u ts,
      user_of s d = Some u ->
      paced (29 * 60) (session_last_seen s) ts ->
      exists s',
        session_of_token P token (visits P request ts d) = Some s'
        /\ session_id s' = session_id s).
Proof.
  intros Hcookie Htruthy Hs. split; [|split].
  - intros Hstale.
    rewrite (get_current_user_stale P request token s d n t smtp dev
               Hcookie Htruthy Hs Hstale).
    cbn [fst snd db set_db sessions set_sessions].
    split; [reflexivity | split; [reflexivity|]].
    intros s' Hin. unfold delete_session in Hin. apply filter_In in Hin.
    destruct Hin as [_ Hid]. now apply negb_true_iff, Z.eqb_neq in Hid.
  - intros Hfresh u Hu.
    destruct (get_current_user_fresh P request token s u d n t smtp dev
                Hcookie Htruthy Hs Hfresh Hu) as (w' & -> & Hdb).
    cbn [fst snd]. rewrite Hdb.
    split; [reflexivity | split; [apply sessions_length_after_touch|]].
    destruct (session_after_fresh_read P token s t d Hs)
      as (s' & Hs' & Hid & _ & _ & Hseen).
    exists s'. auto.
  - intros u ts Hu Hpace.
    apply (session_persists P request token u Hcookie Htruthy ts d s
             (session_last_seen s)); auto.
    unfold TOUCH_INTERVAL. lia.
Qed.

Lemma stale_session_reaped_on_read_witness :
  session_cookie demo_cookie_request = Some "TOKENX"
  /\ session_of_token demo_platform "TOKENX" demo_session_store = Some demo_session
  /\ 30 * 60 < 2801 - session_last_seen demo_session
  /\ fst (get_current_user demo_platform demo_cookie_request
            (healthy demo_session_store 0 2801 true false)) = Ret None
  /\ sessions (db (snd (get_current_user demo_platform demo_cookie_request
                          (healthy demo_session_store 0 2801 true false))))
     = [].
Proof.
  pose proof (stale_session_reaped_on_read demo_platform demo_cookie_request
                "TOKENX" demo_session demo_session_store 0 2801 true false
                eq_refl eq_refl eq_refl) as [H _].
  assert (Hstale : 30 * 60 < 2801 - session_last_seen demo_session)
    by (simpl; lia).
  destruct (H Hstale) as (H1 & H2 & _).
  split; [reflexivity | split; [reflexivity | split; [exact Hstale |]]].
  split; [exact H1 | exact H2].
Defined.

(* ===================================================================== *)
(** * Recovery with a backup code *)
(* ===================================================================== *)

(** Projections of a world built by the setters. *)
Ltac wsimpl :=
  cbn [db g faults rng clock smtp_up dev_mode log
       set_db set_g set_faults set_rng add_log healthy fst snd].

Lemma recover_success P request name code u d n t smtp dev :
  field request "username" = Some name ->
  str_truthy name = true ->
  field request "backup_code" = Some code ->
  str_truthy code = true ->
  user_named name d = Some u ->
  code_accepted P (user_id u) code t d ->
  exists resp,
    recover_with_backup_code P request (healthy d n t smtp dev)
    = (Ret resp,
       healthy (recovered_store P u code n t d) (S n + NUM_BACKUP_CODES) t
               smtp dev)
    /\ status resp = 200.
Proof.
  intros Hname Hnt Hcode Hct Hu Hok.
  unfold recover_with_backup_code. cbv zeta.
  rewrite (field_truthy _ _ _ Hname). cbn [negb].
  rewrite bind_unfold, get_stripped_pure, (stripped_value_field _ _ _ "" Hname).
  rewrite bind_unfold, get_stripped_pure, (stripped_value_field _ _ _ "" Hcode).
  rewrite Hnt, Hct. cbn [negb orb].
  rewrite bind_unfold. unfold get_by_username. rewrite query_ok by reflexivity.
  wsimpl. fold (user_named name d). rewrite Hu.
  unfold code_accepted in Hok. unfold recovered_store.
  rewrite bind_unfold. unfold verify_and_consume.
  rewrite bind_unfold. unfold now at 1. rewrite repo_ok by reflexivity. wsimpl.
  rewrite Hok. cbn [negb].
  rewrite bind_unfold. unfold get_remaining_count.
  rewrite query_ok by reflexivity. wsimpl.
  rewrite bind_unfold. unfold setup_totp.
  rewrite bind_unfold. unfold draw at 1, ret at 1. wsimpl.
  rewrite bind_unfold. unfold User_save. rewrite repo_ok by reflexivity. wsimpl.
  destruct (save_user _ _) as [u' d2]. wsimpl.
  rewrite bind_unfold. unfold create_codes_for_user.
  rewrite bind_unfold. unfold generate_backup_codes at 1. wsimpl.
  rewrite repo_ok by reflexivity. wsimpl.
  rewrite bind_unfold. unfold invalidate_user_sessions.
  rewrite update_ok by reflexivity. wsimpl.
  eexists. split; reflexivity.
Qed.

Lemma set_backup_codes_same d : set_backup_codes (backup_codes d) d = d.
Proof. now destruct d. Qed.

Lemma recover_failure P request name code u w :
  faults w = [] ->
  field request "username" = Some name ->
  str_truthy name = true ->
  field request "backup_code" = Some code ->
  str_truthy code = true ->
  user_named name (db w) = Some u ->
  spent P (user_id u) code (db w) ->
  exists w',
    recover_with_backup_code P request w = (Ret invalid_backup_code, w')
    /\ db w' = db w /\ faults w' = [].
Proof.
  intros Hf Hname Hnt Hcode Hct Hu Hspent.
  unfold recover_with_backup_code. cbv zeta.
  rewrite (field_truthy _ _ _ Hname). cbn [negb].
  rewrite bind_unfold, get_stripped_pure, (stripped_value_field _ _ _ "" Hname).
  rewrite bind_unfold, get_stripped_pure, (stripped_value_field _ _ _ "" Hcode).
  rewrite Hnt, Hct. cbn [negb orb].
  rewrite bind_unfold. unfold get_by_username. rewrite query_ok by assumption.
  fold (user_named name (db w)). rewrite Hu.
  rewrite bind_unfold. unfold verify_and_consume.
  rewrite bind_unfold. unfold now at 1. rewrite repo_ok by assumption.
  unfold verify_and_consume_in.
  rewrite (consume_first_spent _ _ _ _ Hspent). cbn [fst snd negb].
  eexists. split; [reflexivity|]. wsimpl.
  split; [apply set_backup_codes_same | assumption].
Qed.


(** *** The rows of the backup-code table along a recovery *)

Lemma consume_first_used uid h t l l1 :
  consume_first uid h t l = (true, l1) ->
  List.length (filter (is_used_of uid) l1)
  = S (List.length (filter (is_used_of uid) l)).
Proof.
  revert l1. induction l as [|c l IH]; intros l1; simpl; [discriminate|].
  destruct (code_matches uid h c) eqn:Hm.
  - intros [= <-]. unfold code_matches in Hm.
    apply andb_prop in Hm. destruct Hm as [Hm Hnone].
    apply andb_prop in Hm. destruct Hm as [Huid _].
    apply Z.eqb_eq in Huid.
    assert (H1 : is_used_of uid (mark_used t c) = true).
    { unfold is_used_of, mark_used. cbn. rewrite Huid, Z.eqb_refl. reflexivity. }
    assert (H2 : is_used_of uid c = false).
    { unfold is_used_of. rewrite Hnone. apply andb_false_r. }
    cbn [filter]. rewrite H1, H2. reflexivity.
  - destruct (consume_first uid h t l) as [ok r] eqn:Hr.
    intros [= -> <-]. simpl. specialize (IH r eq_refl).
    destruct (is_used_of uid c); simpl; now rewrite IH.
Qed.

Lemma code_rows_unused P uid i codes c :
  In c (code_rows P uid i codes) ->
  code_user_id c = uid /\ code_used_at c = None /\
  exists x, In x codes /\ code_hash c = stored_hash P x.
Proof.
  revert i. induction codes as [|x codes IH]; intros i; simpl; [tauto|].
  intros [<-|Hin].
  - repeat split. exists x. split; [now left | reflexivity].
  - destruct (IH _ Hin) as (H1 & H2 & y & Hy & H3).
    repeat split; auto. exists y. split; [now right | assumption].
Qed.

Lemma code_rows_length P uid i codes :
  List.length (code_rows P uid i codes) = List.length codes.
Proof.
  revert i. induction codes as [|x codes IH]; intros i; simpl; [reflexivity|].
  now rewrite IH.
Qed.

Lemma filter_none A (f : A -> bool) l :
  (forall x, In x l -> f x = false) -> filter f l = [].
Proof.
  induction l as [|x l IH]; intros H; [reflexivity|].
  simpl. rewrite (H x (or_introl eq_refl)). apply IH.
  intros y Hy. apply H. now right.
Qed.

Lemma filter_all A (f : A -> bool) l :
  (forall x, In x l -> f x = true) -> filter f l = l.
Proof.
  induction l as [|x l IH]; intros H; [reflexivity|].
  simpl. rewrite (H x (or_introl eq_refl)). f_equal. apply IH.
  intros y Hy. apply H. now right.
Qed.

Lemma filter_filter_sub A (f g : A -> bool) l :
  (forall x, f x = true -> g x = true) ->
  filter f (filter g l) = filter f l.
Proof.
  intros H. induction l as [|x l IH]; [reflexivity|].
  simpl. destruct (g x) eqn:Hg; simpl.
  - now rewrite IH.
  - destruct (f x) eqn:Hf; [|exact IH].
    rewrite (H x Hf) in Hg. discriminate.
Qed.

(** Regenerating the codes of any user keeps every used row and adds
    unused rows only. *)
Lemma replace_codes_used P uid uid' codes d :
  used_count uid (snd (replace_codes P uid' codes d)) = used_count uid d.
Proof.
  unfold used_count, replace_codes. cbn [snd backup_codes bump_id set_backup_codes].
  rewrite filter_app, length_app.
  rewrite (filter_none _ (is_used_of uid) (code_rows P uid' (next_id d) codes)).
  - rewrite filter_filter_sub; [simpl; lia|].
    intros c Hc. unfold is_used_of in Hc. unfold is_unused_of.
    apply andb_prop in Hc. destruct Hc as [_ Hc].
    destruct (code_used_at c); [|discriminate].
    now rewrite andb_false_r.
  - intros c Hc. apply code_rows_unused in Hc. destruct Hc as (_ & Hnone & _).
    unfold is_used_of. rewrite Hnone. now rewrite andb_false_r.
Qed.

Lemma replace_codes_remaining P uid codes d :
  remaining_count uid (snd (replace_codes P uid codes d))
  = Z.of_nat (List.length codes).
Proof.
  unfold remaining_count, replace_codes. cbn [snd backup_codes bump_id set_backup_codes].
  rewrite filter_app, length_app.
  rewrite (filter_none _ (is_unused_of uid)
             (filter (fun c => negb (is_unused_of uid c)) (backup_codes d))).
  - rewrite filter_all, code_rows_length; [reflexivity|].
    intros c Hc. apply code_rows_unused in Hc. destruct Hc as (Hu & Hnone & _).
    unfold is_unused_of. now rewrite Hu, Hnone, Z.eqb_refl.
  - intros c Hc. apply filter_In in Hc. destruct Hc as [_ Hc].
    now apply negb_true_iff in Hc.
Qed.

Lemma replace_codes_spent P uid codes code d :
  (forall c, In c codes -> stored_hash P c <> stored_hash P code) ->
  spent P uid code (snd (replace_codes P uid codes d)).
Proof.
  intros Hfresh c. unfold replace_codes.
  cbn [snd backup_codes bump_id set_backup_codes].
  rewrite in_app_iff. intros [Hc|Hc].
  - apply filter_In in Hc. destruct Hc as [_ Hc]. apply negb_true_iff in Hc.
    unfold is_unused_of in Hc. unfold code_matches.
    destruct (code_user_id c =? uid); [|reflexivity].
    destruct (is_none (code_used_at c)); [discriminate|].
    now rewrite andb_false_r.
  - apply code_rows_unused in Hc. destruct Hc as (_ & _ & x & Hx & Hh).
    unfold code_matches. rewrite Hh.
    rewrite (proj2 (String.eqb_neq _ _) (Hfresh x Hx)).
    now rewrite andb_false_r.
Qed.

Lemma save_user_codes u d : backup_codes (snd (save_user u d)) = backup_codes d.
Proof. unfold save_user. destruct (user_id u =? UNSAVED); reflexivity. Qed.

Lemma save_user_saved u d :
  user_id u <> UNSAVED ->
  save_user u d = (recomputed u, set_users (replace_user (recomputed u) (users d)) d).
Proof.
  intros H. unfold save_user. now rewrite (proj2 (Z.eqb_neq _ _) H).
Qed.

Lemma user_named_replaced name u u' l :
  find (fun r => String.eqb (username r) name) l = Some u ->
  username u' = name -> user_id u' = user_id u ->
  find (fun r => String.eqb (username r) name) (replace_user u' l) = Some u'.
Proof.
  intros Hfind Hname Hid. induction l as [|r l IH]; [discriminate|].
  simpl in *. destruct (String.eqb (username r) name) eqn:Hr.
  - injection Hfind as ->. rewrite Hid, Z.eqb_refl.
    now rewrite Hname, String.eqb_refl.
  - destruct (user_id r =? user_id u').
    + now rewrite Hname, String.eqb_refl.
    + rewrite Hr. apply IH. exact Hfind.
Qed.

(** *** The store after a successful recovery *)

Lemma verify_and_consume_in_users P uid code t d :
  users (snd (verify_and_consume_in P uid code t d)) = users d.
Proof.
  unfold verify_and_consume_in. now destruct (consume_first _ _ _ _).
Qed.

Lemma user_named_username name d u :
  user_named name d = Some u -> username u = name.
Proof.
  intros H. apply find_some in H. now apply String.eqb_eq.
Qed.


Lemma recovered_store_unfold P u code n t d :
  user_id u <> UNSAVED ->
  recovered_store P u code n t d =
  set_sessions
    (delete_user_sessions (user_id u)
       (sessions
          (snd (replace_codes P (user_id u) (fresh_codes P (S n))
                  (set_users
                     (replace_user (recomputed (with_credential TOTP (random_secret P n) u))
                        (users (snd (verify_and_consume_in P (user_id u) code t d))))
                     (snd (verify_and_consume_in P (user_id u) code t d)))))))
    (snd (replace_codes P (user_id u) (fresh_codes P (S n))
            (set_users
               (replace_user (recomputed (with_credential TOTP (random_secret P n) u))
                  (users (snd (verify_and_consume_in P (user_id u) code t d))))
               (snd (verify_and_consume_in P (user_id u) code t d))))).
Proof.
  intros Hid. unfold recovered_store. cbv zeta.
  rewrite save_user_saved by exact Hid. reflexivity.
Qed.


Lemma recovered_store_user P name u code n t d :
  user_named name d = Some u ->
  user_id u <> UNSAVED ->
  user_named name (recovered_store P u code n t d)
  = Some (recomputed (with_credential TOTP (random_secret P n) u)).
Proof.
  intros Hu Hid. rewrite recovered_store_unfold by exact Hid.
  unfold user_named. cbn [users set_sessions replace_codes snd bump_id
                          set_backup_codes set_users].
  rewrite verify_and_consume_in_users.
  apply (user_named_replaced name u); [exact Hu | | reflexivity].
  cbn. now apply user_named_username in Hu.
Qed.

Lemma recovered_store_used P u code n t d :
  code_accepted P (user_id u) code t d ->
  used_count (user_id u) (recovered_store P u code n t d)
  = used_count (user_id u) d + 1.
Proof.
  intros Hok. unfold recovered_store. cbv zeta.
  destruct (save_user _ _) as [u' d2] eqn:Hsave.
  unfold used_count at 1. cbn [backup_codes set_sessions].
  fold (used_count (user_id u) (snd (replace_codes P (user_id u')
          (map (random_code P) (seq (S n) NUM_BACKUP_CODES)) d2))).
  rewrite replace_codes_used. unfold used_count.
  replace (backup_codes d2)
    with (backup_codes (snd (verify_and_consume_in P (user_id u) code t d)))
    by (rewrite <- (save_user_codes (with_credential TOTP (random_secret P n) u));
        now rewrite Hsave).
  unfold code_accepted, verify_and_consume_in in *.
  destruct (consume_first _ _ _ _) as [ok l1] eqn:Hc. cbn [fst snd] in *. subst ok.
  cbn [backup_codes set_backup_codes].
  rewrite (consume_first_used _ _ _ _ _ Hc). lia.
Qed.



Lemma repo_next_ok A (f : Store -> A * Store) w fs :
  faults w = false :: fs ->
  repo f w = (Ret (fst (f (db w))), set_db (snd (f (db w))) (set_faults fs w)).
Proof. intros H. unfold repo. rewrite H. now destruct (f (db w)). Qed.

Lemma repo_next_fails A (f : Store -> A * Store) w fs :
  faults w = true :: fs -> repo f w = (Raise StoreError, set_faults fs w).
Proof. intros H. unfold repo. now rewrite H. Qed.

Lemma save_user_sessions u d : sessions (snd (save_user u d)) = sessions d.
Proof. unfold save_user. destruct (user_id u =? UNSAVED); reflexivity. Qed.

Lemma fresh_codes_length P n : List.length (fresh_codes P n) = NUM_BACKUP_CODES.
Proof. unfold fresh_codes. now rewrite length_map, length_seq. Qed.

Lemma consume_first_remaining uid h t l l1 :
  consume_first uid h t l = (true, l1) ->
  List.length (filter (is_unused_of uid) l)
  = S (List.length (filter (is_unused_of uid) l1)).
Proof.
  revert l1. induction l as [|c l IH]; intros l1; simpl; [discriminate|].
  destruct (code_matches uid h c) eqn:Hm.
  - intros [= <-]. unfold code_matches in Hm.
    apply andb_prop in Hm. destruct Hm as [Hm Hnone].
    apply andb_prop in Hm. destruct Hm as [Huid _].
    assert (H1 : is_unused_of uid (mark_used t c) = false).
    { unfold is_unused_of, mark_used. cbn. apply andb_false_r. }
    assert (H2 : is_unused_of uid c = true).
    { unfold is_unused_of. now rewrite Huid, Hnone. }
    cbn [filter]. rewrite H1, H2. reflexivity.
  - destruct (consume_first uid h t l) as [ok r] eqn:Hr.
    intros [= -> <-]. simpl. specialize (IH r eq_refl).
    destruct (is_unused_of uid c); simpl; now rewrite IH.
Qed.

Lemma remaining_after_consumption P uid code t d :
  code_accepted P uid code t d ->
  remaining_count uid (snd (verify_and_consume_in P uid code t d))
  = remaining_count uid d - 1.
Proof.
  unfold code_accepted, verify_and_consume_in, remaining_count.
  destruct (consume_first uid (stored_hash P code) t (backup_codes d))
    as [ok l] eqn:Hc.
  cbn [fst snd backup_codes set_backup_codes]. intros ->.
  rewrite (consume_first_remaining _ _ _ _ _ Hc). lia.
Qed.

(** A repository call fails: the handler raises, and the store holds what
    the calls before it wrote. *)
Lemma recover_interrupted P request name code u d n t k :
  field request "username" = Some name ->
  str_truthy name = true ->
  field request "backup_code" = Some code ->
  str_truthy code = true ->
  user_named name d = Some u ->
  user_id u <> UNSAVED ->
  code_accepted P (user_id u) code t d ->
  (k <= 5)%nat ->
  exists w',
    recover_with_backup_code P request (failing_at k d n t)
    = (Raise StoreError, w')
    /\ db w' = interrupted_store P u code n t d k.
Proof.
  intros Hname Hnt Hcode Hct Hu Hid Hok Hk.
  unfold recover_with_backup_code. cbv zeta.
  rewrite (field_truthy _ _ _ Hname). cbn [negb].
  rewrite bind_unfold, get_stripped_pure, (stripped_value_field _ _ _ "" Hname).
  rewrite bind_unfold, get_stripped_pure, (stripped_value_field _ _ _ "" Hcode).
  rewrite Hnt, Hct. cbn [negb orb].
  unfold code_accepted in Hok. unfold interrupted_store.
  destruct k as [|[|[|[|[|[|k]]]]]]; try lia; unfold failing_at;
    cbn [repeat app].
  { rewrite bind_unfold. unfold get_by_username, query.
    erewrite repo_next_fails by reflexivity. wsimpl.
    eexists. split; reflexivity. }
  { rewrite bind_unfold. unfold get_by_username, query.
    erewrite repo_next_ok by reflexivity. wsimpl.
    fold (user_named name d). rewrite Hu.
    rewrite bind_unfold. unfold verify_and_consume.
    rewrite bind_unfold. unfold now at 1.
    erewrite repo_next_fails by reflexivity. wsimpl.
    eexists. split; reflexivity. }
  all: rewrite bind_unfold; unfold get_by_username, query;
    erewrite repo_next_ok by reflexivity; wsimpl;
    fold (user_named name d); rewrite Hu;
    rewrite bind_unfold; unfold verify_and_consume;
    rewrite bind_unfold; unfold now at 1;
    erewrite repo_next_ok by reflexivity; wsimpl;
    rewrite Hok; cbn [negb];
    rewrite bind_unfold; unfold get_remaining_count, query.
  - erewrite repo_next_fails by reflexivity. wsimpl.
    eexists. split; reflexivity.
  - erewrite repo_next_ok by reflexivity. wsimpl.
    rewrite bind_unfold. unfold setup_totp.
    rewrite bind_unfold. unfold draw at 1, ret at 1. wsimpl.
    rewrite bind_unfold. unfold User_save.
    erewrite repo_next_fails by reflexivity. wsimpl.
    eexists. split; reflexivity.
  - erewrite repo_next_ok by reflexivity. wsimpl.
    rewrite bind_unfold. unfold setup_totp.
    rewrite bind_unfold. unfold draw at 1, ret at 1. wsimpl.
    rewrite bind_unfold. unfold User_save.
    erewrite repo_next_ok by reflexivity. wsimpl.
    rewrite bind_unfold. unfold create_codes_for_user.
    rewrite bind_unfold. unfold generate_backup_codes at 1. wsimpl.
    erewrite repo_next_fails by reflexivity. wsimpl.
    eexists. split; reflexivity.
  - erewrite repo_next_ok by reflexivity. wsimpl.
    rewrite bind_unfold. unfold setup_totp.
    rewrite bind_unfold. unfold draw at 1, ret at 1. wsimpl.
    rewrite bind_unfold. unfold User_save.
    erewrite repo_next_ok by reflexivity. wsimpl.
    rewrite !save_user_saved by exact Hid. cbn [fst snd].
    rewrite bind_unfold. unfold create_codes_for_user.
    rewrite bind_unfold. unfold generate_backup_codes at 1. wsimpl.
    erewrite repo_next_ok by reflexivity. wsimpl.
    rewrite bind_unfold. unfold invalidate_user_sessions, update.
    erewrite repo_next_fails by reflexivity. wsimpl.
    eexists. split; reflexivity.
Qed.

(** What the interrupted stores hold. *)
Lemma interrupted_store_consumed P u code n t d k :
  code_accepted P (user_id u) code t d ->
  (2 <= k)%nat ->
  used_count (user_id u) (interrupted_store P u code n t d k)
  = used_count (user_id u) d + 1
  /\ sessions (interrupted_store P u code n t d k) = sessions d.
Proof.
  intros Hok Hk.
  assert (Hused1 : used_count (user_id u)
                     (snd (verify_and_consume_in P (user_id u) code t d))
                   = used_count (user_id u) d + 1).
  { unfold code_accepted, verify_and_consume_in, used_count in *.
    destruct (consume_first _ _ _ _) as [ok l1] eqn:Hc. cbn [fst snd] in *.
    subst ok. cbn [backup_codes set_backup_codes].
    rewrite (consume_first_used _ _ _ _ _ Hc). lia. }
  assert (Hs1 : sessions (snd (verify_and_consume_in P (user_id u) code t d))
                = sessions d).
  { unfold verify_and_consume_in. now destruct (consume_first _ _ _ _). }
  unfold interrupted_store. cbv zeta.
  destruct k as [|[|[|[|[|k]]]]]; try lia.
  - split; assumption.
  - split; assumption.
  - split.
    + unfold used_count at 1. rewrite save_user_codes. exact Hused1.
    + now rewrite save_user_sessions.
  - split.
    + rewrite replace_codes_used.
      unfold used_count at 1. rewrite save_user_codes. exact Hused1.
    + unfold replace_codes. cbn [snd sessions bump_id set_backup_codes].
      now rewrite save_user_sessions.
Qed.

Lemma interrupted_store_before_save P u code n t d k :
  code_accepted P (user_id u) code t d ->
  (2 <= k <= 3)%nat ->
  users (interrupted_store P u code n t d k) = users d
  /\ remaining_count (user_id u) (interrupted_store P u code n t d k)
     = remaining_count (user_id u) d - 1.
Proof.
  intros Hok Hk. unfold interrupted_store. cbv zeta.
  destruct k as [|[|[|[|k]]]]; try lia;
    (split; [apply verify_and_consume_in_users
            | now apply remaining_after_consumption]).
Qed.

Lemma interrupted_store_after_save P name u code n t d k :
  user_named name d = Some u ->
  user_id u <> UNSAVED ->
  code_accepted P (user_id u) code t d ->
  (4 <= k)%nat ->
  user_named name (interrupted_store P u code n t d k)
  = Some (recomputed (with_credential TOTP (random_secret P n) u))
  /\ remaining_count (user_id u) (interrupted_store P u code n t d k)
     = (if (k =? 4)%nat then remaining_count (user_id u) d - 1 else 8).
Proof.
  intros Hu Hid Hok Hk. unfold interrupted_store. cbv zeta.
  assert (Hnamed : user_named name
                     (snd (save_user (with_credential TOTP (random_secret P n) u)
                             (snd (verify_and_consume_in P (user_id u) code t d))))
                   = Some (recomputed (with_credential TOTP (random_secret P n) u))).
  { rewrite save_user_saved by exact Hid. unfold user_named.
    cbn [snd users set_users]. rewrite verify_and_consume_in_users.
    apply (user_named_replaced name u); [exact Hu | | reflexivity].
    cbn. now apply user_named_username in Hu. }
  destruct k as [|[|[|[|[|k]]]]]; try lia.
  - split; [exact Hnamed |]. cbn [Nat.eqb].
    unfold remaining_count at 1. rewrite save_user_codes.
    now apply remaining_after_consumption.
  - split.
    + unfold user_named, replace_codes.
      cbn [snd users bump_id set_backup_codes]. exact Hnamed.
    + cbn [Nat.eqb]. rewrite replace_codes_remaining, fresh_codes_length.
      reflexivity.
Qed.

Lemma recovered_store_remaining P u code n t d :
  user_id u <> UNSAVED ->
  remaining_count (user_id u) (recovered_store P u code n t d)
  = Z.of_nat NUM_BACKUP_CODES.
Proof.
  intros Hid. rewrite recovered_store_unfold by exact Hid.
  unfold remaining_count at 1. cbn [backup_codes set_sessions].
  fold (remaining_count (user_id u)
          (snd (replace_codes P (user_id u) (fresh_codes P (S n))
                  (set_users
                     (replace_user (recomputed (with_credential TOTP (random_secret P n) u))
                        (users (snd (verify_and_consume_in P (user_id u) code t d))))
                     (snd (verify_and_consume_in P (user_id u) code t d)))))).
  rewrite replace_codes_remaining. unfold fresh_codes.
  now rewrite length_map, length_seq.
Qed.

Lemma recovered_store_sessions P u code n t d :
  user_id u <> UNSAVED ->
  sessions_of (user_id u) (recovered_store P u code n t d) = [].
Proof.
  intros Hid. rewrite recovered_store_unfold by exact Hid.
  unfold sessions_of. cbn [sessions set_sessions].
  apply filter_none. intros s Hs. unfold delete_user_sessions in Hs.
  apply filter_In in Hs. destruct Hs as [_ Hs]. now apply negb_true_iff in Hs.
Qed.



(** C1, as the code runs it. After a backup code is consumed, the handler
    performs the remaining steps one repository call after the other, with
    no transaction around them. When every call succeeds the answer is 200
    and the store holds all the effects together: the fresh TOTP secret and
    [auth_type = TOTP] on the user, eight unused backup codes, no session
    of the user, and the submitted code marked used. When one of the six
    repository calls fails, the handler raises and the store holds exactly
    what the calls before it wrote, and nothing of the later steps: nothing
    when the lookup or the consumption fails; the consumed code when the
    count or [user.save] fails; the consumed code and the rotated
    credential, with the old codes still in place, when the regeneration
    fails; the consumed code, the rotated credential and the eight new
    codes when the invalidation fails. The sessions are as they were in
    every interrupted run, and the consumed code stays marked used. *)
Theorem recovery_runs_step_by_step (P : Platform) (request : Request)
  (name code : string) (u : User) (d : Store) (n : nat) (t : Z)
  (smtp dev : bool) :
  field request "username" = Some name ->
  str_truthy name = true ->
  field request "backup_code" = Some code ->
  str_truthy code = true ->
  user_named name d = Some u ->
  user_id u <> UNSAVED ->
  code_accepted P (user_id u) code t d ->
  (exists resp,
     serve P POST_recover_backup_code request (healthy d n t smtp dev)
     = (Ret resp,
        healthy (recovered_store P u code n t d) (S n + NUM_BACKUP_CODES) t
                smtp dev)
     /\ status resp = 200)
  /\ (exists u',
        user_named name (recovered_store P u code n t d) = Some u' /\
        user_id u' = user_id u /\
        auth_credential u' = random_secret P n /\
        auth_type u' = TOTP)
  /\ remaining_count (user_id u) (recovered_store P u code n t d) = 8
  /\ sessions_of (user_id u) (recovered_store P u code n t d) = []
  /\ used_count (user_id u) (recovered_store P u code n t d)
     = used_count (user_id u) d + 1
  /\ (forall k, (k <= 5)%nat ->
      exists w',
        serve P POST_recover_backup_code request (failing_at k d n t)
        = (Raise StoreError, w')
        /\ db w' = interrupted_store P u code n t d k
        /\ ((k < 2)%nat -> db w' = d)
        /\ ((2 <= k)%nat ->
            used_count (user_id u) (db w') = used_count (user_id u) d + 1
            /\ sessions (db w') = sessions d)
        /\ ((2 <= k <= 3)%nat ->
            users (db w') = users d
            /\ remaining_count (user_id u) (db w')
               = remaining_count (user_id u) d - 1)
        /\ ((4 <= k)%nat ->
            exists u',
              user_named name (db w') = Some u' /\
              user_id u' = user_id u /\
              auth_credential u' = random_secret P n /\
              auth_type u' = TOTP)
        /\ (k = 4%nat ->
            remaining_count (user_id u) (db w')
            = remaining_count (user_id u) d - 1)
        /\ (k = 5%nat -> remaining_count (user_id u) (db w') = 8)).
Proof.
  intros Hname Hnt Hcode Hct Hu Hid Hok.
  split; [|split; [|split; [|split; [|split]]]].
  - unfold serve, handler.
    change (set_g fresh_g (healthy d n t smtp dev)) with (healthy d n t smtp dev).
    now apply (recover_success P request name code u).
  - eexists. split; [now apply recovered_store_user|].
    repeat split.
  - now apply recovered_store_remaining.
  - now apply recovered_store_sessions.
  - now apply recovered_store_used.
  - intros k Hk.
    destruct (recover_interrupted P request name code u d n t k
                Hname Hnt Hcode Hct Hu Hid Hok Hk) as (w' & Hrun & Hdb).
    exists w'. split.
    { unfold serve, handler.
      change (set_g fresh_g (failing_at k d n t)) with (failing_at k d n t).
      exact Hrun. }
    split; [exact Hdb |]. rewrite Hdb.
    split; [|split; [|split; [|split; [|split]]]].
    + intros Hlt. unfold interrupted_store.
      destruct k as [|[|k]]; [reflexivity | reflexivity | lia].
    + intros Hge. now apply interrupted_store_consumed.
    + intros Hin. now apply interrupted_store_before_save.
    + intros Hge.
      destruct (interrupted_store_after_save P name u code n t d k
                  Hu Hid Hok Hge) as [Hnamed _].
      eexists. split; [exact Hnamed | repeat split].
    + intros ->.
      now destruct (interrupted_store_after_save P name u code n t d 4
                      Hu Hid Hok (le_n 4)) as [_ Hrem].
    + intros ->.
      assert (H45 : (4 <= 5)%nat) by lia.
      now destruct (interrupted_store_after_save P name u code n t d 5
                      Hu Hid Hok H45) as [_ Hrem].
Qed.

Lemma recovery_runs_step_by_step_witness :
  user_named "alice1" demo_store = Some demo_alice_mail
  /\ code_accepted demo_platform 2 "code-ii" 1000 demo_store
  /\ remaining_count 2
       (recovered_store demo_platform demo_alice_mail "code-ii" 10 1000 demo_store)
     = 8
  /\ used_count 2
       (recovered_store demo_platform demo_alice_mail "code-ii" 10 1000 demo_store)
     = used_count 2 demo_store + 1
  /\ (exists w',
        serve demo_platform POST_recover_backup_code demo_recover_request
          (failing_at 4 demo_store 10 1000)
        = (Raise StoreError, w')
        /\ (exists u', user_named "alice1" (db w') = Some u'
                       /\ auth_credential u' = random_secret demo_platform 10)
        /\ remaining_count 2 (db w') = 1).
Proof.
  assert (Hid : user_id demo_alice_mail <> UNSAVED) by discriminate.
  assert (Hok : code_accepted demo_platform (user_id demo_alice_mail) "code-ii"
                              1000 demo_store) by reflexivity.
  pose proof (recovery_runs_step_by_step demo_platform demo_recover_request
                "alice1" "code-ii" demo_alice_mail demo_store 10 1000 true false
                eq_refl eq_refl eq_refl eq_refl eq_refl Hid Hok)
    as (_ & _ & Hrem & _ & Hused & Hfail).
  split; [reflexivity | split; [exact Hok | split; [exact Hrem |]]].
  split; [exact Hused |].
  assert (H4 : (4 <= 5)%nat) by lia.
  destruct (Hfail 4%nat H4)
    as (w' & Hrun & _ & _ & _ & _ & Hrot & Hcodes & _).
  exists w'. split; [exact Hrun | split].
  - destruct (Hrot (le_n 4)) as (u' & Hu' & _ & Hcred & _).
    exists u'. split; [exact Hu' | exact Hcred].
  - exact (Hcodes eq_refl).
Defined.

(** C1 as the design document states it fails: when saving the user fails
    after the code was consumed, the handler raises and the code is still
    marked used; one unused code is left where there were two. *)
Lemma consumed_code_is_not_restored :
  backup_codes demo_store
  = [mkBackupCode 3 2 "CODEII" None; mkBackupCode 4 2 "CODEIII" None]
  /\ fst (serve demo_platform POST_recover_backup_code demo_recover_request
            (failing_at 3 demo_store 10 1000))
     = Raise StoreError
  /\ backup_codes
       (db (snd (serve demo_platform POST_recover_backup_code demo_recover_request
                   (failing_at 3 demo_store 10 1000))))
     = [mkBackupCode 3 2 "CODEII" (Some 1000); mkBackupCode 4 2 "CODEIII" None]
  /\ users
       (db (snd (serve demo_platform POST_recover_backup_code demo_recover_request
                   (failing_at 3 demo_store 10 1000))))
     = users demo_store.
Proof. repeat split; vm_compute; reflexivity. Qed.

(* ===================================================================== *)
(** * One session per user *)
(* ===================================================================== *)

Lemma keeps_single_session_refl d : keeps_single_session d d.
Proof. intros H. exact H. Qed.

Lemma keeps_single_session_trans d1 d2 d3 :
  keeps_single_session d1 d2 -> keeps_single_session d2 d3 ->
  keeps_single_session d1 d3.
Proof. intros H12 H23 H. apply H23, H12, H. Qed.

Lemma same_sessions_keep d d' :
  sessions d' = sessions d -> keeps_single_session d d'.
Proof. intros E H uid. unfold sessions_of. rewrite E. apply H. Qed.

Lemma filter_length_le A (f : A -> bool) l :
  (List.length (filter f l) <= List.length l)%nat.
Proof.
  induction l as [|x l IH]; simpl; [lia|]. destruct (f x); simpl; lia.
Qed.

Lemma filter_swap A (f g : A -> bool) l :
  filter f (filter g l) = filter g (filter f l).
Proof.
  induction l as [|x l IH]; [reflexivity|]. simpl.
  destruct (f x) eqn:Hf, (g x) eqn:Hg; simpl; rewrite ?Hf, ?Hg, IH; reflexivity.
Qed.

(** Deleting rows keeps S1. *)
Lemma deletion_keeps d (keep : Session -> bool) :
  keeps_single_session d (set_sessions (filter keep (sessions d)) d).
Proof.
  intros H uid. unfold sessions_of. cbn [sessions set_sessions].
  rewrite filter_swap. specialize (H uid). unfold sessions_of in H.
  pose proof (filter_length_le _ keep
                (filter (fun s => session_user_id s =? uid) (sessions d))).
  lia.
Qed.

(** Stamping rows keeps S1: the user of a row does not change. *)
Lemma touch_keeps d sid t :
  keeps_single_session d
    (set_sessions (map (touch_row sid t) (sessions d)) d).
Proof.
  intros H uid. specialize (H uid). unfold sessions_of in *.
  cbn [sessions set_sessions].
  replace (filter (fun s => session_user_id s =? uid)
                  (map (touch_row sid t) (sessions d)))
    with (map (touch_row sid t)
              (filter (fun s => session_user_id s =? uid) (sessions d))).
  - rewrite length_map. exact H.
  - clear H. induction (sessions d) as [|r l IH]; [reflexivity|]. simpl.
    replace (session_user_id (touch_row sid t r)) with (session_user_id r)
      by (unfold touch_row; destruct (session_id r =? sid); reflexivity).
    destruct (session_user_id r =? uid); simpl; now rewrite IH.
Qed.

(** Creating a session keeps S1: the other sessions of the user go in the
    same call. *)
Lemma create_session_keeps P uid ua ip raw t d :
  keeps_single_session d (snd (create_session P uid ua ip raw t d)).
Proof.
  intros H u. unfold create_session, sessions_of.
  cbn [snd sessions bump_id set_sessions].
  rewrite filter_app, length_app. cbn [filter session_user_id].
  unfold delete_user_sessions. rewrite filter_swap.
  destruct (uid =? u) eqn:E.
  - apply Z.eqb_eq in E. subst u.
    rewrite (filter_none _ (fun s => negb (session_user_id s =? uid))).
    + simpl. lia.
    + intros s Hs. apply filter_In in Hs. destruct Hs as [_ Hs].
      now rewrite Hs.
  - specialize (H u). unfold sessions_of in H.
    pose proof (filter_length_le _ (fun s => negb (session_user_id s =? uid))
                  (filter (fun s => session_user_id s =? u) (sessions d))).
    simpl. lia.
Qed.

Ltac keep_sessions :=
  intros;
  first
    [ apply create_session_keeps
    | apply deletion_keeps
    | apply touch_keeps
    | apply same_sessions_keep; reflexivity
    | apply same_sessions_keep;
      match goal with
      | |- context [save_user ?u ?d] =>
          unfold save_user; destruct (user_id u =? UNSAVED); reflexivity
      | |- context [verify_and_consume_in ?P ?uid ?c ?t ?d] =>
          unfold verify_and_consume_in;
          destruct (consume_first uid (stored_hash P c) t (backup_codes d));
          reflexivity
      end ].

Lemma handler_keeps_single_session P r request :
  respects keeps_single_session (handler P r request).
Proof.
  destruct r;
    unfold handler, login, logout, check_auth, start_registration,
      verify_registration, recover_with_backup_code,
      get_remaining_backup_codes, regenerate_backup_codes,
      request_magic_link, verify_magic_link, login_required,
      current_user_or_raise, get_current_session, get_current_user,
      get_by_username, get_by_id, username_exists, User_save,
      User_update_last_login, SessionRepository_get_by_token,
      Session_invalidate, invalidate_user_sessions, Session_touch,
      Session_create_for_user, PendingRegistrationRepository_get_by_token,
      delete_for_username, PendingRegistration_create, reg_is_expired,
      reg_consume, delete_for_user, PendingRecovery_create,
      PendingRecoveryRepository_get_by_token, rec_is_expired, rec_mark_used,
      verify_and_consume, get_remaining_count, create_codes_for_user;
    cbv zeta;
    repeat respects_step keeps_single_session_refl keeps_single_session_trans.
  all: keep_sessions.
Qed.

(** C2. In every store the gateway can reach, whatever the requests, the
    clock, the random source and the failures of repository calls, each
    user has at most one session. A repository call is the unit of
    observation: a handler interrupted between two calls leaves a reachable
    store too. And creating a session leaves the user with that session
    alone, in whatever store it is created. *)
Theorem at_most_one_session (P : Platform) (d : Store) :
  reachable P d ->
  (forall uid, (List.length (sessions_of uid d) <= 1)%nat)
  /\ (forall uid ua ip raw t,
        sessions_of uid (snd (create_session P uid ua ip raw t d))
        = [fst (fst (create_session P uid ua ip raw t d))]).
Proof.
  intros Hreach. split.
  - induction Hreach as [d Hnone | r request w o w' _ IH Hserve].
    + intros uid. unfold sessions_of. rewrite Hnone. simpl. lia.
    + pose proof (handler_keeps_single_session P r request (set_g fresh_g w))
        as Hkeep.
      unfold serve in Hserve. rewrite Hserve in Hkeep. exact (Hkeep IH).
  - intros uid ua ip raw t. unfold create_session, sessions_of.
    cbn [fst snd sessions bump_id set_sessions].
    rewrite filter_app. cbn [filter session_user_id]. rewrite Z.eqb_refl.
    unfold delete_user_sessions. rewrite filter_swap.
    rewrite (filter_none _ (fun s => negb (session_user_id s =? uid))).
    + reflexivity.
    + intros s Hs. apply filter_In in Hs. destruct Hs as [_ Hs]. now rewrite Hs.
Qed.

Lemma at_most_one_session_witness :
  reachable demo_platform (db demo_second_login)
  /\ (List.length (sessions_of 2 (db demo_second_login)) <= 1)%nat
  /\ List.length (sessions (db demo_second_login)) = 1%nat.
Proof.
  assert (H : reachable demo_platform (db demo_second_login)).
  { unfold demo_second_login.
    apply (reach_serve demo_platform POST_login demo_login_request
             (at_time 1500 demo_first_login)
             (fst (serve demo_platform POST_login demo_login_request
                     (at_time 1500 demo_first_login)))).
    - change (db (at_time 1500 demo_first_login)) with (db demo_first_login).
      unfold demo_first_login.
      apply (reach_serve demo_platform POST_login demo_login_request
               (healthy demo_store 0 1000 true false)
               (fst (serve demo_platform POST_login demo_login_request
                       (healthy demo_store 0 1000 true false)))).
      + apply reach_start. reflexivity.
      + apply surjective_pairing.
    - apply surjective_pairing. }
  split; [exact H | split].
  - exact (proj1 (at_most_one_session demo_platform (db demo_second_login) H) 2).
  - vm_compute. reflexivity.
Defined.


(* ===================================================================== *)
(** * Further properties: session resolution and the guards *)
(* ===================================================================== *)

Lemma get_current_user_no_cookie P request w :
  g_current_user (g w) = None ->
  no_cookie request ->
  get_current_user P request w = (Ret None, set_g anonymous_g w).
Proof.
  intros Hg Hc. unfold get_current_user.
  rewrite bind_unfold. unfold get_g at 1. rewrite Hg.
  rewrite bind_unfold. unfold put_g at 1.
  fold (session_cookie request). destruct Hc as [-> | ->]; reflexivity.
Qed.

(** X1. A request without a session cookie, or with an empty one, is
    anonymous without any repository call: [get_current_user] returns
    nobody, [login_required] and [admin_required] answer 401 without
    running the handler, and the world is the same but for the request's
    [g]. *)
Theorem no_cookie_is_anonymous (P : Platform) (f : Request -> M Response)
  (request : Request) (w : World) :
  g_current_user (g w) = None ->
  no_cookie request ->
  get_current_user P request w = (Ret None, set_g anonymous_g w)
  /\ login_required P f request w
     = (Ret authentication_required, set_g anonymous_g w)
  /\ admin_required P f request w
     = (Ret authentication_required, set_g anonymous_g w)
  /\ status authentication_required = 401.
Proof.
  intros Hg Hc.
  pose proof (get_current_user_no_cookie P request w Hg Hc) as H.
  unfold login_required, admin_required. rewrite !bind_unfold, H.
  repeat split.
Qed.

Lemma no_cookie_is_anonymous_witness :
  no_cookie demo_magic_request
  /\ login_required demo_platform (regenerate_backup_codes demo_platform)
       demo_magic_request (failing_at 0 demo_store 0 1000)
     = (Ret authentication_required,
        set_g anonymous_g (failing_at 0 demo_store 0 1000)).
Proof.
  assert (Hc : no_cookie demo_magic_request) by (left; reflexivity).
  split; [exact Hc |].
  exact (proj1 (proj2 (no_cookie_is_anonymous demo_platform
                         (regenerate_backup_codes demo_platform)
                         demo_magic_request (failing_at 0 demo_store 0 1000)
                         eq_refl Hc))).
Defined.

Lemma get_current_user_cached P request w r :
  g_current_user (g w) = Some r -> get_current_user P request w = (Ret r, w).
Proof.
  intros Hg. unfold get_current_user. rewrite bind_unfold. unfold get_g at 1.
  now rewrite Hg.
Qed.

(** Splits a goal about a fully unfolded program on the next thing it
    depends on: the fate of a repository call, the result of a lookup, a
    test. *)
Ltac crack_step :=
  cbv beta; wsimpl;
  match goal with
  | |- context [match ?fs with [] => _ | _ :: _ => _ end] =>
      destruct fs as [|[|] ?]
  | |- context [match find ?f ?l with Some _ => _ | None => _ end] =>
      destruct (find f l)
  | |- context [if ?b then _ else _] => destruct b
  end.

(** What the first [get_current_user] of a request leaves in [g]: the user
    it returned, or nobody when it raised. *)
Lemma get_current_user_caches P request w o w1 :
  g_current_user (g w) = None ->
  get_current_user P request w = (o, w1) ->
  g_current_user (g w1)
  = Some (match o with Ret r => r | Raise _ => None end).
Proof.
  intros Hg. unfold get_current_user.
  rewrite bind_unfold. unfold get_g at 1. rewrite Hg.
  rewrite bind_unfold. unfold put_g at 1.
  destruct (assoc _session_cookie_name (cookies request)) as [token|];
    [|now intros [= <- <-]].
  destruct (str_truthy token); cbn [negb]; [|now intros [= <- <-]].
  unfold SessionRepository_get_by_token, get_by_id, Session_invalidate,
    Session_touch, is_stale, bind, query, update, repo, now, ret, put_g.
  repeat crack_step; cbv beta; wsimpl; now intros [= <- <-].
Qed.

(** X2. Within one request [get_current_user] is memoised: whatever the
    first call did and whether repository calls failed, a second call
    returns what the first returned (nobody, when the first raised) and
    leaves the world exactly as it was. *)
Theorem get_current_user_is_memoised (P : Platform) (request : Request)
  (w : World) :
  g_current_user (g w) = None ->
  get_current_user P request (snd (get_current_user P request w))
  = (Ret (match fst (get_current_user P request w) with
          | Ret r => r
          | Raise _ => None
          end),
     snd (get_current_user P request w)).
Proof.
  intros Hg. apply get_current_user_cached.
  apply (get_current_user_caches P request w); [exact Hg |].
  apply surjective_pairing.
Qed.

Lemma get_current_user_is_memoised_witness :
  get_current_user demo_platform demo_cookie_request
    (snd (get_current_user demo_platform demo_cookie_request
            (healthy demo_session_store 0 1200 true false)))
  = (Ret (Some demo_alice_mail),
     snd (get_current_user demo_platform demo_cookie_request
            (healthy demo_session_store 0 1200 true false))).
Proof.
  exact (get_current_user_is_memoised demo_platform demo_cookie_request
           (healthy demo_session_store 0 1200 true false) eq_refl).
Defined.

(** *** Reading a session in a world where no repository call fails *)

Lemma get_current_user_run_fresh P request token s u w :
  g_current_user (g w) = None ->
  faults w = [] ->
  session_cookie request = Some token ->
  str_truthy token = true ->
  session_of_token P token (db w) = Some s ->
  clock w - session_last_seen s <= 30 * 60 ->
  user_of s (db w) = Some u ->
  get_current_user P request w
  = (Ret (Some u),
     set_g (authenticated_g u (touched (clock w) s))
       (set_db (touch_store s (clock w) (db w)) w)).
Proof.
  intros Hg Hf Hcookie Htruthy Hs Hfresh Hu.
  unfold get_current_user. rewrite bind_unfold. unfold get_g at 1. rewrite Hg.
  rewrite bind_unfold. unfold put_g at 1.
  fold (session_cookie request). rewrite Hcookie, Htruthy. cbn [negb].
  rewrite bind_unfold. unfold SessionRepository_get_by_token.
  rewrite query_ok by exact Hf.
  wsimpl. fold (session_of_token P token (db w)). rewrite Hs.
  rewrite bind_unfold. unfold now at 1. wsimpl.
  unfold is_stale. rewrite (proj2 (Z.ltb_ge _ _) Hfresh).
  rewrite bind_unfold. unfold get_by_id.
  rewrite query_ok by exact Hf.
  wsimpl. fold (user_of s (db w)). rewrite Hu.
  rewrite bind_unfold. unfold Session_touch, touch_store, touched.
  rewrite bind_unfold. unfold now at 1. wsimpl.
  destruct (TOUCH_INTERVAL <=? clock w - session_last_seen s).
  - rewrite bind_unfold, update_ok by exact Hf. reflexivity.
  - reflexivity.
Qed.

Lemma get_current_user_run_orphan P request token s w :
  g_current_user (g w) = None ->
  faults w = [] ->
  session_cookie request = Some token ->
  str_truthy token = true ->
  session_of_token P token (db w) = Some s ->
  clock w - session_last_seen s <= 30 * 60 ->
  user_of s (db w) = None ->
  get_current_user P request w
  = (Ret None,
     set_g anonymous_g
       (set_db (set_sessions (delete_session (session_id s) (sessions (db w)))
                             (db w)) w)).
Proof.
  intros Hg Hf Hcookie Htruthy Hs Hfresh Hu.
  unfold get_current_user. rewrite bind_unfold. unfold get_g at 1. rewrite Hg.
  rewrite bind_unfold. unfold put_g at 1.
  fold (session_cookie request). rewrite Hcookie, Htruthy. cbn [negb].
  rewrite bind_unfold. unfold SessionRepository_get_by_token.
  rewrite query_ok by exact Hf.
  wsimpl. fold (session_of_token P token (db w)). rewrite Hs.
  rewrite bind_unfold. unfold now at 1. wsimpl.
  unfold is_stale. rewrite (proj2 (Z.ltb_ge _ _) Hfresh).
  rewrite bind_unfold. unfold get_by_id.
  rewrite query_ok by exact Hf.
  wsimpl. fold (user_of s (db w)). rewrite Hu.
  rewrite bind_unfold. unfold Session_invalidate.
  rewrite update_ok by exact Hf. reflexivity.
Qed.

Lemma get_current_user_run_unknown P request token w :
  g_current_user (g w) = None ->
  faults w = [] ->
  session_cookie request = Some token ->
  str_truthy token = true ->
  session_of_token P token (db w) = None ->
  get_current_user P request w = (Ret None, set_g anonymous_g w).
Proof.
  intros Hg Hf Hcookie Htruthy Hs.
  unfold get_current_user. rewrite bind_unfold. unfold get_g at 1. rewrite Hg.
  rewrite bind_unfold. unfold put_g at 1.
  fold (session_cookie request). rewrite Hcookie, Htruthy. cbn [negb].
  rewrite bind_unfold. unfold SessionRepository_get_by_token.
  rewrite query_ok by exact Hf.
  wsimpl. fold (session_of_token P token (db w)). rewrite Hs.
  reflexivity.
Qed.

(** X3. A session that is not stale but whose user no longer exists is
    treated like a stale one: [get_current_user] returns nobody and deletes
    the session. *)
Theorem session_without_user_is_dropped (P : Platform) (request : Request)
  (token : string) (s : Session) (d : Store) (n : nat) (t : Z)
  (smtp dev : bool) :
  session_cookie request = Some token ->
  str_truthy token = true ->
  session_of_token P token d = Some s ->
  t - session_last_seen s <= 30 * 60 ->
  user_of s d = None ->
  fst (get_current_user P request (healthy d n t smtp dev)) = Ret None
  /\ sessions (db (snd (get_current_user P request (healthy d n t smtp dev))))
     = delete_session (session_id s) (sessions d)
  /\ (forall s', In s' (sessions (db (snd (get_current_user P request
                                             (healthy d n t smtp dev)))))
                 -> session_id s' <> session_id s).
Proof.
  intros Hcookie Htruthy Hs Hfresh Hu.
  rewrite (get_current_user_run_orphan P request token s
             (healthy d n t smtp dev) eq_refl eq_refl Hcookie Htruthy Hs
             Hfresh Hu).
  wsimpl. cbn [sessions set_sessions].
  split; [reflexivity | split; [reflexivity|]].
  intros s' Hin. unfold delete_session in Hin. apply filter_In in Hin.
  destruct Hin as [_ Hid]. now apply negb_true_iff, Z.eqb_neq in Hid.
Qed.

Lemma session_without_user_is_dropped_witness :
  user_of demo_session (set_users [] demo_session_store) = None
  /\ fst (get_current_user demo_platform demo_cookie_request
            (healthy (set_users [] demo_session_store) 0 1200 true false))
     = Ret None
  /\ sessions (db (snd (get_current_user demo_platform demo_cookie_request
                          (healthy (set_users [] demo_session_store) 0 1200
                                   true false))))
     = [].
Proof.
  assert (Hfresh : 1200 - session_last_seen demo_session <= 30 * 60)
    by (simpl; lia).
  pose proof (session_without_user_is_dropped demo_platform demo_cookie_request
                "TOKENX" demo_session (set_users [] demo_session_store)
                0 1200 true false eq_refl eq_refl eq_refl Hfresh eq_refl)
    as (H1 & H2 & _).
  split; [reflexivity | split; [exact H1 | exact H2]].
Defined.

(** X4. For a request whose cookie resolves to a fresh session of an
    existing user [u], in a world where no repository call fails:
    [login_required] and [auth_if_enabled] run the handler;
    [admin_required] and [admin_if_enabled] run it when [u] is an
    administrator and answer 403 otherwise; [download_permission_required]
    runs it when [u] may download and answers 403 otherwise. The handler
    runs after the session was stamped and finds [u] as current user
    without another lookup. With AUTH_ENABLED off, the three conditional
    guards run the handler without looking at the session at all. *)
Theorem guards_for_a_logged_in_user (P : Platform) (f : Request -> M Response)
  (request : Request) (token : string) (s : Session) (u : User) (w : World) :
  g_current_user (g w) = None ->
  faults w = [] ->
  session_cookie request = Some token ->
  str_truthy token = true ->
  session_of_token P token (db w) = Some s ->
  clock w - session_last_seen s <= 30 * 60 ->
  user_of s (db w) = Some u ->
  login_required P f request w = f request (after_lookup u s w)
  /\ auth_if_enabled P true f request w = f request (after_lookup u s w)
  /\ admin_required P f request w
     = (if is_admin u then f request (after_lookup u s w)
        else (Ret admin_privileges_required, after_lookup u s w))
  /\ admin_if_enabled P true f request w
     = (if is_admin u then f request (after_lookup u s w)
        else (Ret admin_privileges_required, after_lookup u s w))
  /\ download_permission_required P true f request w
     = (if can_download u then f request (after_lookup u s w)
        else (Ret download_required, after_lookup u s w))
  /\ get_current_user P request (after_lookup u s w)
     = (Ret (Some u), after_lookup u s w)
  /\ auth_if_enabled P false f request w = f request w
  /\ admin_if_enabled P false f request w = f request w
  /\ download_permission_required P false f request w = f request w
  /\ status admin_privileges_required = 403
  /\ status download_required = 403.
Proof.
  intros Hg Hf Hcookie Htruthy Hs Hfresh Hu.
  pose proof (get_current_user_run_fresh P request token s u w
                Hg Hf Hcookie Htruthy Hs Hfresh Hu) as Hrun.
  fold (after_lookup u s w) in Hrun.
  unfold login_required, auth_if_enabled, admin_required, admin_if_enabled,
    download_permission_required.
  cbn [negb]. rewrite !bind_unfold, Hrun.
  repeat split;
    solve [ now destruct (is_admin u)
          | now destruct (can_download u)
          | now apply get_current_user_cached ].
Qed.

Lemma guards_for_a_logged_in_user_witness :
  admin_required demo_platform demo_handler demo_cookie_request
    (healthy demo_session_store 0 1200 true false)
  = (Ret admin_privileges_required,
     after_lookup demo_alice_mail demo_session
       (healthy demo_session_store 0 1200 true false))
  /\ download_permission_required demo_platform true demo_handler
       demo_cookie_request (healthy demo_session_store 0 1200 true false)
     = demo_handler demo_cookie_request
         (after_lookup demo_alice_mail demo_session
            (healthy demo_session_store 0 1200 true false)).
Proof.
  assert (Hfresh : clock (healthy demo_session_store 0 1200 true false)
                   - session_last_seen demo_session <= 30 * 60)
    by (simpl; lia).
  pose proof (guards_for_a_logged_in_user demo_platform demo_handler
                demo_cookie_request "TOKENX" demo_session demo_alice_mail
                (healthy demo_session_store 0 1200 true false)
                eq_refl eq_refl eq_refl eq_refl eq_refl Hfresh eq_refl)
    as (_ & _ & H3 & _ & H5 & _).
  split; [exact H3 | exact H5].
Defined.

(* ===================================================================== *)
(** * Further properties: what the open endpoints cannot do *)
(* ===================================================================== *)

Lemma same_accounts_refl d : same_accounts d d.
Proof. repeat split. Qed.

Lemma same_accounts_trans d1 d2 d3 :
  same_accounts d1 d2 -> same_accounts d2 d3 -> same_accounts d1 d3.
Proof.
  intros (U1 & S1 & B1) (U2 & S2 & B2). repeat split; congruence.
Qed.

Lemma same_credentials_refl d : same_credentials d d.
Proof. repeat split. Qed.

Lemma same_credentials_trans d1 d2 d3 :
  same_credentials d1 d2 -> same_credentials d2 d3 -> same_credentials d1 d3.
Proof. intros (U1 & B1) (U2 & B2). split; congruence. Qed.

Lemma open_endpoints_keep_accounts P request :
  respects same_accounts (request_magic_link P request)
  /\ respects same_accounts (start_registration P request).
Proof.
  split;
    unfold request_magic_link, start_registration, get_by_username,
      username_exists, delete_for_username, PendingRegistration_create,
      delete_for_user, PendingRecovery_create;
    cbv zeta;
    repeat respects_step same_accounts_refl same_accounts_trans;
    intros; repeat split.
Qed.

Lemma session_endpoints_keep_credentials P request :
  respects same_credentials (check_auth P request)
  /\ respects same_credentials (logout P request)
  /\ respects same_credentials (get_remaining_backup_codes P request).
Proof.
  split; [|split];
    unfold check_auth, logout, get_remaining_backup_codes, login_required,
      current_user_or_raise, get_current_session, get_current_user,
      SessionRepository_get_by_token, get_by_id, Session_invalidate,
      Session_touch, get_remaining_count;
    cbv zeta;
    repeat respects_step same_credentials_refl same_credentials_trans;
    intros; repeat split.
Qed.

(** X5. Whatever the request and whatever fails, [POST /magic-link] and
    [POST /register/start] leave users, sessions and backup codes as they
    were, and [GET /check], [POST /logout] and
    [POST /recover/remaining-codes] leave users and backup codes as they
    were: none of them can alter an account's credentials. *)
Theorem open_endpoints_cannot_alter_accounts (P : Platform)
  (request : Request) (w : World) :
  same_accounts (db w) (db (snd (serve P POST_magic_link request w)))
  /\ same_accounts (db w) (db (snd (serve P POST_register_start request w)))
  /\ same_credentials (db w) (db (snd (serve P GET_check request w)))
  /\ same_credentials (db w) (db (snd (serve P POST_logout request w)))
  /\ same_credentials (db w)
       (db (snd (serve P POST_recover_remaining_codes request w))).
Proof.
  unfold serve, handler.
  destruct (open_endpoints_keep_accounts P request) as [H1 H2].
  destruct (session_endpoints_keep_credentials P request) as (H3 & H4 & H5).
  repeat split;
    first [ apply (H1 (set_g fresh_g w)) | apply (H2 (set_g fresh_g w))
          | apply (H3 (set_g fresh_g w)) | apply (H4 (set_g fresh_g w))
          | apply (H5 (set_g fresh_g w)) ].
Qed.

(** Like [respects_step], but keeps the equation of every test and case
    analysis it goes through. *)
Ltac respects_walk Rr Rt :=
  match goal with
  | |- respects _ (match ?x with _ => _ end) => destruct x eqn:?
  | |- respects _ (if ?b then _ else _) => destruct b eqn:?
  | _ => respects_step Rr Rt
  end.

Lemma registers_valid_names_refl d : registers_valid_names d d.
Proof. intros r Hr. now left. Qed.

Lemma registers_valid_names_trans d1 d2 d3 :
  registers_valid_names d1 d2 -> registers_valid_names d2 d3 ->
  registers_valid_names d1 d3.
Proof.
  intros H12 H23 r Hr. destruct (H23 r Hr) as [H|H]; [now apply H12 | now right].
Qed.

Lemma start_registration_registers_valid_names P request :
  respects registers_valid_names (start_registration P request).
Proof.
  unfold start_registration, username_exists, delete_for_username,
    PendingRegistration_create.
  cbv zeta.
  repeat respects_walk registers_valid_names_refl registers_valid_names_trans.
  - intros d r Hr. cbn [pending_registrations set_pending_registrations] in Hr.
    apply filter_In in Hr. left. tauto.
  - intros d r Hr.
    cbn [snd pending_registrations bump_id set_pending_registrations] in Hr.
    apply in_app_or in Hr. destruct Hr as [Hr | [<- | []]]; [now left | right].
    cbn [reg_username]. split.
    + repeat match goal with
             | H : (_ <? _)%nat = false |- _ => apply Nat.ltb_ge in H
             end.
      lia.
    + match goal with
      | H : negb (all_chars printable _) = false |- _ =>
          now apply negb_false_iff in H
      end.
Qed.

(** X6. Whatever the request body and whatever fails, every pending
    registration found after [POST /register/start] that was not there
    before is for a username of 5 to 16 printable ASCII characters. *)
Theorem pending_registration_names_are_valid (P : Platform)
  (request : Request) (w : World) (r : PendingRegistration) :
  In r (pending_registrations
          (db (snd (start_registration P request w)))) ->
  ~ In r (pending_registrations (db w)) ->
  (5 <= String.length (reg_username r) <= 16)%nat
  /\ all_chars printable (reg_username r) = true.
Proof.
  intros Hin Hnew.
  destruct (start_registration_registers_valid_names P request w r Hin) as [H|H].
  - contradiction.
  - exact H.
Qed.

Lemma pending_registration_names_are_valid_witness :
  In (mkPendingRegistration 20 "bobby" "TOKEN" 1000 1900)
     (pending_registrations
        (db (snd (start_registration demo_platform
                    (demo_body [("username", JStr "  bobby ")])
                    (healthy demo_store 0 1000 true false)))))
  /\ (5 <= String.length "bobby" <= 16)%nat.
Proof.
  assert (H1 : In (mkPendingRegistration 20 "bobby" "TOKEN" 1000 1900)
     (pending_registrations
        (db (snd (start_registration demo_platform
                    (demo_body [("username", JStr "  bobby ")])
                    (healthy demo_store 0 1000 true false)))))).
  { vm_compute. left. reflexivity. }
  assert (H2 : ~ In (mkPendingRegistration 20 "bobby" "TOKEN" 1000 1900)
                    (pending_registrations
                       (db (healthy demo_store 0 1000 true false)))).
  { intros []. }
  split; [exact H1 |].
  exact (proj1 (pending_registration_names_are_valid demo_platform
                  (demo_body [("username", JStr "  bobby ")])
                  (healthy demo_store 0 1000 true false)
                  (mkPendingRegistration 20 "bobby" "TOKEN" 1000 1900) H1 H2)).
Defined.

(* ===================================================================== *)
(** * Further properties: registration *)
(* ===================================================================== *)

Lemma existsb_find A (f : A -> bool) l :
  existsb f l = negb (is_none (find f l)).
Proof.
  induction l as [|x l IH]; [reflexivity|]. simpl.
  destruct (f x); [reflexivity | exact IH].
Qed.

Lemma filter_app_one A (f : A -> bool) l x :
  f x = true ->
  (forall y, In y l -> f y = false) ->
  filter f (l ++ [x]) = [x].
Proof.
  intros Hx Hl. rewrite filter_app. simpl. rewrite Hx.
  now rewrite (filter_none _ f l Hl).
Qed.

Lemma start_registration_run P request name d n t smtp dev :
  field request "username" = Some name ->
  valid_username name ->
  start_registration P request (healthy d n t smtp dev)
  = match user_named name d with
    | Some _ =>
        (Ret (bad_request "Username already taken"), healthy d n t smtp dev)
    | None =>
        (Ret (jsonify (JObj
           ([("success", JBool true);
             ("message", JStr "Registration started. Please check your email/SMS for verification.");
             ("expires_in_minutes", JInt 15)]
            ++ (if dev
                then [("verify_token", JStr (random_token P n));
                      ("_dev_note", JStr "Token returned directly in dev mode. In production, it would be sent via email/SMS.")]
                else []))%list)),
         healthy
           (bump_id 1
              (set_pending_registrations
                 (filter (fun r => negb (String.eqb (reg_username r) name))
                         (pending_registrations d)
                  ++ [mkPendingRegistration (next_id d) name
                        (hash_token P (random_token P n)) t (t + 15 * 60)])
                 d))
           (S n) t smtp dev)
    end.
Proof.
  intros Hname [[Hlo Hhi] Hprint].
  unfold start_registration. cbv zeta.
  rewrite (field_truthy _ _ _ Hname). cbn [negb].
  rewrite bind_unfold, get_stripped_pure, (stripped_value_field _ _ _ "" Hname).
  rewrite (proj2 (Nat.ltb_ge _ _) Hlo), (proj2 (Nat.ltb_ge _ _) Hhi), Hprint.
  cbn [negb].
  rewrite bind_unfold. unfold username_exists. rewrite query_ok by reflexivity.
  wsimpl. rewrite existsb_find. fold (user_named name d).
  destruct (user_named name d) as [u|]; cbn [is_none negb]; [reflexivity|].
  rewrite bind_unfold. unfold delete_for_username.
  rewrite update_ok by reflexivity. wsimpl.
  rewrite bind_unfold. unfold PendingRegistration_create.
  rewrite bind_unfold. unfold draw at 1. wsimpl.
  rewrite bind_unfold. unfold now at 1. wsimpl.
  rewrite repo_ok by reflexivity. wsimpl.
  rewrite bind_unfold.
  destruct dev; reflexivity.
Qed.

(** X7. For a body that carries a username of 5 to 16 printable ASCII
    characters, in a world where no repository call fails:
    - if no user has that name, [POST /register/start] answers 200, leaves
      exactly one pending registration for the name (earlier ones for it
      are gone, those for other names stay), valid for 15 minutes, and
      returns the token in the body in dev mode only;
    - if a user has that name, it answers 400 "Username already taken" and
      changes nothing. *)
Theorem start_registration_leaves_one_record (P : Platform)
  (request : Request) (name : string) (d : Store) (n : nat) (t : Z)
  (smtp dev : bool) :
  field request "username" = Some name ->
  valid_username name ->
  (user_named name d = None ->
   (exists resp,
      fst (serve P POST_register_start request (healthy d n t smtp dev))
      = Ret resp
      /\ status resp = 200
      /\ body_field resp "verify_token"
         = (if dev then Some (JStr (random_token P n)) else None))
   /\ registrations_for name
        (db (snd (serve P POST_register_start request (healthy d n t smtp dev))))
      = [mkPendingRegistration (next_id d) name
           (hash_token P (random_token P n)) t (t + 15 * 60)]
   /\ (forall other, other <> name ->
       registrations_for other
         (db (snd (serve P POST_register_start request (healthy d n t smtp dev))))
       = registrations_for other d))
  /\ (forall u, user_named name d = Some u ->
      serve P POST_register_start request (healthy d n t smtp dev)
      = (Ret username_taken, healthy d n t smtp dev)).
Proof.
  intros Hname Hvalid. unfold serve, handler.
  change (set_g fresh_g (healthy d n t smtp dev)) with (healthy d n t smtp dev).
  rewrite (start_registration_run P request name d n t smtp dev Hname Hvalid).
  split.
  - intros Hu. rewrite Hu. cbn [fst snd db healthy]. split; [|split].
    + eexists. split; [reflexivity|]. split; [reflexivity|].
      now destruct dev.
    + unfold registrations_for.
      cbn [pending_registrations bump_id set_pending_registrations].
      apply filter_app_one.
      * cbn [reg_username]. apply String.eqb_refl.
      * intros r Hr. apply filter_In in Hr. destruct Hr as [_ Hr].
        now apply negb_true_iff in Hr.
    + intros other Hother. unfold registrations_for.
      cbn [pending_registrations bump_id set_pending_registrations].
      rewrite filter_app. cbn [filter reg_username].
      rewrite (proj2 (String.eqb_neq name other)) by congruence.
      rewrite app_nil_r. rewrite filter_swap.
      apply filter_all. intros r Hr. apply filter_In in Hr.
      destruct Hr as [_ Hr]. apply String.eqb_eq in Hr.
      apply negb_true_iff, String.eqb_neq. congruence.
  - intros u Hu. now rewrite Hu.
Qed.

Lemma start_registration_leaves_one_record_witness :
  valid_username "alice1"
  /\ serve demo_platform POST_register_start demo_magic_request
       (healthy demo_store 0 1000 true false)
     = (Ret username_taken, healthy demo_store 0 1000 true false).
Proof.
  assert (Hv : valid_username "alice1").
  { split; [simpl; lia | reflexivity]. }
  split; [exact Hv |].
  exact (proj2 (start_registration_leaves_one_record demo_platform
                  demo_magic_request "alice1" demo_store 0 1000 true false
                  eq_refl Hv) demo_alice_mail eq_refl).
Defined.

(** X8. Outside dev mode the verification token never leaves through the
    response: whatever the body and whatever fails, a response of
    [POST /register/start] has no [verify_token] field. *)
Theorem production_keeps_the_token (P : Platform) (request : Request)
  (w w' : World) (resp : Response) :
  dev_mode w = false ->
  start_registration P request w = (Ret resp, w') ->
  body_field resp "verify_token" = None.
Proof.
  intros Hdev. unfold start_registration. cbv zeta.
  destruct (truthy (get_json request)); cbn [negb];
    [|now intros [= <- <-]].
  rewrite bind_unfold, get_stripped_pure.
  destruct (stripped_value (get_json request) "username" "") as [name|e];
    [|discriminate].
  destruct (String.length name <? 5)%nat; [now intros [= <- <-]|].
  destruct (16 <? String.length name)%nat; [now intros [= <- <-]|].
  destruct (negb (all_chars printable name)); [now intros [= <- <-]|].
  unfold username_exists, delete_for_username, PendingRegistration_create,
    bind, query, update, repo, draw, now, ret.
  repeat (cbv beta; wsimpl; rewrite ?Hdev; crack_step);
    cbv beta; wsimpl; rewrite ?Hdev;
    first [discriminate | now intros [= <- <-]].
Qed.

Lemma production_keeps_the_token_witness :
  body_field
    (jsonify (JObj [("success", JBool true);
                    ("message", JStr "Registration started. Please check your email/SMS for verification.");
                    ("expires_in_minutes", JInt 15)]))
    "verify_token" = None.
Proof.
  refine (production_keeps_the_token demo_platform
            (demo_body [("username", JStr "bobby")])
            (healthy demo_store 0 1000 true false) _ _ eq_refl _).
  vm_compute. reflexivity.
Defined.

Lemma opt_truthy_or_none s : opt_truthy (or_none s) = str_truthy s.
Proof. unfold or_none. now destruct s. Qed.

Lemma stripped_value_field_or request key dflt v :
  field_or request key dflt = Some v ->
  stripped_value (get_json request) key dflt = Ret v.
Proof.
  unfold field_or, stripped_value.
  destruct (get_json request) as [| | | | |l]; try discriminate.
  destruct (assoc key l) as [[| | |raw| |]|]; try discriminate;
    now intros [= <-].
Qed.

Lemma verify_registration_run P request token a e p reg d n t smtp dev :
  field request "token" = Some token ->
  str_truthy token = true ->
  field_or request "auth_type" "totp" = Some a ->
  lower a = "totp" ->
  field_or request "recovery_email" "" = Some e ->
  field_or request "recovery_phone" "" = Some p ->
  registration_of_token P token d = Some reg ->
  t <= reg_expires_at reg ->
  exists resp,
    verify_registration P request (healthy d n t smtp dev)
    = (Ret resp,
       healthy (registered_store P reg e p n d) (S n + NUM_BACKUP_CODES) t
               smtp dev)
    /\ status resp = 200
    /\ body_field resp "username" = Some (JStr (reg_username reg))
    /\ body_field resp "user_id" = Some (JInt (next_id d))
    /\ body_field resp "totp_secret"
       = Some (JStr (secret_to_base32 P (random_secret P n)))
    /\ body_field resp "backup_codes"
       = Some (JArr (map JStr (fresh_codes P (S n))))
    /\ body_field resp "recovery_enabled"
       = Some (JBool (str_truthy e || str_truthy p)).
Proof.
  intros Htok Htruthy Ha Hlow He Hp Hreg Hexp.
  unfold verify_registration. cbv zeta.
  rewrite (field_truthy _ _ _ Htok). cbn [negb].
  rewrite bind_unfold, get_stripped_pure, (stripped_value_field _ _ _ "" Htok).
  rewrite bind_unfold, get_stripped_pure, (stripped_value_field_or _ _ _ _ Ha).
  destruct (dict_get_field request "token" token "include_qr" (JBool false)
              (healthy d n t smtp dev) Htok) as [qr Hqr].
  rewrite bind_unfold, Hqr.
  rewrite bind_unfold, get_stripped_pure, (stripped_value_field_or _ _ _ _ He).
  rewrite bind_unfold, get_stripped_pure, (stripped_value_field_or _ _ _ _ Hp).
  rewrite Htruthy, Hlow. cbn [negb].
  change (str_in "totp" ["totp"]) with true. cbn [negb].
  rewrite bind_unfold. unfold PendingRegistrationRepository_get_by_token.
  rewrite query_ok by reflexivity. wsimpl.
  fold (registration_of_token P token d). rewrite Hreg.
  rewrite bind_unfold. unfold reg_is_expired.
  rewrite bind_unfold. unfold now at 1, ret at 1. wsimpl.
  rewrite (proj2 (Z.ltb_ge _ _) Hexp).
  rewrite bind_unfold. unfold setup_totp.
  rewrite bind_unfold. unfold draw at 1, ret at 1. wsimpl.
  rewrite bind_unfold. unfold User_save. rewrite repo_ok by reflexivity. wsimpl.
  unfold save_user, new_user. cbn [user_id]. cbn [Z.eqb UNSAVED].
  cbn [fst snd].
  rewrite bind_unfold. unfold create_codes_for_user.
  rewrite bind_unfold. unfold generate_backup_codes at 1. wsimpl.
  rewrite repo_ok by reflexivity. wsimpl.
  rewrite bind_unfold. unfold reg_consume.
  rewrite update_ok by reflexivity. wsimpl.
  unfold recomputed, with_id, with_recovery.
  cbn [user_id username auth_type auth_credential can_download is_admin
       recovery_email recovery_phone recovery_enabled last_login].
  rewrite !opt_truthy_or_none.
  unfold registered_store, registered_user, fresh_codes. cbv zeta.
  eexists. split; [unfold ret; reflexivity|].
  split; [reflexivity|].
  unfold body_field, jsonify, jsonify_status. cbn [body].
  destruct (truthy qr); repeat split.
Qed.

(** X9. A [POST /register/verify] with a readable body, a token that
    resolves to an unexpired pending registration and TOTP as method, in a
    world where no repository call fails, answers 200 and
    - appends one user: the registration's username, TOTP with the fresh
      secret, the given recovery contacts, [recovery_enabled] exactly when
      one of them is non-empty;
    - gives that user eight unused backup codes, whether or not recovery
      contacts were given, and lists them in the body;
    - deletes the pending registration and creates no session. *)
Theorem verify_registration_creates_the_account (P : Platform)
  (request : Request) (token a e p : string) (reg : PendingRegistration)
  (d : Store) (n : nat) (t : Z) (smtp dev : bool) :
  field request "token" = Some token ->
  str_truthy token = true ->
  field_or request "auth_type" "totp" = Some a ->
  lower a = "totp" ->
  field_or request "recovery_email" "" = Some e ->
  field_or request "recovery_phone" "" = Some p ->
  registration_of_token P token d = Some reg ->
  t <= reg_expires_at reg ->
  (exists resp,
     serve P POST_register_verify request (healthy d n t smtp dev)
     = (Ret resp,
        healthy (registered_store P reg e p n d) (S n + NUM_BACKUP_CODES) t
                smtp dev)
     /\ status resp = 200
     /\ body_field resp "username" = Some (JStr (reg_username reg))
     /\ body_field resp "user_id" = Some (JInt (next_id d))
     /\ body_field resp "backup_codes"
        = Some (JArr (map JStr (fresh_codes P (S n))))
     /\ body_field resp "recovery_enabled"
        = Some (JBool (str_truthy e || str_truthy p)))
  /\ users (registered_store P reg e p n d)
     = (users d ++ [registered_user P reg e p n d])%list
  /\ remaining_count (next_id d) (registered_store P reg e p n d) = 8
  /\ pending_registrations (registered_store P reg e p n d)
     = delete_registration (reg_id reg) (pending_registrations d)
  /\ sessions (registered_store P reg e p n d) = sessions d.
Proof.
  intros Htok Htruthy Ha Hlow He Hp Hreg Hexp.
  split; [|split; [|split; [|split]]].
  - unfold serve, handler.
    change (set_g fresh_g (healthy d n t smtp dev)) with (healthy d n t smtp dev).
    destruct (verify_registration_run P request token a e p reg d n t smtp dev
                Htok Htruthy Ha Hlow He Hp Hreg Hexp)
      as (resp & Hrun & Hs & Hname & Hid & _ & Hcodes & Hen).
    exists resp. repeat split; assumption.
  - reflexivity.
  - unfold registered_store. cbv zeta.
    unfold remaining_count at 1. cbn [backup_codes set_pending_registrations].
    fold (remaining_count (next_id d)
            (snd (replace_codes P (next_id d) (fresh_codes P (S n))
                    (bump_id 1
                       (set_users (users d ++ [registered_user P reg e p n d]) d))))).
    rewrite replace_codes_remaining. unfold fresh_codes.
    now rewrite length_map, length_seq.
  - reflexivity.
  - reflexivity.
Qed.

Lemma verify_registration_creates_the_account_witness :
  registration_of_token demo_platform "TOKEN" (db demo_registration_world)
  = Some (mkPendingRegistration 1 "alice1" "TOKEN" 1000 1900)
  /\ users (registered_store demo_platform
              (mkPendingRegistration 1 "alice1" "TOKEN" 1000 1900) "" "" 1
              (db demo_registration_world))
     = [demo_alice]
  /\ remaining_count 2
       (registered_store demo_platform
          (mkPendingRegistration 1 "alice1" "TOKEN" 1000 1900) "" "" 1
          (db demo_registration_world))
     = 8.
Proof.
  assert (Hexp : 1200 <= reg_expires_at
                           (mkPendingRegistration 1 "alice1" "TOKEN" 1000 1900))
    by (simpl; lia).
  pose proof (verify_registration_creates_the_account demo_platform
                demo_verify_request "TOKEN" "totp" "" ""
                (mkPendingRegistration 1 "alice1" "TOKEN" 1000 1900)
                (db demo_registration_world) 1 1200 true true
                eq_refl eq_refl eq_refl eq_refl eq_refl eq_refl eq_refl Hexp)
    as (_ & Husers & Hrem & _).
  split; [reflexivity | split; [exact Husers | exact Hrem]].
Defined.

(** X10. [POST /register/verify] checks the token and the method before it
    touches the store: when the body can be read and the token is empty, or
    the method (stripped, in lower case) is not "totp", it answers 400
    without a single repository call, whatever the store and the pending
    failures; the missing token is reported first. *)
Theorem verify_registration_validates_first (P : Platform) (request : Request)
  (token a e p : string) (w : World) :
  field_or request "token" "" = Some token ->
  field_or request "auth_type" "totp" = Some a ->
  field_or request "recovery_email" "" = Some e ->
  field_or request "recovery_phone" "" = Some p ->
  truthy (get_json request) = true ->
  str_truthy token = false \/ lower a <> "totp" ->
  verify_registration P request w
  = (Ret (if str_truthy token then unsupported_auth_type else token_required),
     w).
Proof.
  intros Htok Ha He Hp Hbody Hbad.
  unfold verify_registration. cbv zeta. rewrite Hbody. cbn [negb].
  rewrite bind_unfold, get_stripped_pure, (stripped_value_field_or _ _ _ _ Htok).
  rewrite bind_unfold, get_stripped_pure, (stripped_value_field_or _ _ _ _ Ha).
  assert (Hqr : exists qr, dict_get (get_json request) "include_qr" (JBool false) w
                           = (Ret qr, w)).
  { unfold field_or in Htok. unfold dict_get.
    destruct (get_json request); try discriminate. eexists. reflexivity. }
  destruct Hqr as [qr Hqr]. rewrite bind_unfold, Hqr.
  rewrite bind_unfold, get_stripped_pure, (stripped_value_field_or _ _ _ _ He).
  rewrite bind_unfold, get_stripped_pure, (stripped_value_field_or _ _ _ _ Hp).
  destruct (str_truthy token); cbn [negb]; [|reflexivity].
  destruct Hbad as [Hbad | Hbad]; [discriminate|].
  unfold str_in. cbn [existsb].
  rewrite (proj2 (String.eqb_neq _ _) Hbad). reflexivity.
Qed.

Lemma verify_registration_validates_first_witness :
  verify_registration demo_platform
    (demo_body [("token", JStr "TOKEN"); ("auth_type", JStr " WebAuthn ")])
    (failing_at 0 (db demo_registration_world) 1 1200)
  = (Ret unsupported_auth_type,
     failing_at 0 (db demo_registration_world) 1 1200).
Proof.
  assert (Hbad : str_truthy "TOKEN" = false \/ lower "WebAuthn" <> "totp")
    by (right; discriminate).
  exact (verify_registration_validates_first demo_platform
           (demo_body [("token", JStr "TOKEN"); ("auth_type", JStr " WebAuthn ")])
           "TOKEN" "WebAuthn" "" "" (failing_at 0 (db demo_registration_world) 1 1200)
           eq_refl eq_refl eq_refl eq_refl eq_refl Hbad).
Defined.

(* ===================================================================== *)
(** * Further properties: login, logout and the session cookie *)
(* ===================================================================== *)

(** Like [crack_step], keeping the equation of each lookup. *)
Ltac crack_keep :=
  cbv beta; wsimpl;
  match goal with
  | |- context [match ?fs with [] => _ | _ :: _ => _ end] =>
      destruct fs as [|[|] ?]
  | |- context [match find ?f ?l with Some _ => _ | None => _ end] =>
      let E := fresh "Hfind" in destruct (find f l) eqn:E
  | |- context [if ?b then _ else _] => destruct b
  end.

(** X11. How a run of [POST /login] can end, for every request whose body
    [get_json] returns and whatever repository call fails. An answer is
    either a 200 that sets the session cookie without a max-age, or a 400
    or 401 that sets no cookie and leaves the store as it was: a rejected
    login creates no session and stamps no [last_login]. When the handler
    raises instead of answering, the store is as it was, except in one
    case: the session was created and stamping [last_login] failed; then
    the user's sessions have been replaced by a new session whose cookie
    was never sent, and nothing else has changed. *)
Theorem login_rejection_changes_nothing (P : Platform) (request : Request)
  (w w' : World) (o : Outcome Response) :
  login P request w = (o, w') ->
  match o with
  | Ret resp =>
      (status resp = 200
       /\ exists token, cookie_action resp = SetCookie token None)
      \/ ((status resp = 400 \/ status resp = 401)
          /\ cookie_action resp = KeepCookie /\ db w' = db w)
  | Raise e =>
      db w' = db w
      \/ (e = StoreError
          /\ exists name u,
               stripped_value (get_json request) "username" "" = Ret name
               /\ user_named name (db w) = Some u
               /\ db w' = snd (create_session P (user_id u)
                                 (user_header request) (remote_addr request)
                                 (random_token P (rng w)) (clock w) (db w)))
  end.
Proof.
  unfold login. cbv zeta.
  destruct (truthy (get_json request)); cbn [negb];
    [|intros [= <- <-]; right; auto].
  rewrite bind_unfold, get_stripped_pure.
  destruct (stripped_value (get_json request) "username" "") as [name|e] eqn:Hn;
    [|intros [= <- <-]; left; reflexivity].
  rewrite bind_unfold, get_stripped_pure.
  destruct (stripped_value (get_json request) "code" "") as [code|e];
    [|intros [= <- <-]; left; reflexivity].
  destruct (negb (str_truthy name) || negb (str_truthy code));
    [intros [= <- <-]; right; auto|].
  unfold get_by_username, Session_create_for_user, User_update_last_login,
    create_session, bind, query, repo, draw, now, ret, user_named.
  repeat first
    [ crack_keep
    | match goal with
      | |- context [match auth_type ?u with TOTP => _ | WEBAUTHN => _ end] =>
          destruct (auth_type u)
      end ];
    cbv beta; wsimpl;
    intros [= <- <-]; cbv beta iota;
    first [ right; cbn; solve [auto]
          | left; cbn; split; [reflexivity | eexists; reflexivity]
          | left; reflexivity
          | right; split; [reflexivity |];
            eexists; eexists; split; [reflexivity |];
            split; [eassumption | reflexivity] ].
Qed.

Lemma login_rejection_changes_nothing_witness :
  fst (login demo_platform demo_login_request (failing_at 2 demo_store 0 1000))
  = Raise StoreError
  /\ users (db (snd (login demo_platform demo_login_request
                       (failing_at 2 demo_store 0 1000))))
     = users demo_store
  /\ List.length
       (sessions (db (snd (login demo_platform demo_login_request
                             (failing_at 2 demo_store 0 1000)))))
     = 1%nat.
Proof.
  destruct (login_rejection_changes_nothing demo_platform demo_login_request
              (failing_at 2 demo_store 0 1000)
              (snd (login demo_platform demo_login_request
                      (failing_at 2 demo_store 0 1000)))
              (Raise StoreError) eq_refl)
    as [H | (_ & name & u & _ & _ & H)].
  - vm_compute in H. discriminate H.
  - split; [reflexivity |]. rewrite H. split; reflexivity.
Defined.

Lemma find_map_preserving A (p : A -> bool) (f : A -> A) l :
  (forall x, p (f x) = p x) ->
  find p (map f l) = option_map f (find p l).
Proof.
  intros H. induction l as [|x l IH]; [reflexivity|].
  simpl. rewrite H. destruct (p x); [reflexivity | exact IH].
Qed.

Lemma login_run P request name code u d n t smtp dev :
  field request "username" = Some name ->
  str_truthy name = true ->
  field request "code" = Some code ->
  str_truthy code = true ->
  user_named name d = Some u ->
  auth_type u = TOTP ->
  verify_totp P (auth_credential u) code t = true ->
  login P request (healthy d n t smtp dev)
  = (Ret (set_session_cookie (jsonify (login_body u)) (random_token P n)),
     healthy (logged_in_store P (user_id u) (user_header request)
                (remote_addr request) n t d)
             (S n) t smtp dev).
Proof.
  intros Hname Hnt Hcode Hct Hu Hty Hok.
  unfold login. cbv zeta.
  rewrite (field_truthy _ _ _ Hname). cbn [negb].
  rewrite bind_unfold, get_stripped_pure, (stripped_value_field _ _ _ "" Hname).
  rewrite bind_unfold, get_stripped_pure, (stripped_value_field _ _ _ "" Hcode).
  rewrite Hnt, Hct. cbn [negb orb].
  rewrite bind_unfold. unfold get_by_username. rewrite query_ok by reflexivity.
  wsimpl. fold (user_named name d). rewrite Hu.
  rewrite bind_unfold. unfold now at 1. wsimpl.
  rewrite Hty, Hok. cbn [negb].
  rewrite bind_unfold. unfold Session_create_for_user.
  rewrite bind_unfold. unfold draw at 1. wsimpl.
  rewrite bind_unfold. unfold now at 1. wsimpl.
  rewrite repo_ok by reflexivity. wsimpl.
  unfold create_session. cbn [fst snd].
  rewrite bind_unfold. unfold User_update_last_login.
  rewrite bind_unfold. unfold now at 1. wsimpl.
  rewrite repo_ok by reflexivity. wsimpl.
  reflexivity.
Qed.

Lemma find_app_last A (p : A -> bool) l x :
  (forall y, In y l -> p y = false) -> p x = true ->
  find p (l ++ [x]) = Some x.
Proof.
  intros Hl Hx. induction l as [|y l IH]; simpl.
  - now rewrite Hx.
  - rewrite (Hl y (or_introl eq_refl)). apply IH.
    intros z Hz. apply Hl. now right.
Qed.

Lemma find_app_none A (p : A -> bool) l x :
  (forall y, In y l -> p y = false) -> p x = false ->
  find p (l ++ [x]) = None.
Proof.
  intros Hl Hx. apply find_all_false. intros y Hy.
  apply in_app_or in Hy. destruct Hy as [Hy | [<- | []]]; auto.
Qed.

Lemma unused_token_after_delete P raw uid d s :
  unused_token P raw d ->
  In s (delete_user_sessions uid (sessions d)) ->
  String.eqb (session_token_hash s) (hash_token P raw) = false.
Proof.
  intros Hun Hs. unfold delete_user_sessions in Hs. apply filter_In in Hs.
  apply String.eqb_neq, Hun. tauto.
Qed.

Lemma logged_in_session P uid ua ip n t d :
  unused_token P (random_token P n) d ->
  session_of_token P (random_token P n) (logged_in_store P uid ua ip n t d)
  = Some (login_session P uid ua ip n t d).
Proof.
  intros Hun. unfold session_of_token, logged_in_store.
  cbn [sessions set_users bump_id set_sessions].
  apply find_app_last.
  - intros s Hs. now apply (unused_token_after_delete P _ uid d).
  - cbn [login_session session_token_hash]. apply String.eqb_refl.
Qed.

Lemma stamp_login_id uid t r : user_id (stamp_login uid t r) = user_id r.
Proof. unfold stamp_login. now destruct (user_id r =? uid). Qed.

Lemma stamp_login_username uid t r : username (stamp_login uid t r) = username r.
Proof. unfold stamp_login. now destruct (user_id r =? uid). Qed.

Lemma logged_in_user_by_id P u ua ip n t d :
  resolves u d ->
  user_of (login_session P (user_id u) ua ip n t d)
          (logged_in_store P (user_id u) ua ip n t d)
  = Some (with_last_login t u).
Proof.
  intros Hres. unfold user_of, logged_in_store.
  cbn [users set_users login_session session_user_id].
  rewrite find_map_preserving by (intros x; now rewrite stamp_login_id).
  unfold resolves in Hres. rewrite Hres. cbn [option_map].
  unfold stamp_login. now rewrite Z.eqb_refl.
Qed.

Lemma logged_in_user_by_name P name u ua ip n t d :
  user_named name d = Some u ->
  user_named name (logged_in_store P (user_id u) ua ip n t d)
  = Some (with_last_login t u).
Proof.
  intros Hu. unfold user_named, logged_in_store. cbn [users set_users].
  rewrite find_map_preserving by (intros x; now rewrite stamp_login_username).
  unfold user_named in Hu. rewrite Hu. cbn [option_map].
  unfold stamp_login. now rewrite Z.eqb_refl.
Qed.

Lemma check_auth_run_fresh P request token s u w :
  g_current_user (g w) = None ->
  faults w = [] ->
  session_cookie request = Some token ->
  str_truthy token = true ->
  session_of_token P token (db w) = Some s ->
  clock w - session_last_seen s <= 30 * 60 ->
  user_of s (db w) = Some u ->
  check_auth P request w = (Ret (authenticated_as u), after_lookup u s w).
Proof.
  intros Hg Hf Hcookie Htruthy Hs Hfresh Hu. unfold check_auth.
  rewrite bind_unfold.
  rewrite (get_current_user_run_fresh P request token s u w
             Hg Hf Hcookie Htruthy Hs Hfresh Hu).
  reflexivity.
Qed.

Lemma check_auth_run_unknown P request token w :
  g_current_user (g w) = None ->
  faults w = [] ->
  session_cookie request = Some token ->
  str_truthy token = true ->
  session_of_token P token (db w) = None ->
  check_auth P request w = (Ret not_authenticated, set_g anonymous_g w).
Proof.
  intros Hg Hf Hcookie Htruthy Hs. unfold check_auth.
  rewrite bind_unfold.
  rewrite (get_current_user_run_unknown P request token w
             Hg Hf Hcookie Htruthy Hs).
  reflexivity.
Qed.

(** X12. Login and check compose. When a TOTP user logs in with a code
    that verifies, in a world where no repository call fails, the answer is
    200, reports the user's id, name and flags, and sets the session cookie
    to the fresh token without a max-age. A [GET /check] that presents this
    cookie within 30 minutes answers that the user is authenticated, with
    the user's name and administrator flag. The fresh token's hash is not
    the hash of an older session, and the user's id resolves to the user. *)
Theorem login_then_check (P : Platform) (request probe : Request)
  (name code : string) (u : User) (d : Store) (n : nat) (t t' : Z)
  (smtp dev : bool) :
  field request "username" = Some name ->
  str_truthy name = true ->
  field request "code" = Some code ->
  str_truthy code = true ->
  user_named name d = Some u ->
  resolves u d ->
  auth_type u = TOTP ->
  verify_totp P (auth_credential u) code t = true ->
  unused_token P (random_token P n) d ->
  session_cookie probe = Some (random_token P n) ->
  str_truthy (random_token P n) = true ->
  t' - t <= 30 * 60 ->
  fst (serve P POST_login request (healthy d n t smtp dev))
  = Ret (mkResponse 200 (login_body u) (SetCookie (random_token P n) None))
  /\ sessions_of (user_id u)
       (db (snd (serve P POST_login request (healthy d n t smtp dev))))
     = [login_session P (user_id u) (user_header request)
          (remote_addr request) n t d]
  /\ fst (serve P GET_check probe
            (at_time t' (snd (serve P POST_login request
                                (healthy d n t smtp dev)))))
     = Ret (authenticated_as u).
Proof.
  intros Hname Hnt Hcode Hct Hu Hres Hty Hok Hun Hcookie Htok Hage.
  assert (Hlogin : serve P POST_login request (healthy d n t smtp dev)
                   = (Ret (set_session_cookie (jsonify (login_body u))
                             (random_token P n)),
                      healthy (logged_in_store P (user_id u) (user_header request)
                                 (remote_addr request) n t d)
                              (S n) t smtp dev)).
  { unfold serve, handler.
    change (set_g fresh_g (healthy d n t smtp dev)) with (healthy d n t smtp dev).
    now apply (login_run P request name code u). }
  rewrite Hlogin. cbn [fst snd]. split; [reflexivity | split].
  - unfold sessions_of, logged_in_store. wsimpl.
    cbn [sessions set_users bump_id set_sessions].
    apply filter_app_one.
    + cbn [login_session session_user_id]. apply Z.eqb_refl.
    + intros s Hs. unfold delete_user_sessions in Hs. apply filter_In in Hs.
      destruct Hs as [_ Hs]. now apply negb_true_iff in Hs.
  - unfold serve, handler.
    rewrite (check_auth_run_fresh P probe (random_token P n)
               (login_session P (user_id u) (user_header request)
                  (remote_addr request) n t d)
               (with_last_login t u)); try reflexivity; try assumption.
    all: unfold at_time; wsimpl;
      first [ now apply logged_in_session
            | now apply logged_in_user_by_id
            | cbn [login_session session_last_seen]; lia ].
Qed.

Lemma login_then_check_witness :
  verify_totp demo_platform (auth_credential demo_alice_mail) "SECRETI" 1000
  = true
  /\ fst (serve demo_platform GET_check (demo_probe "TOKEN")
            (at_time 2000
               (snd (serve demo_platform POST_login demo_login_request
                       (healthy demo_store 0 1000 true false)))))
     = Ret (authenticated_as demo_alice_mail).
Proof.
  assert (Hun : unused_token demo_platform (random_token demo_platform 0)
                             demo_store).
  { intros s []. }
  assert (Hage : 2000 - 1000 <= 30 * 60) by lia.
  split; [reflexivity |].
  exact (proj2 (proj2 (login_then_check demo_platform demo_login_request
                         (demo_probe "TOKEN") "alice1" "SECRETI"
                         demo_alice_mail demo_store 0 1000 2000 true false
                         eq_refl eq_refl eq_refl eq_refl eq_refl eq_refl
                         eq_refl eq_refl Hun eq_refl eq_refl Hage))).
Defined.

Lemma logged_in_twice_first_token P uid ua ip ua' ip' n t t2 d :
  unused_token P (random_token P n) d ->
  hash_token P (random_token P (S n)) <> hash_token P (random_token P n) ->
  session_of_token P (random_token P n)
    (logged_in_store P uid ua' ip' (S n) t2
       (logged_in_store P uid ua ip n t d))
  = None.
Proof.
  intros Hun Hne. unfold session_of_token.
  unfold logged_in_store at 1. cbn [sessions set_users bump_id set_sessions].
  apply find_app_none.
  - intros s Hs. unfold delete_user_sessions in Hs. apply filter_In in Hs.
    destruct Hs as [Hs Huid].
    unfold logged_in_store in Hs. cbn [sessions set_users bump_id set_sessions] in Hs.
    apply in_app_or in Hs. destruct Hs as [Hs | [<- | []]].
    + now apply (unused_token_after_delete P _ uid d).
    + cbn [login_session session_user_id] in Huid.
      rewrite Z.eqb_refl in Huid. discriminate.
  - cbn [login_session session_token_hash]. now apply String.eqb_neq.
Qed.

(** X13. One session per user, as clients see it. When a user logs in
    from one client and then again from another, a [GET /check] that
    presents the first client's cookie answers that nobody is
    authenticated: the second login has deleted the first session. The two
    tokens hash differently and the first token's hash is not the hash of
    an older session. *)
Theorem second_login_evicts_the_first (P : Platform) (request probe : Request)
  (name code : string) (u : User) (d : Store) (n : nat) (t t2 t3 : Z)
  (smtp dev : bool) :
  field request "username" = Some name ->
  str_truthy name = true ->
  field request "code" = Some code ->
  str_truthy code = true ->
  user_named name d = Some u ->
  auth_type u = TOTP ->
  verify_totp P (auth_credential u) code t = true ->
  verify_totp P (auth_credential u) code t2 = true ->
  unused_token P (random_token P n) d ->
  hash_token P (random_token P (S n)) <> hash_token P (random_token P n) ->
  session_cookie probe = Some (random_token P n) ->
  str_truthy (random_token P n) = true ->
  fst (serve P POST_login request
         (at_time t2 (snd (serve P POST_login request (healthy d n t smtp dev)))))
  = Ret (mkResponse 200 (login_body u) (SetCookie (random_token P (S n)) None))
  /\ fst (serve P GET_check probe
            (at_time t3
               (snd (serve P POST_login request
                       (at_time t2
                          (snd (serve P POST_login request
                                  (healthy d n t smtp dev))))))))
     = Ret not_authenticated.
Proof.
  intros Hname Hnt Hcode Hct Hu Hty Hok Hok2 Hun Hne Hcookie Htok.
  assert (Hlogin : serve P POST_login request (healthy d n t smtp dev)
                   = (Ret (set_session_cookie (jsonify (login_body u))
                             (random_token P n)),
                      healthy (logged_in_store P (user_id u) (user_header request)
                                 (remote_addr request) n t d)
                              (S n) t smtp dev)).
  { unfold serve, handler.
    change (set_g fresh_g (healthy d n t smtp dev)) with (healthy d n t smtp dev).
    now apply (login_run P request name code u). }
  rewrite Hlogin. cbn [snd].
  assert (Hlogin2 :
    serve P POST_login request
      (at_time t2
         (healthy (logged_in_store P (user_id u) (user_header request)
                     (remote_addr request) n t d) (S n) t smtp dev))
    = (Ret (set_session_cookie (jsonify (login_body (with_last_login t u)))
              (random_token P (S n))),
       healthy (logged_in_store P (user_id u) (user_header request)
                  (remote_addr request) (S n) t2
                  (logged_in_store P (user_id u) (user_header request)
                     (remote_addr request) n t d))
               (S (S n)) t2 smtp dev)).
  { unfold serve, handler.
    apply (login_run P request name code (with_last_login t u)
             (logged_in_store P (user_id u) (user_header request)
                (remote_addr request) n t d) (S n) t2 smtp dev);
      try assumption.
    now apply logged_in_user_by_name. }
  rewrite Hlogin2. cbn [fst snd]. split; [reflexivity|].
  unfold serve, handler.
  rewrite (check_auth_run_unknown P probe (random_token P n));
    try reflexivity; try assumption.
  unfold at_time. wsimpl. now apply logged_in_twice_first_token.
Qed.

Lemma second_login_evicts_the_first_witness :
  hash_token demo_platform (random_token demo_platform 1)
  <> hash_token demo_platform (random_token demo_platform 0)
  /\ fst (serve demo_platform GET_check (demo_probe "TOKEN")
            (at_time 1600
               (snd (serve demo_platform POST_login demo_login_request
                       (at_time 1500
                          (snd (serve demo_platform POST_login demo_login_request
                                  (healthy demo_store 0 1000 true false))))))))
     = Ret not_authenticated.
Proof.
  assert (Hun : unused_token demo_platform (random_token demo_platform 0)
                             demo_store).
  { intros s []. }
  assert (Hne : hash_token demo_platform (random_token demo_platform 1)
                <> hash_token demo_platform (random_token demo_platform 0))
    by discriminate.
  split; [exact Hne |].
  exact (proj2 (second_login_evicts_the_first demo_platform demo_login_request
                  (demo_probe "TOKEN") "alice1" "SECRETI" demo_alice_mail
                  demo_store 0 1000 1500 1600 true false
                  eq_refl eq_refl eq_refl eq_refl eq_refl eq_refl eq_refl
                  eq_refl Hun Hne eq_refl eq_refl)).
Defined.

Lemma touched_id t s : session_id (touched t s) = session_id s.
Proof. unfold touched. now destruct (_ <=? _). Qed.

Lemma logout_run P request token s u w :
  g_current_user (g w) = None ->
  g_current_session (g w) = None ->
  faults w = [] ->
  session_cookie request = Some token ->
  str_truthy token = true ->
  session_of_token P token (db w) = Some s ->
  clock w - session_last_seen s <= 30 * 60 ->
  user_of s (db w) = Some u ->
  logout P request w
  = (Ret logged_out,
     set_db (logged_out_store s (clock w) (db w)) (after_lookup u s w)).
Proof.
  intros Hg Hgs Hf Hcookie Htruthy Hs Hfresh Hu. unfold logout.
  rewrite bind_unfold. unfold get_current_session.
  rewrite bind_unfold. unfold get_g at 1. rewrite Hgs.
  rewrite bind_unfold.
  rewrite (get_current_user_run_fresh P request token s u w
             Hg Hf Hcookie Htruthy Hs Hfresh Hu).
  fold (after_lookup u s w).
  rewrite bind_unfold. unfold get_g at 1, ret at 1.
  cbn [g after_lookup set_g authenticated_g g_current_session].
  rewrite bind_unfold. unfold Session_invalidate.
  rewrite update_ok by (unfold after_lookup; wsimpl; exact Hf).
  rewrite touched_id. unfold logged_out_store, after_lookup. wsimpl.
  reflexivity.
Qed.

Lemma touch_store_session s t d s' :
  In s' (sessions (touch_store s t d)) ->
  exists r, In r (sessions d) /\ session_id s' = session_id r /\
            session_token_hash s' = session_token_hash r.
Proof.
  unfold touch_store. destruct (_ <=? _).
  - cbn [sessions set_sessions]. intros Hin. apply in_map_iff in Hin.
    destruct Hin as (r & <- & Hr). exists r. split; [exact Hr|].
    unfold touch_row. destruct (session_id r =? session_id s); split; reflexivity.
  - intros Hin. exists s'. auto.
Qed.

Lemma logged_out_token P token s t d :
  session_of_token P token d = Some s ->
  own_token s d ->
  session_of_token P token (logged_out_store s t d) = None.
Proof.
  intros Hs Hown. apply find_some in Hs. destruct Hs as [_ Hhash].
  apply String.eqb_eq in Hhash.
  unfold session_of_token, logged_out_store. cbn [sessions set_sessions].
  apply find_all_false. intros s' Hs'. unfold delete_session in Hs'.
  apply filter_In in Hs'. destruct Hs' as [Hs' Hid].
  apply negb_true_iff, Z.eqb_neq in Hid.
  apply touch_store_session in Hs'. destruct Hs' as (r & Hr & Hrid & Hrh).
  apply String.eqb_neq. intros E. apply Hid. rewrite Hrid.
  apply Hown; [exact Hr | congruence].
Qed.

(** X14. Logout ends the session. For a request whose cookie resolves to a
    fresh session of an existing user, in a world where no repository call
    fails, [POST /logout] answers 200, clears the cookie and deletes the
    session: no session of that id is left, and, the token being the
    session's own, a later [GET /check] with the same cookie answers that
    nobody is authenticated. Without a cookie, logout answers the same and
    touches nothing, whatever fails. *)
Theorem logout_ends_the_session (P : Platform) (request : Request)
  (token : string) (s : Session) (u : User) (d : Store) (n : nat) (t t' : Z)
  (smtp dev : bool) :
  session_cookie request = Some token ->
  str_truthy token = true ->
  session_of_token P token d = Some s ->
  t - session_last_seen s <= 30 * 60 ->
  user_of s d = Some u ->
  own_token s d ->
  fst (serve P POST_logout request (healthy d n t smtp dev)) = Ret logged_out
  /\ status logged_out = 200 /\ cookie_action logged_out = DeleteCookie
  /\ (forall s', In s' (sessions (db (snd (serve P POST_logout request
                                             (healthy d n t smtp dev)))))
                 -> session_id s' <> session_id s)
  /\ fst (serve P GET_check request
            (at_time t' (snd (serve P POST_logout request
                                (healthy d n t smtp dev)))))
     = Ret not_authenticated
  /\ (forall anonymous w,
        no_cookie anonymous ->
        serve P POST_logout anonymous w
        = (Ret logged_out, set_g anonymous_g w)).
Proof.
  intros Hcookie Htruthy Hs Hfresh Hu Hown.
  assert (Hrun : serve P POST_logout request (healthy d n t smtp dev)
                 = (Ret logged_out,
                    set_db (logged_out_store s t d)
                      (after_lookup u s (healthy d n t smtp dev)))).
  { unfold serve, handler.
    change (set_g fresh_g (healthy d n t smtp dev)) with (healthy d n t smtp dev).
    now apply (logout_run P request token s u (healthy d n t smtp dev)). }
  rewrite Hrun. cbn [fst snd].
  split; [reflexivity | split; [reflexivity | split; [reflexivity | split; [|split]]]].
  - wsimpl. intros s' Hin. unfold logged_out_store in Hin.
    cbn [sessions set_sessions] in Hin. unfold delete_session in Hin.
    apply filter_In in Hin. destruct Hin as [_ Hid].
    now apply negb_true_iff, Z.eqb_neq in Hid.
  - unfold serve, handler.
    rewrite (check_auth_run_unknown P request token);
      try reflexivity; try assumption.
    unfold at_time, after_lookup. wsimpl. now apply logged_out_token.
  - intros anonymous w Hno. unfold serve, handler, logout.
    rewrite bind_unfold. unfold get_current_session.
    rewrite bind_unfold. unfold get_g at 1.
    cbn [g set_g fresh_g g_current_session].
    rewrite bind_unfold.
    rewrite (get_current_user_no_cookie P anonymous (set_g fresh_g w) eq_refl Hno).
    reflexivity.
Qed.

Lemma logout_ends_the_session_witness :
  own_token demo_session demo_session_store
  /\ fst (serve demo_platform GET_check demo_cookie_request
            (at_time 1300
               (snd (serve demo_platform POST_logout demo_cookie_request
                       (healthy demo_session_store 0 1200 true false)))))
     = Ret not_authenticated.
Proof.
  assert (Hown : own_token demo_session demo_session_store).
  { intros s' [<- | []] _. reflexivity. }
  assert (Hfresh : 1200 - session_last_seen demo_session <= 30 * 60)
    by (simpl; lia).
  split; [exact Hown |].
  exact (proj1 (proj2 (proj2 (proj2 (proj2
           (logout_ends_the_session demo_platform demo_cookie_request
              "TOKENX" demo_session demo_alice_mail demo_session_store
              0 1200 1300 true false
              eq_refl eq_refl eq_refl Hfresh eq_refl Hown)))))).
Defined.

(* ===================================================================== *)
(** * Further properties: magic links *)
(* ===================================================================== *)

(** X15. How a run of [POST /magic-link/verify] can end, for every
    request whose body [get_json] returns and whatever repository call
    fails. An answer is either a 200 that sets the session cookie with a
    max-age of one year, or a 400 that sets no cookie and leaves the store
    as it was; in particular an expired link is refused without being
    consumed or deleted. When the handler raises instead of answering, the
    store is as it was, or the link has already been marked used: a
    repository failure after [mark_used] burns the link without logging
    the user in. The users are as they were in either case. *)
Theorem magic_link_rejection_changes_nothing (P : Platform)
  (request : Request) (w w' : World) (o : Outcome Response) :
  verify_magic_link P request w = (o, w') ->
  match o with
  | Ret resp =>
      (status resp = 200
       /\ exists token,
            cookie_action resp = SetCookie token (Some (60 * 60 * 24 * 365)))
      \/ (status resp = 400 /\ cookie_action resp = KeepCookie
          /\ db w' = db w)
  | Raise e =>
      db w' = db w
      \/ (e = StoreError
          /\ users (db w') = users (db w)
          /\ exists token r,
               stripped_value (get_json request) "token" "" = Ret token
               /\ recovery_of_token P token (db w) = Some r
               /\ pending_recoveries (db w')
                  = map (stamp_used (rec_id r) (clock w))
                        (pending_recoveries (db w)))
  end.
Proof.
  unfold verify_magic_link. cbv zeta.
  destruct (truthy (get_json request)); cbn [negb];
    [|intros [= <- <-]; right; auto].
  rewrite bind_unfold, get_stripped_pure.
  destruct (stripped_value (get_json request) "token" "") as [token|e];
    [|intros [= <- <-]; left; reflexivity].
  destruct (negb (str_truthy token)); [intros [= <- <-]; right; auto|].
  unfold PendingRecoveryRepository_get_by_token, rec_is_expired, rec_is_used,
    get_by_id, rec_mark_used, invalidate_user_sessions,
    Session_create_for_user, create_session, User_save, save_user,
    bind, query, update, repo, draw, now, ret, recovery_of_token.
  repeat crack_keep;
    cbv beta; wsimpl;
    intros [= <- <-]; cbv beta iota;
    first [ right; cbn; solve [auto]
          | left; cbn; split; [reflexivity | eexists; reflexivity]
          | left; reflexivity
          | right; split; [reflexivity |]; split; [reflexivity |];
            eexists; eexists; split; [reflexivity |];
            split; [eassumption | reflexivity] ].
Qed.

Lemma magic_link_rejection_changes_nothing_witness :
  fst (verify_magic_link demo_platform demo_link_request
         (failing_at 4 demo_link_store 0 1200))
  = Raise StoreError
  /\ pending_recoveries
       (db (snd (verify_magic_link demo_platform demo_link_request
                   (failing_at 4 demo_link_store 0 1200))))
     = [mkPendingRecovery 5 2 "LINK" 1900 (Some 1200)].
Proof.
  destruct (magic_link_rejection_changes_nothing demo_platform
              demo_link_request (failing_at 4 demo_link_store 0 1200)
              (snd (verify_magic_link demo_platform demo_link_request
                      (failing_at 4 demo_link_store 0 1200)))
              (Raise StoreError) eq_refl)
    as [H | (_ & _ & token & r & _ & _ & H)].
  - vm_compute in H. discriminate H.
  - split; reflexivity.
Defined.

Lemma save_user_username u d : username (fst (save_user u d)) = username u.
Proof. unfold save_user. destruct (user_id u =? UNSAVED); reflexivity. Qed.

Lemma save_user_recoveries u d :
  pending_recoveries (snd (save_user u d)) = pending_recoveries d.
Proof. unfold save_user. destruct (user_id u =? UNSAVED); reflexivity. Qed.

Lemma verify_magic_link_run P request token r u w :
  faults w = [] ->
  field request "token" = Some token ->
  str_truthy token = true ->
  recovery_of_token P token (db w) = Some r ->
  clock w <= rec_expires_at r ->
  rec_used_at r = None ->
  find (fun v => user_id v =? rec_user_id r) (users (db w)) = Some u ->
  verify_magic_link P request w
  = (Ret (link_redeemed u (random_token P (rng w))),
     set_db (redeemed_store P r u (agent_of request) (address_of request)
               (rng w) (clock w) (db w))
            (set_rng (S (rng w)) w)).
Proof.
  intros Hf Htok Htt Hr Hexp Hused Hu.
  destruct w as [d g0 fs n t smtp dev lg]. cbn in Hf, Hr, Hexp, Hu. subst fs.
  unfold verify_magic_link. cbv zeta.
  rewrite (field_truthy _ _ _ Htok). cbn [negb].
  rewrite bind_unfold, get_stripped_pure, (stripped_value_field _ _ _ "" Htok).
  rewrite Htt. cbn [negb].
  rewrite bind_unfold. unfold PendingRecoveryRepository_get_by_token.
  rewrite query_ok by reflexivity. wsimpl.
  fold (recovery_of_token P token d). rewrite Hr.
  rewrite bind_unfold. unfold rec_is_expired.
  rewrite bind_unfold. unfold now at 1. wsimpl.
  unfold ret at 1.
  replace (rec_expires_at r <? t) with false by (symmetry; apply Z.ltb_ge; lia).
  unfold rec_is_used. rewrite Hused. cbn [is_none negb].
  rewrite bind_unfold. unfold get_by_id. rewrite query_ok by reflexivity.
  wsimpl. rewrite Hu.
  rewrite bind_unfold. unfold rec_mark_used.
  rewrite bind_unfold. unfold now at 1. wsimpl.
  rewrite update_ok by reflexivity. wsimpl.
  rewrite bind_unfold. unfold invalidate_user_sessions.
  rewrite update_ok by reflexivity. wsimpl.
  rewrite bind_unfold. unfold Session_create_for_user.
  rewrite bind_unfold. unfold draw at 1. wsimpl.
  rewrite bind_unfold. unfold now at 1. wsimpl.
  rewrite repo_ok by reflexivity. wsimpl.
  unfold create_session. cbn [fst snd].
  rewrite bind_unfold. unfold now at 1. wsimpl.
  rewrite bind_unfold. unfold User_save.
  rewrite repo_ok by reflexivity. wsimpl.
  unfold ret, link_redeemed, redeemed_store, agent_of, address_of.
  rewrite save_user_username. reflexivity.
Qed.

Lemma stamp_used_hash rid t x :
  rec_token_hash (stamp_used rid t x) = rec_token_hash x.
Proof. unfold stamp_used. destruct (rec_id x =? rid); reflexivity. Qed.

Lemma stamp_used_self t r :
  rec_used_at (stamp_used (rec_id r) t r) = Some t
  /\ rec_id (stamp_used (rec_id r) t r) = rec_id r
  /\ rec_user_id (stamp_used (rec_id r) t r) = rec_user_id r.
Proof. unfold stamp_used. rewrite Z.eqb_refl. repeat split. Qed.

Lemma recovery_after_stamp P token rid t r l :
  find (fun x => String.eqb (rec_token_hash x) (hash_token P token)) l = Some r ->
  find (fun x => String.eqb (rec_token_hash x) (hash_token P token))
       (map (stamp_used rid t) l)
  = Some (stamp_used rid t r).
Proof.
  intros H. rewrite find_map_preserving, H; [reflexivity|].
  intros x. now rewrite stamp_used_hash.
Qed.

Lemma redeemed_recoveries P r u ua ip n t d :
  pending_recoveries (redeemed_store P r u ua ip n t d)
  = map (stamp_used (rec_id r) t) (pending_recoveries d).
Proof. unfold redeemed_store. cbv zeta. now rewrite save_user_recoveries. Qed.

Lemma redeemed_sessions P r u ua ip n t d :
  sessions_of (user_id u) (redeemed_store P r u ua ip n t d)
  = [mkSession (next_id d) (user_id u) (hash_token P (random_token P n))
               (Some ua) (Some ip) t t].
Proof.
  unfold sessions_of, redeemed_store. cbv zeta. rewrite save_user_sessions.
  unfold create_session.
  cbn [snd sessions bump_id set_sessions set_pending_recoveries next_id].
  apply filter_app_one.
  - cbn [session_user_id]. apply Z.eqb_refl.
  - intros s Hs. unfold delete_user_sessions in Hs. apply filter_In in Hs.
    destruct Hs as [_ Hs]. now apply negb_true_iff in Hs.
Qed.

Lemma user_by_id_replaced u' l :
  find (fun v => user_id v =? user_id u') (replace_user u' l)
  = option_map (fun _ => u') (find (fun v => user_id v =? user_id u') l).
Proof.
  unfold replace_user. induction l as [|x l IH]; [reflexivity|].
  cbn [map find]. destruct (user_id x =? user_id u') eqn:E.
  - rewrite Z.eqb_refl. reflexivity.
  - rewrite E. exact IH.
Qed.

Lemma recomputed_id u : user_id (recomputed u) = user_id u.
Proof. reflexivity. Qed.

Lemma redeemed_user P r u ua ip n t d :
  user_id u <> UNSAVED ->
  resolves u d ->
  find (fun v => user_id v =? user_id u)
       (users (redeemed_store P r u ua ip n t d))
  = Some (recomputed (with_last_login t u)).
Proof.
  intros Hid Hres. unfold redeemed_store. cbv zeta.
  rewrite save_user_saved by exact Hid.
  cbn [snd users set_users].
  change (user_id u) with (user_id (recomputed (with_last_login t u))) at 1.
  rewrite user_by_id_replaced.
  unfold create_session.
  cbn [snd users bump_id set_sessions set_pending_recoveries
       recomputed with_recovery with_last_login user_id].
  unfold resolves in Hres. rewrite Hres. reflexivity.
Qed.

(** X16. Redeeming a magic link. In a world where no repository call
    fails, a token that resolves to a pending recovery which has not
    expired and was not used, for a user that exists, is answered 200 with
    the user's name and a session cookie that lasts one year. Afterwards
    the user has exactly one session, the one of the new cookie, created
    at the instant of the request; the recovery is marked used at that
    instant; and the user's row carries the instant as last login, with
    name, credential and flags untouched. *)
Theorem magic_link_logs_in (P : Platform) (request : Request)
  (token : string) (r : PendingRecovery) (u : User) (w : World) :
  faults w = [] ->
  field request "token" = Some token ->
  str_truthy token = true ->
  recovery_of_token P token (db w) = Some r ->
  clock w <= rec_expires_at r ->
  rec_used_at r = None ->
  rec_user_id r = user_id u ->
  resolves u (db w) ->
  user_id u <> UNSAVED ->
  exists w',
    verify_magic_link P request w
    = (Ret (mkResponse 200
              (JObj [("success", JBool true);
                     ("message", JStr "Login successful");
                     ("username", JStr (username u))])
              (SetCookie (random_token P (rng w)) (Some 31536000))), w')
    /\ (exists s,
          sessions_of (user_id u) (db w') = [s]
          /\ session_token_hash s = hash_token P (random_token P (rng w))
          /\ session_created_at s = clock w)
    /\ (exists r',
          recovery_of_token P token (db w') = Some r'
          /\ rec_id r' = rec_id r /\ rec_used_at r' = Some (clock w))
    /\ (exists u',
          find (fun v => user_id v =? user_id u) (users (db w')) = Some u'
          /\ last_login u' = Some (clock w)
          /\ username u' = username u
          /\ auth_type u' = auth_type u
          /\ auth_credential u' = auth_credential u
          /\ can_download u' = can_download u
          /\ is_admin u' = is_admin u).
Proof.
  intros Hf Htok Htt Hr Hexp Hused Hid Hres Hsaved.
  assert (Hu : find (fun v => user_id v =? rec_user_id r) (users (db w)) = Some u).
  { rewrite Hid. exact Hres. }
  eexists. split.
  - exact (verify_magic_link_run P request token r u w Hf Htok Htt Hr Hexp Hused Hu).
  - cbn [db set_db set_rng]. split; [|split].
    + eexists. split; [apply redeemed_sessions | split; reflexivity].
    + exists (stamp_used (rec_id r) (clock w) r).
      destruct (stamp_used_self (clock w) r) as (Hs1 & Hs2 & _).
      split; [|split; assumption].
      unfold recovery_of_token. rewrite redeemed_recoveries.
      now apply recovery_after_stamp.
    + exists (recomputed (with_last_login (clock w) u)).
      split; [now apply redeemed_user | repeat split].
Qed.

Lemma magic_link_logs_in_witness :
  exists w',
    fst (verify_magic_link demo_platform demo_link_request
           (healthy demo_link_store 0 1200 true false))
    = Ret (link_redeemed demo_alice_mail "TOKEN")
    /\ w' = snd (verify_magic_link demo_platform demo_link_request
                   (healthy demo_link_store 0 1200 true false))
    /\ List.length (sessions_of 2 (db w')) = 1%nat.
Proof.
  assert (Hexp : clock (healthy demo_link_store 0 1200 true false)
                 <= rec_expires_at demo_link) by (cbn; lia).
  assert (Hid : user_id demo_alice_mail <> UNSAVED) by (cbn; unfold UNSAVED; lia).
  destruct (magic_link_logs_in demo_platform demo_link_request "LINK"
              demo_link demo_alice_mail
              (healthy demo_link_store 0 1200 true false)
              eq_refl eq_refl eq_refl eq_refl Hexp eq_refl eq_refl eq_refl Hid)
    as (w' & Hrun & (s & Hs & _) & _).
  exists w'. rewrite Hrun. cbn [fst snd].
  split; [reflexivity | split; [reflexivity |]].
  change (user_id demo_alice_mail) with 2 in Hs. now rewrite Hs.
Defined.

(** A link that was used is refused, whatever else happens: the store is
    left as it was, and the outcome is a 400 or an exception of a failing
    repository call. *)
Lemma used_link_refused P request token r w o w' :
  stripped_value (get_json request) "token" "" = Ret token ->
  recovery_of_token P token (db w) = Some r ->
  rec_used_at r <> None ->
  verify_magic_link P request w = (o, w') ->
  db w' = db w /\ refused o
  /\ (faults w = [] -> faults w' = [] /\ exists resp, o = Ret resp).
Proof.
  intros Htok Hr Hused. unfold verify_magic_link, refused. cbv zeta.
  destruct (truthy (get_json request)); cbn [negb];
    [|intros [= <- <-]; split; [reflexivity | split];
      [intros ? [= <-]; reflexivity | intros Hf; split; [exact Hf | eauto]]].
  rewrite bind_unfold, get_stripped_pure, Htok.
  destruct (negb (str_truthy token));
    [intros [= <- <-]; split; [reflexivity | split];
      [intros ? [= <-]; reflexivity | intros Hf; split; [exact Hf | eauto]]|].
  rewrite bind_unfold. unfold PendingRecoveryRepository_get_by_token, query, repo.
  destruct (faults w) as [|[|] fs] eqn:Hf; wsimpl.
  - fold (recovery_of_token P token (db w)). rewrite Hr.
    rewrite bind_unfold. unfold rec_is_expired, bind, now, ret. wsimpl.
    destruct (rec_expires_at r <? clock w).
    + intros [= <- <-]. split; [now destruct w | split].
      * intros ? [= <-]. reflexivity.
      * intros _. split; [now destruct w | eauto].
    + unfold rec_is_used. destruct (rec_used_at r); [|congruence].
      cbn [is_none negb]. intros [= <- <-]. split; [now destruct w | split].
      * intros ? [= <-]. reflexivity.
      * intros _. split; [now destruct w | eauto].
  - intros [= <- <-]. split; [reflexivity | split]; [discriminate | discriminate].
  - fold (recovery_of_token P token (db w)). rewrite Hr.
    rewrite bind_unfold. unfold rec_is_expired, bind, now, ret. wsimpl.
    destruct (rec_expires_at r <? clock w).
    + intros [= <- <-]. split; [reflexivity | split].
      * intros ? [= <-]. reflexivity.
      * discriminate.
    + unfold rec_is_used. destruct (rec_used_at r); [|congruence].
      cbn [is_none negb]. intros [= <- <-]. split; [reflexivity | split].
      * intros ? [= <-]. reflexivity.
      * discriminate.
Qed.


(** A 200 from [POST /magic-link/verify] means that the token resolved to
    a pending recovery, whose rows are marked used in the store left. *)
Lemma magic_link_200_inv P request w resp w1 :
  verify_magic_link P request w = (Ret resp, w1) ->
  status resp = 200 ->
  exists token r,
    stripped_value (get_json request) "token" "" = Ret token
    /\ recovery_of_token P token (db w) = Some r
    /\ pending_recoveries (db w1)
       = map (stamp_used (rec_id r) (clock w)) (pending_recoveries (db w)).
Proof.
  unfold verify_magic_link. cbv zeta.
  destruct (truthy (get_json request)); cbn [negb];
    [|intros [= <- <-]; discriminate].
  rewrite bind_unfold, get_stripped_pure.
  destruct (stripped_value (get_json request) "token" "") as [token|];
    [|discriminate].
  destruct (negb (str_truthy token)); [intros [= <- <-]; discriminate|].
  unfold PendingRecoveryRepository_get_by_token, rec_is_expired, rec_is_used,
    get_by_id, rec_mark_used, invalidate_user_sessions,
    Session_create_for_user, create_session, User_save, save_user,
    bind, query, update, repo, draw, now, ret.
  intros Hrun Hst. exists token. revert Hrun Hst.
  repeat crack_keep;
    cbv beta; wsimpl;
    first [ discriminate
          | intros [= <- <-]; discriminate
          | intros [= <- <-] _; eexists; split; [reflexivity|];
            split; [eassumption | reflexivity] ].
Qed.

Lemma replay_used_link P request token r ts :
  stripped_value (get_json request) "token" "" = Ret token ->
  rec_used_at r <> None ->
  forall w,
    recovery_of_token P token (db w) = Some r ->
    Forall refused (replay P POST_magic_link_verify request ts w)
    /\ db (replay_end P POST_magic_link_verify request ts w) = db w
    /\ (faults w = [] ->
        Forall (fun o => exists resp, o = Ret resp /\ status resp = 400)
               (replay P POST_magic_link_verify request ts w)).
Proof.
  intros Htok Hused. induction ts as [|t ts IH]; intros w Hr.
  - cbn. repeat split; constructor.
  - cbn [replay replay_end].
    destruct (serve P POST_magic_link_verify request (at_time t w))
      as [o w1] eqn:Hrun.
    cbn [snd]. unfold serve, handler in Hrun.
    destruct (used_link_refused P request token r (set_g fresh_g (at_time t w))
                o w1 Htok Hr Hused Hrun)
      as (Hdb & Hre & Hsound).
    cbn [db set_g at_time] in Hdb.
    assert (Hr1 : recovery_of_token P token (db w1) = Some r)
      by (now rewrite Hdb).
    destruct (IH w1 Hr1) as (Hall & Hend & Hok).
    split; [|split].
    + constructor; assumption.
    + now rewrite Hend.
    + intros Hf. destruct (Hsound Hf) as (Hf1 & resp & ->).
      constructor; [|exact (Hok Hf1)].
      exists resp. split; [reflexivity | now apply Hre].
Qed.

(** X17. A magic link works once. Once [POST /magic-link/verify] has
    answered 200 to a request, the same request is never answered 200
    again, at whatever instants it is repeated and whatever repository
    calls fail: each repetition is refused, and the store, with the
    session created by the first answer, stays as the first answer left
    it. When no repository call fails, each repetition is answered 400. *)
Theorem magic_link_is_single_use (P : Platform) (request : Request)
  (w w1 : World) (resp : Response) (ts : list Z) :
  serve P POST_magic_link_verify request w = (Ret resp, w1) ->
  status resp = 200 ->
  Forall refused (replay P POST_magic_link_verify request ts w1)
  /\ db (replay_end P POST_magic_link_verify request ts w1) = db w1
  /\ (faults w1 = [] ->
      Forall (fun o => exists resp', o = Ret resp' /\ status resp' = 400)
             (replay P POST_magic_link_verify request ts w1)).
Proof.
  intros Hrun Hst. unfold serve, handler in Hrun.
  destruct (magic_link_200_inv P request _ resp w1 Hrun Hst)
    as (token & r & Htok & Hr & Hrows).
  cbn [db set_g clock] in Hr, Hrows.
  apply (replay_used_link P request token
           (stamp_used (rec_id r) (clock w) r) ts Htok).
  - destruct (stamp_used_self (clock w) r) as (-> & _). discriminate.
  - unfold recovery_of_token. rewrite Hrows.
    now apply recovery_after_stamp.
Qed.

Lemma magic_link_is_single_use_witness :
  status (link_redeemed demo_alice_mail "TOKEN") = 200
  /\ Forall (fun o => exists resp', o = Ret resp' /\ status resp' = 400)
       (replay demo_platform POST_magic_link_verify demo_link_request
          [1300; 2500]
          (snd (serve demo_platform POST_magic_link_verify demo_link_request
                  (healthy demo_link_store 0 1200 true false)))).
Proof.
  split; [reflexivity |].
  exact (proj2 (proj2 (magic_link_is_single_use demo_platform
                         demo_link_request
                         (healthy demo_link_store 0 1200 true false)
                         (snd (serve demo_platform POST_magic_link_verify
                                 demo_link_request
                                 (healthy demo_link_store 0 1200 true false)))
                         (link_redeemed demo_alice_mail "TOKEN") [1300; 2500]
                         eq_refl eq_refl)) eq_refl).
Defined.

Lemma request_magic_link_run P request name u d n t smtp dev :
  field request "username" = Some name ->
  str_truthy name = true ->
  user_named name d = Some u ->
  recovery_enabled u = true ->
  opt_truthy (recovery_email u) = true ->
  exists w',
    request_magic_link P request (healthy d n t smtp dev)
    = (Ret generic_success, w')
    /\ db w' = requested_store P (user_id u) n t d
    /\ faults w' = [] /\ rng w' = S n.
Proof.
  intros Hname Hnt Hu Hen Hmail.
  unfold request_magic_link. cbv zeta.
  rewrite (field_truthy _ _ _ Hname). cbn [negb].
  rewrite bind_unfold, get_stripped_pure, (stripped_value_field _ _ _ "" Hname).
  rewrite Hnt. cbn [negb].
  rewrite bind_unfold. unfold get_by_username. rewrite query_ok by reflexivity.
  wsimpl. fold (user_named name d). rewrite Hu, Hen, Hmail. cbn [negb orb].
  rewrite bind_unfold. unfold delete_for_user.
  rewrite update_ok by reflexivity. wsimpl.
  rewrite bind_unfold. unfold PendingRecovery_create.
  rewrite bind_unfold. unfold draw at 1. wsimpl.
  rewrite bind_unfold. unfold now at 1. wsimpl.
  rewrite repo_ok by reflexivity. wsimpl.
  unfold create_recovery at 1. cbn [fst].
  rewrite bind_unfold. unfold _send_magic_link_email. wsimpl.
  destruct smtp.
  - eexists. split; [reflexivity |]. repeat split.
  - eexists. split; [reflexivity |]. repeat split.
Qed.

Lemma requested_recoveries P uid n t d :
  pending_recoveries (requested_store P uid n t d)
  = (filter (fun r => negb (rec_user_id r =? uid)) (pending_recoveries d)
     ++ [new_recovery P uid 15 (random_token P n) t d])%list.
Proof. reflexivity. Qed.

(** After an eligible request the user holds one link, the new one. *)
Lemma requested_one_link P uid n t d :
  recoveries_for uid (requested_store P uid n t d)
  = [new_recovery P uid 15 (random_token P n) t d].
Proof.
  unfold recoveries_for. rewrite requested_recoveries.
  apply filter_app_one.
  - cbn [new_recovery rec_user_id]. apply Z.eqb_refl.
  - intros r Hr. apply filter_In in Hr. destruct Hr as [_ Hr].
    now apply negb_true_iff in Hr.
Qed.

(** The new token resolves to the new link. *)
Lemma requested_link_resolves P uid n t d :
  link_token_free P (random_token P n) uid d ->
  recovery_of_token P (random_token P n) (requested_store P uid n t d)
  = Some (new_recovery P uid 15 (random_token P n) t d).
Proof.
  intros Hfree. unfold recovery_of_token. rewrite requested_recoveries.
  apply find_app_last.
  - intros r Hr. apply filter_In in Hr. destruct Hr as [Hin Hr].
    apply negb_true_iff, Z.eqb_neq in Hr.
    apply String.eqb_neq. now apply Hfree.
  - cbn [new_recovery rec_token_hash]. apply String.eqb_refl.
Qed.

(** X18. Magic-link round trip. A user with recovery enabled and a
    recovery email asks for a link; the request is answered by the generic
    message and leaves the user exactly one pending link, whatever links
    the user held before. Redeeming the token of that link within 15
    minutes, with no repository call failing, answers 200 with the user's
    name and sets the session cookie for one year; the user then has
    exactly one session. The token's hash is assumed to differ from the
    hashes of the links of other users. *)
Theorem magic_link_round_trip (P : Platform) (request redeem : Request)
  (name : string) (u : User) (d : Store) (n : nat) (t t' : Z)
  (smtp dev : bool) :
  field request "username" = Some name ->
  str_truthy name = true ->
  user_named name d = Some u ->
  resolves u d ->
  recovery_enabled u = true ->
  opt_truthy (recovery_email u) = true ->
  link_token_free P (random_token P n) (user_id u) d ->
  field redeem "token" = Some (random_token P n) ->
  str_truthy (random_token P n) = true ->
  t' <= t + 15 * 60 ->
  exists w1 w2,
    serve P POST_magic_link request (healthy d n t smtp dev)
    = (Ret generic_success, w1)
    /\ recoveries_for (user_id u) (db w1)
       = [mkPendingRecovery (next_id d) (user_id u)
            (hash_token P (random_token P n)) (t + 15 * 60) None]
    /\ serve P POST_magic_link_verify redeem (at_time t' w1)
       = (Ret (mkResponse 200
                 (JObj [("success", JBool true);
                        ("message", JStr "Login successful");
                        ("username", JStr (username u))])
                 (SetCookie (random_token P (S n)) (Some 31536000))), w2)
    /\ List.length (sessions_of (user_id u) (db w2)) = 1%nat.
Proof.
  intros Hname Hnt Hu Hres Hen Hmail Hfree Htok Htt Hage.
  destruct (request_magic_link_run P request name u d n t smtp dev
              Hname Hnt Hu Hen Hmail) as (w1 & Hrun & Hdb & Hf & Hrng).
  exists w1.
  assert (Hr : recovery_of_token P (random_token P n)
                 (db (set_g fresh_g (at_time t' w1)))
               = Some (new_recovery P (user_id u) 15 (random_token P n) t d)).
  { cbn [db set_g at_time]. rewrite Hdb. now apply requested_link_resolves. }
  assert (Hu1 : find (fun v => user_id v =? rec_user_id
                        (new_recovery P (user_id u) 15 (random_token P n) t d))
                  (users (db (set_g fresh_g (at_time t' w1)))) = Some u).
  { cbn [db set_g at_time new_recovery rec_user_id]. rewrite Hdb. exact Hres. }
  eexists. split; [exact Hrun | split; [|split]].
  - rewrite Hdb. apply requested_one_link.
  - unfold serve at 1. cbn [handler].
    rewrite (verify_magic_link_run P redeem (random_token P n) _ u
               (set_g fresh_g (at_time t' w1)) Hf Htok Htt Hr);
      [| cbn [clock set_g at_time new_recovery rec_expires_at]; lia
       | reflexivity | exact Hu1].
    cbn [rng set_g at_time]. rewrite Hrng. reflexivity.
  - cbn [db set_db set_rng]. now rewrite redeemed_sessions.
Qed.

Lemma magic_link_round_trip_witness :
  link_token_free demo_platform "TOKEN" 2 demo_store
  /\ exists w1 w2,
       serve demo_platform POST_magic_link demo_magic_request
         (healthy demo_store 0 1000 true false)
       = (Ret generic_success, w1)
       /\ serve demo_platform POST_magic_link_verify
            (demo_body [("token", JStr "TOKEN")]) (at_time 1900 w1)
          = (Ret (link_redeemed demo_alice_mail "TOKENI"), w2)
       /\ List.length (sessions_of 2 (db w2)) = 1%nat.
Proof.
  assert (Hfree : link_token_free demo_platform
                    (random_token demo_platform 0) (user_id demo_alice_mail)
                    demo_store).
  { intros r []. }
  assert (Hage : 1900 <= 1000 + 15 * 60) by lia.
  split; [exact Hfree |].
  destruct (magic_link_round_trip demo_platform demo_magic_request
              (demo_body [("token", JStr "TOKEN")]) "alice1" demo_alice_mail
              demo_store 0 1000 1900 true false
              eq_refl eq_refl eq_refl eq_refl eq_refl eq_refl Hfree
              eq_refl eq_refl Hage)
    as (w1 & w2 & H1 & _ & H2 & H3).
  exists w1, w2. split; [exact H1 | split; [exact H2 | exact H3]].
Defined.

Lemma expired_link_refused P request token r w :
  faults w = [] ->
  field request "token" = Some token ->
  str_truthy token = true ->
  recovery_of_token P token (db w) = Some r ->
  rec_expires_at r < clock w ->
  verify_magic_link P request w = (Ret link_expired, w).
Proof.
  intros Hf Htok Htt Hr Hexp.
  unfold verify_magic_link. cbv zeta.
  rewrite (field_truthy _ _ _ Htok). cbn [negb].
  rewrite bind_unfold, get_stripped_pure, (stripped_value_field _ _ _ "" Htok).
  rewrite Htt. cbn [negb].
  rewrite bind_unfold. unfold PendingRecoveryRepository_get_by_token.
  rewrite query_ok by exact Hf.
  fold (recovery_of_token P token (db w)). rewrite Hr.
  rewrite bind_unfold. unfold rec_is_expired.
  rewrite bind_unfold. unfold now at 1. unfold ret at 1.
  rewrite (proj2 (Z.ltb_lt _ _) Hexp). reflexivity.
Qed.

(** X19. An expired magic link stays refused and stays stored. When a
    token resolves to a pending recovery, used or not, every
    [POST /magic-link/verify] that presents it after its expiry, with no
    repository call failing, is answered 400 with the expiry message, and
    the store is never changed: unlike an expired registration, the
    expired link is not deleted. *)
Theorem expired_magic_link_stays_refused (P : Platform) (request : Request)
  (token : string) (r : PendingRecovery) (ts : list Z) (w : World) :
  faults w = [] ->
  field request "token" = Some token ->
  str_truthy token = true ->
  recovery_of_token P token (db w) = Some r ->
  Forall (fun t => rec_expires_at r < t) ts ->
  Forall (fun o => o = Ret link_expired)
         (replay P POST_magic_link_verify request ts w)
  /\ db (replay_end P POST_magic_link_verify request ts w) = db w.
Proof.
  intros Hf Htok Htt Hr Hts. revert w Hf Hr.
  induction Hts as [|t ts Ht Hts IH]; intros w Hf Hr.
  - split; [constructor | reflexivity].
  - assert (Hrun : serve P POST_magic_link_verify request (at_time t w)
                   = (Ret link_expired, set_g fresh_g (at_time t w))).
    { unfold serve, handler.
      exact (expired_link_refused P request token r
               (set_g fresh_g (at_time t w)) Hf Htok Htt Hr Ht). }
    cbn [replay replay_end]. rewrite Hrun. cbn [snd].
    destruct (IH (set_g fresh_g (at_time t w)) Hf Hr) as [Hall Hend].
    split; [constructor; [reflexivity | exact Hall] | exact Hend].
Qed.

Lemma expired_magic_link_stays_refused_witness :
  replay demo_platform POST_magic_link_verify demo_link_request [1901; 5000]
    (healthy demo_link_store 0 1200 true false)
  = [Ret link_expired; Ret link_expired]
  /\ db (replay_end demo_platform POST_magic_link_verify demo_link_request
           [1901; 5000] (healthy demo_link_store 0 1200 true false))
     = demo_link_store.
Proof.
  assert (Hts : Forall (fun t => rec_expires_at demo_link < t) [1901; 5000]).
  { repeat constructor. }
  split; [reflexivity |].
  exact (proj2 (expired_magic_link_stays_refused demo_platform
                  demo_link_request "LINK" demo_link [1901; 5000]
                  (healthy demo_link_store 0 1200 true false)
                  eq_refl eq_refl eq_refl eq_refl Hts)).
Defined.

(* ===================================================================== *)
(** * Further properties: backup codes behind [login_required] *)
(* ===================================================================== *)

Lemma guarded_user_is_found P request (k : User -> M Response) w :
  (forall u w1, fst (k u w1) <> Raise AttributeError) ->
  fst (login_required P
         (fun request => user <- current_user_or_raise P request ;; k user)
         request w)
  <> Raise AttributeError.
Proof.
  intros Hk.
  unfold login_required, current_user_or_raise, get_current_user.
  rewrite bind_unfold. rewrite (bind_unfold _ _ get_g). unfold get_g at 1.
  destruct (g_current_user (g w)) as [[u|]|] eqn:Hg.
  - unfold ret at 1. rewrite !bind_unfold. unfold get_g at 1. rewrite Hg.
    unfold ret at 1. apply Hk.
  - unfold ret at 1. discriminate.
  - fold (session_cookie request).
    destruct (session_cookie request) as [token|];
      [|unfold bind, put_g, ret; cbn; discriminate].
    destruct (str_truthy token);
      [|unfold bind, put_g, ret; cbn; discriminate].
    cbn [negb].
    unfold SessionRepository_get_by_token, Session_invalidate, get_by_id,
      Session_touch, bind, query, update, repo, now, put_g, get_g, ret, raise.
    repeat crack_step; cbv beta; wsimpl; cbn [g_current_user];
      first [ discriminate | apply Hk ].
Qed.

(** X20. A handler behind [login_required] always finds its user. The
    handlers of [POST /recover/remaining-codes] and
    [POST /recover/regenerate-codes] call [get_current_user] again and read
    [user.id]; whatever the request, whatever [g] holds and whatever
    repository calls fail, that second lookup never returns [None]: the
    handlers never raise the [AttributeError] of reading [None.id]. *)
Theorem guarded_handlers_find_their_user (P : Platform) (request : Request)
  (w : World) :
  fst (get_remaining_backup_codes P request w) <> Raise AttributeError
  /\ fst (regenerate_backup_codes P request w) <> Raise AttributeError.
Proof.
  split.
  - unfold get_remaining_backup_codes.
    apply (guarded_user_is_found P request
             (fun user => remaining <- get_remaining_count (user_id user) ;;
                          ret (jsonify (JObj [("remaining", JInt remaining)])))).
    intros u w1. unfold get_remaining_count, bind, query, repo, ret.
    destruct (faults w1) as [|[|] fs]; cbn; discriminate.
  - unfold regenerate_backup_codes.
    apply (guarded_user_is_found P request
             (fun user => new_codes <- create_codes_for_user P (user_id user) ;;
                          ret (regenerated_answer new_codes))).
    intros u w1.
    unfold create_codes_for_user, generate_backup_codes, bind, repo, ret.
    wsimpl. destruct (faults w1) as [|[|] fs]; cbn; discriminate.
Qed.

Lemma touch_store_codes s t d : backup_codes (touch_store s t d) = backup_codes d.
Proof.
  unfold touch_store. destruct (TOUCH_INTERVAL <=? t - session_last_seen s);
    reflexivity.
Qed.

Lemma touch_store_next_id s t d : next_id (touch_store s t d) = next_id d.
Proof.
  unfold touch_store. destruct (TOUCH_INTERVAL <=? t - session_last_seen s);
    reflexivity.
Qed.

Lemma remaining_codes_run P request token s u w :
  g_current_user (g w) = None ->
  faults w = [] ->
  session_cookie request = Some token ->
  str_truthy token = true ->
  session_of_token P token (db w) = Some s ->
  clock w - session_last_seen s <= 30 * 60 ->
  user_of s (db w) = Some u ->
  get_remaining_backup_codes P request w
  = (Ret (remaining_answer (remaining_count (user_id u) (db w))),
     after_lookup u s w).
Proof.
  intros Hg Hf Hcookie Htruthy Hs Hfresh Hu.
  unfold get_remaining_backup_codes, login_required.
  rewrite bind_unfold.
  rewrite (get_current_user_run_fresh P request token s u w
             Hg Hf Hcookie Htruthy Hs Hfresh Hu).
  fold (after_lookup u s w).
  rewrite bind_unfold. unfold current_user_or_raise.
  rewrite bind_unfold.
  rewrite (get_current_user_cached P request (after_lookup u s w) (Some u))
    by reflexivity.
  unfold ret at 1.
  rewrite bind_unfold. unfold get_remaining_count.
  rewrite query_ok by (unfold after_lookup; wsimpl; exact Hf).
  unfold ret, remaining_answer, remaining_count, after_lookup. wsimpl.
  now rewrite touch_store_codes.
Qed.

Lemma regenerate_codes_run P request token s u w :
  g_current_user (g w) = None ->
  faults w = [] ->
  session_cookie request = Some token ->
  str_truthy token = true ->
  session_of_token P token (db w) = Some s ->
  clock w - session_last_seen s <= 30 * 60 ->
  user_of s (db w) = Some u ->
  regenerate_backup_codes P request w
  = (Ret (regenerated_answer (fresh_codes P (rng w))),
     set_db (regenerated_store P (user_id u) s (rng w) (clock w) (db w))
       (set_rng (rng w + NUM_BACKUP_CODES)%nat (after_lookup u s w))).
Proof.
  intros Hg Hf Hcookie Htruthy Hs Hfresh Hu.
  unfold regenerate_backup_codes, login_required.
  rewrite bind_unfold.
  rewrite (get_current_user_run_fresh P request token s u w
             Hg Hf Hcookie Htruthy Hs Hfresh Hu).
  fold (after_lookup u s w).
  rewrite bind_unfold. unfold current_user_or_raise.
  rewrite bind_unfold.
  rewrite (get_current_user_cached P request (after_lookup u s w) (Some u))
    by reflexivity.
  unfold ret at 1.
  rewrite bind_unfold. unfold create_codes_for_user.
  rewrite bind_unfold. unfold generate_backup_codes at 1.
  rewrite repo_ok by (unfold after_lookup; wsimpl; exact Hf).
  unfold ret, regenerated_answer, regenerated_store, fresh_codes, after_lookup.
  wsimpl. reflexivity.
Qed.

Lemma replace_codes_others P uid codes d :
  codes_of_others uid (snd (replace_codes P uid codes d)) = codes_of_others uid d.
Proof.
  unfold codes_of_others, replace_codes.
  cbn [snd backup_codes bump_id set_backup_codes].
  rewrite filter_app.
  rewrite (filter_none _ _ (code_rows P uid (next_id d) codes)).
  - rewrite app_nil_r. apply filter_filter_sub.
    intros c Hc. unfold is_unused_of.
    apply negb_true_iff in Hc. now rewrite Hc.
  - intros c Hc. apply code_rows_unused in Hc. destruct Hc as (-> & _).
    now rewrite Z.eqb_refl.
Qed.

Lemma regenerated_counts P uid s n t d :
  remaining_count uid (regenerated_store P uid s n t d)
  = Z.of_nat NUM_BACKUP_CODES
  /\ used_count uid (regenerated_store P uid s n t d) = used_count uid d
  /\ codes_of_others uid (regenerated_store P uid s n t d)
     = codes_of_others uid d.
Proof.
  unfold regenerated_store. split; [|split].
  - now rewrite replace_codes_remaining, fresh_codes_length.
  - rewrite replace_codes_used. unfold used_count.
    now rewrite touch_store_codes.
  - rewrite replace_codes_others. unfold codes_of_others.
    now rewrite touch_store_codes.
Qed.

(** X21. Regenerating and counting compose. A user with a session that
    is at most 30 minutes old asks for new backup codes, no repository
    call failing: the answer is 200 and carries the eight codes just
    drawn. In the store left the user has eight unused codes, however many
    there were; the used codes of the user stay on record, and the codes
    of every other user are untouched. A [POST /recover/remaining-codes]
    with the same cookie, up to 29 minutes later, answers
    [{"remaining": 8}]. *)
Theorem regenerate_then_count (P : Platform) (request probe : Request)
  (token : string) (s : Session) (u : User) (d : Store) (n : nat) (t t' : Z)
  (smtp dev : bool) :
  session_cookie request = Some token ->
  session_cookie probe = Some token ->
  str_truthy token = true ->
  session_of_token P token d = Some s ->
  t - session_last_seen s <= 30 * 60 ->
  user_of s d = Some u ->
  t' - t <= 29 * 60 ->
  exists w1,
    serve P POST_recover_regenerate_codes request (healthy d n t smtp dev)
    = (Ret (regenerated_answer (fresh_codes P n)), w1)
    /\ status (regenerated_answer (fresh_codes P n)) = 200
    /\ List.length (fresh_codes P n) = 8%nat
    /\ remaining_count (user_id u) (db w1) = 8
    /\ used_count (user_id u) (db w1) = used_count (user_id u) d
    /\ codes_of_others (user_id u) (db w1) = codes_of_others (user_id u) d
    /\ fst (serve P POST_recover_remaining_codes probe (at_time t' w1))
       = Ret (remaining_answer 8).
Proof.
  intros Hcookie Hprobe Htruthy Hs Hfresh Hu Hgap.
  eexists. split.
  { unfold serve, handler.
    exact (regenerate_codes_run P request token s u
             (set_g fresh_g (healthy d n t smtp dev))
             eq_refl eq_refl Hcookie Htruthy Hs Hfresh Hu). }
  cbn [db set_db set_rng set_g healthy rng clock].
  destruct (regenerated_counts P (user_id u) s n t d) as (Hrem & Hused & Hoth).
  split; [reflexivity | split; [apply fresh_codes_length |]].
  split; [exact Hrem | split; [exact Hused | split; [exact Hoth |]]].
  destruct (session_after_fresh_read P token s t d Hs)
    as (s' & Hs' & _ & Huid & Hseen & _).
  set (w2 := set_g fresh_g
               (at_time t'
                  (set_db (regenerated_store P (user_id u) s n t d)
                     (set_rng (n + NUM_BACKUP_CODES)%nat
                        (after_lookup u s
                           (set_g fresh_g (healthy d n t smtp dev))))))).
  assert (H1 : session_of_token P token (db w2) = Some s') by exact Hs'.
  assert (H2 : clock w2 - session_last_seen s' <= 30 * 60).
  { subst w2. cbn [clock set_g at_time]. unfold TOUCH_INTERVAL in Hseen. lia. }
  assert (H3 : user_of s' (db w2) = Some u).
  { subst w2. unfold user_of. cbn [db set_db set_g at_time]. rewrite Huid.
    unfold regenerated_store, replace_codes.
    cbn [snd users bump_id set_backup_codes]. rewrite users_after_touch.
    exact Hu. }
  unfold serve, handler. fold w2.
  rewrite (remaining_codes_run P probe token s' u w2
             eq_refl eq_refl Hprobe Htruthy H1 H2 H3).
  subst w2. cbn [fst db set_db set_g at_time]. now rewrite Hrem.
Qed.

Lemma regenerate_then_count_witness :
  fst (serve demo_platform POST_recover_remaining_codes demo_cookie_request
         (at_time 3000
            (snd (serve demo_platform POST_recover_regenerate_codes
                    demo_cookie_request
                    (healthy demo_session_store 0 1500 true false)))))
  = Ret (remaining_answer 8).
Proof.
  assert (Hfresh : 1500 - session_last_seen demo_session <= 30 * 60)
    by (cbn; lia).
  assert (Hgap : 3000 - 1500 <= 29 * 60) by lia.
  destruct (regenerate_then_count demo_platform demo_cookie_request
              demo_cookie_request "TOKENX" demo_session demo_alice_mail
              demo_session_store 0 1500 3000 true false
              eq_refl eq_refl eq_refl eq_refl Hfresh eq_refl Hgap)
    as (w1 & Hrun & _ & _ & _ & _ & _ & Hcount).
  rewrite Hrun. exact Hcount.
Defined.

Lemma consume_first_finds uid h t l c :
  In c l -> code_matches uid h c = true ->
  fst (consume_first uid h t l) = true.
Proof.
  induction l as [|x l IH]; intros Hin Hm; [destruct Hin|].
  cbn [consume_first]. destruct (code_matches uid h x) eqn:Hx; [reflexivity|].
  destruct Hin as [-> | Hin]; [congruence|].
  specialize (IH Hin Hm). destruct (consume_first uid h t l). exact IH.
Qed.

Lemma code_rows_In P uid i codes x :
  In x codes ->
  exists c, In c (code_rows P uid i codes)
            /\ code_matches uid (stored_hash P x) c = true.
Proof.
  revert i. induction codes as [|y codes IH]; intros i Hin; [destruct Hin|].
  cbn [code_rows]. destruct Hin as [-> | Hin].
  - eexists. split; [left; reflexivity|].
    unfold code_matches. cbn [code_user_id code_hash code_used_at is_none].
    now rewrite Z.eqb_refl, String.eqb_refl.
  - destruct (IH (i + 1) Hin) as (c & Hc & Hm).
    exists c. split; [now right | exact Hm].
Qed.

Lemma regenerated_code_accepted P uid s n t t' d c :
  In c (fresh_codes P n) ->
  code_accepted P uid c t' (regenerated_store P uid s n t d).
Proof.
  intros Hin. unfold code_accepted, verify_and_consume_in.
  destruct (code_rows_In P uid (next_id (touch_store s t d)) _ c Hin)
    as (row & Hrow & Hm).
  pose proof (consume_first_finds uid (stored_hash P c) t'
                (backup_codes (regenerated_store P uid s n t d)) row) as H.
  destruct (consume_first uid (stored_hash P c) t'
              (backup_codes (regenerated_store P uid s n t d))) as [ok l].
  cbn [fst] in *. apply H; [|exact Hm].
  unfold regenerated_store, replace_codes.
  cbn [snd backup_codes bump_id set_backup_codes].
  apply in_or_app. now right.
Qed.

(** X22. New backup codes replace the old ones. After a user with a live
    session regenerated the codes, no repository call failing, a
    [POST /recover/backup-code] for that user is answered 200 when it
    presents one of the codes just returned, and by the generic 401 when
    it presents a code that hashes like none of them, as a code that was
    valid before does unless it was drawn again. *)
Theorem regenerated_codes_replace_the_old (P : Platform)
  (request old_try new_try : Request) (token name old new : string)
  (s : Session) (u : User) (d : Store) (n : nat) (t t' : Z)
  (smtp dev : bool) :
  session_cookie request = Some token ->
  str_truthy token = true ->
  session_of_token P token d = Some s ->
  t - session_last_seen s <= 30 * 60 ->
  user_of s d = Some u ->
  user_named name d = Some u ->
  str_truthy name = true ->
  field old_try "username" = Some name ->
  field old_try "backup_code" = Some old ->
  str_truthy old = true ->
  (forall c, In c (fresh_codes P n) -> stored_hash P c <> stored_hash P old) ->
  field new_try "username" = Some name ->
  field new_try "backup_code" = Some new ->
  str_truthy new = true ->
  In new (fresh_codes P n) ->
  exists w1,
    serve P POST_recover_regenerate_codes request (healthy d n t smtp dev)
    = (Ret (regenerated_answer (fresh_codes P n)), w1)
    /\ fst (serve P POST_recover_backup_code old_try (at_time t' w1))
       = Ret invalid_backup_code
    /\ exists resp,
         fst (serve P POST_recover_backup_code new_try (at_time t' w1))
         = Ret resp /\ status resp = 200.
Proof.
  intros Hcookie Htruthy Hs Hfresh Hu Hname Hnt Hon Hoc Hot Hold Hnn Hnc Hnct Hin.
  eexists. split.
  { unfold serve, handler.
    exact (regenerate_codes_run P request token s u
             (set_g fresh_g (healthy d n t smtp dev))
             eq_refl eq_refl Hcookie Htruthy Hs Hfresh Hu). }
  set (d1 := regenerated_store P (user_id u) s n t d).
  assert (Hworld : forall w0,
            w0 = set_db d1 (set_rng (n + NUM_BACKUP_CODES)%nat
                              (after_lookup u s
                                 (set_g fresh_g (healthy d n t smtp dev)))) ->
            set_g fresh_g (at_time t' w0)
            = healthy d1 (n + NUM_BACKUP_CODES) t' smtp dev).
  { intros w0 ->. reflexivity. }
  assert (Hu1 : user_named name d1 = Some u).
  { unfold user_named, d1, regenerated_store, replace_codes.
    cbn [snd users bump_id set_backup_codes]. rewrite users_after_touch.
    exact Hname. }
  unfold serve, handler. cbn [rng clock db set_g healthy]. fold d1.
  rewrite (Hworld _ eq_refl).
  split.
  - destruct (recover_failure P old_try name old u
                (healthy d1 (n + NUM_BACKUP_CODES) t' smtp dev)
                eq_refl Hon Hnt Hoc Hot Hu1) as (w' & Hrun & _).
    + apply replace_codes_spent. exact Hold.
    + now rewrite Hrun.
  - destruct (recover_success P new_try name new u d1 (n + NUM_BACKUP_CODES)
                t' smtp dev Hnn Hnt Hnc Hnct Hu1) as (resp & Hrun & Hst).
    + now apply regenerated_code_accepted.
    + exists resp. now rewrite Hrun.
Qed.

Lemma regenerated_codes_replace_the_old_witness :
  fst (serve demo_platform POST_recover_backup_code demo_recover_request
         (at_time 1600
            (snd (serve demo_platform POST_recover_regenerate_codes
                    demo_cookie_request
                    (healthy demo_session_store 10 1500 true false)))))
  = Ret invalid_backup_code
  /\ code_accepted demo_platform 2 "code-ii" 1600 demo_session_store.
Proof.
  assert (Hfresh : 1500 - session_last_seen demo_session <= 30 * 60)
    by (cbn; lia).
  assert (Hold : forall c, In c (fresh_codes demo_platform 10) ->
                           stored_hash demo_platform c
                           <> stored_hash demo_platform "code-ii").
  { intros c Hc. vm_compute in Hc.
    repeat (destruct Hc as [<-|Hc]; [vm_compute; discriminate|]).
    destruct Hc. }
  assert (Hin : In "CODE-IIIIIIIIII" (fresh_codes demo_platform 10)).
  { vm_compute. now left. }
  destruct (regenerated_codes_replace_the_old demo_platform
              demo_cookie_request demo_recover_request
              (demo_body [("username", JStr "alice1");
                          ("backup_code", JStr "CODE-IIIIIIIIII")])
              "TOKENX" "alice1" "code-ii" "CODE-IIIIIIIIII"
              demo_session demo_alice_mail demo_session_store 10 1500 1600
              true false
              eq_refl eq_refl eq_refl Hfresh eq_refl eq_refl eq_refl
              eq_refl eq_refl eq_refl Hold eq_refl eq_refl eq_refl Hin)
    as (w1 & Hrun & Hrej & _).
  split; [rewrite Hrun; exact Hrej | reflexivity].
Defined.

Lemma recover_run P request name code u d n t smtp dev :
  field request "username" = Some name ->
  str_truthy name = true ->
  field request "backup_code" = Some code ->
  str_truthy code = true ->
  user_named name d = Some u ->
  user_id u <> UNSAVED ->
  code_accepted P (user_id u) code t d ->
  recover_with_backup_code P request (healthy d n t smtp dev)
  = (Ret (recovery_answer P u (random_secret P n) (fresh_codes P (S n))
            (remaining_count (user_id u) d - 1)),
     healthy (recovered_store P u code n t d) (S n + NUM_BACKUP_CODES) t
             smtp dev).
Proof.
  intros Hname Hnt Hcode Hct Hu Hid Hok.
  unfold recover_with_backup_code. cbv zeta.
  rewrite (field_truthy _ _ _ Hname). cbn [negb].
  rewrite bind_unfold, get_stripped_pure, (stripped_value_field _ _ _ "" Hname).
  rewrite bind_unfold, get_stripped_pure, (stripped_value_field _ _ _ "" Hcode).
  rewrite Hnt, Hct. cbn [negb orb].
  rewrite bind_unfold. unfold get_by_username. rewrite query_ok by reflexivity.
  wsimpl. fold (user_named name d). rewrite Hu.
  rewrite <- (remaining_after_consumption P (user_id u) code t d Hok).
  unfold code_accepted in Hok. unfold recovered_store.
  rewrite bind_unfold. unfold verify_and_consume.
  rewrite bind_unfold. unfold now at 1. rewrite repo_ok by reflexivity. wsimpl.
  rewrite Hok. cbn [negb].
  rewrite bind_unfold. unfold get_remaining_count.
  rewrite query_ok by reflexivity. wsimpl.
  rewrite bind_unfold. unfold setup_totp.
  rewrite bind_unfold. unfold draw at 1, ret at 1. wsimpl.
  rewrite bind_unfold. unfold User_save. rewrite repo_ok by reflexivity. wsimpl.
  rewrite save_user_saved by exact Hid. wsimpl.
  rewrite bind_unfold. unfold create_codes_for_user.
  rewrite bind_unfold. unfold generate_backup_codes at 1. wsimpl.
  rewrite repo_ok by reflexivity. wsimpl.
  rewrite bind_unfold. unfold invalidate_user_sessions.
  rewrite update_ok by reflexivity. wsimpl.
  reflexivity.
Qed.

Lemma login_wrong_code P request name code u w :
  faults w = [] ->
  field request "username" = Some name ->
  str_truthy name = true ->
  field request "code" = Some code ->
  str_truthy code = true ->
  user_named name (db w) = Some u ->
  auth_type u = TOTP ->
  verify_totp P (auth_credential u) code (clock w) = false ->
  login P request w = (Ret invalid_credentials, w).
Proof.
  intros Hf Hname Hnt Hcode Hct Hu Hty Hno.
  unfold login. cbv zeta.
  rewrite (field_truthy _ _ _ Hname). cbn [negb].
  rewrite bind_unfold, get_stripped_pure, (stripped_value_field _ _ _ "" Hname).
  rewrite bind_unfold, get_stripped_pure, (stripped_value_field _ _ _ "" Hcode).
  rewrite Hnt, Hct. cbn [negb orb].
  rewrite bind_unfold. unfold get_by_username. rewrite query_ok by exact Hf.
  fold (user_named name (db w)). rewrite Hu.
  rewrite bind_unfold. unfold now at 1.
  rewrite Hty, Hno. reflexivity.
Qed.

(** X23. Recovery rotates the TOTP secret. A stored user who recovers
    with an accepted backup code, no repository call failing, is answered
    200 with the base32 form of a freshly drawn secret, without a session
    cookie, and is left without any session. From then on [POST /login]
    for that user is decided by the new secret alone: a code that verifies
    against it is answered 200, any other code the generic 401, whatever
    the credential was before. *)
Theorem recovery_rotates_the_secret (P : Platform)
  (request attempt : Request) (name code totp : string) (u : User)
  (d : Store) (n : nat) (t t' : Z) (smtp dev : bool) :
  field request "username" = Some name ->
  str_truthy name = true ->
  field request "backup_code" = Some code ->
  str_truthy code = true ->
  user_named name d = Some u ->
  user_id u <> UNSAVED ->
  code_accepted P (user_id u) code t d ->
  field attempt "username" = Some name ->
  field attempt "code" = Some totp ->
  str_truthy totp = true ->
  exists resp w1,
    serve P POST_recover_backup_code request (healthy d n t smtp dev)
    = (Ret resp, w1)
    /\ status resp = 200
    /\ cookie_action resp = KeepCookie
    /\ body_field resp "totp_secret"
       = Some (JStr (secret_to_base32 P (random_secret P n)))
    /\ sessions_of (user_id u) (db w1) = []
    /\ (verify_totp P (random_secret P n) totp t' = true ->
        exists resp',
          fst (serve P POST_login attempt (at_time t' w1)) = Ret resp'
          /\ status resp' = 200)
    /\ (verify_totp P (random_secret P n) totp t' = false ->
        fst (serve P POST_login attempt (at_time t' w1))
        = Ret invalid_credentials).
Proof.
  intros Hname Hnt Hcode Hct Hu Hid Hok Han Hac Hat.
  pose proof (recovered_store_user P name u code n t d Hu Hid) as Hu1.
  eexists. eexists. split.
  { unfold serve, handler.
    exact (recover_run P request name code u d n t smtp dev
             Hname Hnt Hcode Hct Hu Hid Hok). }
  split; [reflexivity | split; [reflexivity | split; [reflexivity |]]].
  split; [now apply recovered_store_sessions |].
  split.
  - intros Hyes. unfold serve, handler.
    change (set_g fresh_g
              (at_time t'
                 (healthy (recovered_store P u code n t d)
                    (S n + NUM_BACKUP_CODES) t smtp dev)))
      with (healthy (recovered_store P u code n t d)
              (S n + NUM_BACKUP_CODES) t' smtp dev).
    rewrite (login_run P attempt name totp
               (recomputed (with_credential TOTP (random_secret P n) u))
               _ _ _ _ _ Han Hnt Hac Hat Hu1 eq_refl Hyes).
    eexists. split; reflexivity.
  - intros Hno. unfold serve, handler.
    change (set_g fresh_g
              (at_time t'
                 (healthy (recovered_store P u code n t d)
                    (S n + NUM_BACKUP_CODES) t smtp dev)))
      with (healthy (recovered_store P u code n t d)
              (S n + NUM_BACKUP_CODES) t' smtp dev).
    now rewrite (login_wrong_code P attempt name totp
                   (recomputed (with_credential TOTP (random_secret P n) u))
                   (healthy (recovered_store P u code n t d)
                      (S n + NUM_BACKUP_CODES) t' smtp dev)
                   eq_refl Han Hnt Hac Hat Hu1 eq_refl Hno).
Qed.

Lemma recovery_rotates_the_secret_witness :
  code_accepted demo_platform 2 "code-ii" 1000 demo_store
  /\ fst (serve demo_platform POST_login demo_login_request
            (at_time 1100
               (snd (serve demo_platform POST_recover_backup_code
                       demo_recover_request
                       (healthy demo_store 10 1000 true false)))))
     = Ret invalid_credentials.
Proof.
  assert (Hid : user_id demo_alice_mail <> UNSAVED) by (cbn; unfold UNSAVED; lia).
  split; [reflexivity |].
  destruct (recovery_rotates_the_secret demo_platform demo_recover_request
              demo_login_request "alice1" "code-ii" "SECRETI"
              demo_alice_mail demo_store 10 1000 1100 true false
              eq_refl eq_refl eq_refl eq_refl eq_refl Hid eq_refl
              eq_refl eq_refl eq_refl)
    as (resp & w1 & Hrun & _ & _ & _ & _ & _ & Hno).
  rewrite Hrun. apply Hno. reflexivity.
Defined.

(** X24. What a successful recovery reports. For a stored user whose
    backup code is accepted, no repository call failing, the 200 names the
    user, carries the provisioning URI of the new secret and the eight new
    backup codes, and reports as [remaining_old_codes] the number of
    unused codes the user had before the request, less the one just
    consumed. The warning calls the new codes the only recovery option
    exactly when the user has neither a recovery email nor a recovery
    phone. In the store left the user has eight unused codes. *)
Theorem recovery_answer_counts_old_codes (P : Platform) (request : Request)
  (name code : string) (u : User) (d : Store) (n : nat) (t : Z)
  (smtp dev : bool) :
  field request "username" = Some name ->
  str_truthy name = true ->
  field request "backup_code" = Some code ->
  str_truthy code = true ->
  user_named name d = Some u ->
  user_id u <> UNSAVED ->
  code_accepted P (user_id u) code t d ->
  exists resp w1,
    serve P POST_recover_backup_code request (healthy d n t smtp dev)
    = (Ret resp, w1)
    /\ body_field resp "username" = Some (JStr (username u))
    /\ body_field resp "totp_uri"
       = Some (JStr (get_provisioning_uri P (random_secret P n) (username u)))
    /\ body_field resp "backup_codes"
       = Some (JArr (map JStr (fresh_codes P (S n))))
    /\ List.length (fresh_codes P (S n)) = 8%nat
    /\ body_field resp "remaining_old_codes"
       = Some (JInt (remaining_count (user_id u) d - 1))
    /\ 0 <= remaining_count (user_id u) d - 1
    /\ (exists warning,
          body_field resp "warning" = Some (JStr warning)
          /\ (warning = "Your old backup codes have been invalidated. Save these new codes in a safe place - they are your only recovery option if you lose your authenticator again."
              <-> opt_truthy (recovery_email u) = false
                  /\ opt_truthy (recovery_phone u) = false))
    /\ remaining_count (user_id u) (db w1) = 8.
Proof.
  intros Hname Hnt Hcode Hct Hu Hid Hok.
  eexists. eexists. split.
  { unfold serve, handler.
    exact (recover_run P request name code u d n t smtp dev
             Hname Hnt Hcode Hct Hu Hid Hok). }
  split; [reflexivity | split; [reflexivity | split; [reflexivity |]]].
  split; [apply fresh_codes_length | split; [reflexivity |]].
  split; [|split].
  - rewrite <- (remaining_after_consumption P (user_id u) code t d Hok).
    unfold remaining_count. lia.
  - eexists. split; [reflexivity |].
    destruct (opt_truthy (recovery_email u)), (opt_truthy (recovery_phone u));
      cbn [orb negb]; split;
      first [ discriminate | intros [? ?]; discriminate
            | intros _; split; reflexivity | reflexivity ].
  - cbn [db healthy]. now apply recovered_store_remaining.
Qed.

Lemma recovery_answer_counts_old_codes_witness :
  exists resp,
    fst (serve demo_platform POST_recover_backup_code demo_recover_request
           (healthy demo_store 10 1000 true false)) = Ret resp
    /\ body_field resp "remaining_old_codes" = Some (JInt 1).
Proof.
  assert (Hid : user_id demo_alice_mail <> UNSAVED) by (cbn; unfold UNSAVED; lia).
  destruct (recovery_answer_counts_old_codes demo_platform
              demo_recover_request "alice1" "code-ii" demo_alice_mail
              demo_store 10 1000 true false
              eq_refl eq_refl eq_refl eq_refl eq_refl Hid eq_refl)
    as (resp & w1 & Hrun & _ & _ & _ & _ & Hrem & _).
  exists resp. rewrite Hrun. split; [reflexivity | exact Hrem].
Defined.

